(** * Bluebikes trip aggregation: a shallow embedding of
      [bluebikes_analysis/tasks/aggregate_trips/aggregate_trips.py]

    The pandas frames of the task are lists of records, one record per row,
    in row order.  A cell that pandas holds as NaN / NaT is [None].
    Timestamps are integers (nanoseconds since the epoch, the datetime64[ns]
    representation), calendar dates are day numbers since the epoch, and the
    derived [min_duration] is an exact rational: at the three thresholds the
    code compares against (1, 3 and 120 minutes) the float quotient and the
    exact quotient of an integer number of nanoseconds compare alike.
    A Python exception is a [Raise] in the [result] monad. *)

From Stdlib Require Import List ZArith QArith Bool String Ascii Lia DecimalString.
From Stdlib Require Import Permutation Sorted.
Import ListNotations.

Local Open Scope string_scope.
Local Open Scope list_scope.
Local Open Scope Z_scope.

(* ------------------------------------------------------------------ *)
(** ** Exceptions *)

Inductive exn : Type :=
| ZeroDivisionError
| ValueError (msg : string)
| FileNotFoundError (msg : string).

Inductive result (A : Type) : Type :=
| Ok (a : A)
| Raise (e : exn).

Arguments Ok {A} a.
Arguments Raise {A} e.

Definition bind {A B : Type} (c : result A) (k : A -> result B) : result B :=
  match c with
  | Ok a => k a
  | Raise e => Raise e
  end.

Notation "x <- c ;; k" := (bind c (fun x => k))
  (at level 61, c at next level, right associativity).

(** [a / b * 100] on two Python ints, as the log lines of the cleaner
    evaluate it inside an f-string: true division raises on a zero divisor. *)
Definition percent (a b : nat) : result Q :=
  match b with
  | O => Raise ZeroDivisionError
  | S _ => Ok ((inject_Z (Z.of_nat a) / inject_Z (Z.of_nat b)) * 100)%Q
  end.

(* ------------------------------------------------------------------ *)
(** ** Cells and rows *)

(** An identifier or categorical cell: text, or NaN.  Station identifiers
    are string-typed in the data model of the task, so the [.astype(str)]
    casts of the code leave a non-null cell as it is. *)
Definition cell : Type := option string.

(** A row of a raw trip file, columns already under their canonical names,
    timestamps still text. *)
Record RawTrip : Type := mkRawTrip {
  raw_started_at : cell;
  raw_ended_at : cell;
  raw_start_station_id : cell;
  raw_end_station_id : cell;
  raw_member_casual : cell;
  raw_rideable_type : cell
}.

(** A row after [_parse_datetimes] (coordinates are carried along by the
    code but never read by the cleaner or the aggregators). *)
Record Trip : Type := mkTrip {
  started_at : option Z;
  ended_at : option Z;
  start_station_id : cell;
  end_station_id : cell;
  member_casual : cell;
  rideable_type : cell
}.

(** A row once [_calculate_trip_duration] has added its column. *)
Record DTrip : Type := mkDTrip {
  trip :> Trip;
  min_duration : option Q
}.

(** [Series.isin(values)] on one cell; NaN is in no list of strings. *)
Definition isin (c : cell) (values : list string) : bool :=
  match c with
  | Some s => existsb (String.eqb s) values
  | None => false
  end.

(** Elementwise [==] of two identifier cells; NaN equals nothing. *)
Definition cell_eq (a b : cell) : bool :=
  match a, b with
  | Some x, Some y => String.eqb x y
  | _, _ => false
  end.

(** [cell == "literal"]. *)
Definition cell_is (a : cell) (lit : string) : bool := cell_eq a (Some lit).

(** [.dropna()] on a column. *)
Fixpoint dropna {A : Type} (col : list (option A)) : list A :=
  match col with
  | [] => []
  | Some a :: rest => a :: dropna rest
  | None :: rest => dropna rest
  end.

(** Float comparisons against a constant; every comparison with NaN is
    false. *)
Definition ge_const (x : option Q) (c : Q) : bool :=
  match x with Some d => Qle_bool c d | None => false end.

Definition le_const (x : option Q) (c : Q) : bool :=
  match x with Some d => Qle_bool d c | None => false end.

Definition lt_const (x : option Q) (c : Q) : bool :=
  match x with Some d => negb (Qle_bool c d) | None => false end.

(* ------------------------------------------------------------------ *)
(** ** Trip cleaner *)

(** [str(x).startswith("X")]. *)
Definition startswith_X (s : string) : bool := String.prefix "X" s.

(** [_filter_maintenance_trips].  The two Python sets are lists here: the
    code only tests membership in them (their sizes go to the log). *)
Definition _filter_maintenance_trips
    (all_trips : list Trip) (metadata_station_ids : list string)
    : result (list Trip) :=
  let initial_count := List.length all_trips in
  let filt_unknown_start (t : Trip) :=
    negb (isin (start_station_id t) metadata_station_ids) in
  let filt_unknown_end (t : Trip) :=
    negb (isin (end_station_id t) metadata_station_ids) in
  let all_unknown_ids :=
    dropna (map start_station_id (filter filt_unknown_start all_trips))
    ++ dropna (map end_station_id (filter filt_unknown_end all_trips)) in
  let X_station_ids := filter startswith_X all_unknown_ids in
  let filt_maintenance_start (t : Trip) := isin (start_station_id t) X_station_ids in
  let filt_maintenance_end (t : Trip) := isin (end_station_id t) X_station_ids in
  let kept :=
    filter (fun t => negb (filt_maintenance_start t || filt_maintenance_end t))
           all_trips in
  let removed_count := (initial_count - List.length kept)%nat in
  _ <- percent removed_count initial_count ;;
  Ok kept.

Definition ns_per_second : Z := 1000000000.

(** [(ended_at - started_at).dt.total_seconds() / 60] for one row.  The
    difference is taken in [Z]; pandas takes it in 64-bit nanoseconds and
    raises OverflowError when it does not fit, a path left out here: the
    properties below speak of the tables the cleaner returns. *)
Definition duration_minutes (t : Trip) : option Q :=
  match started_at t, ended_at t with
  | Some s, Some e => Some ((inject_Z (e - s) / inject_Z ns_per_second) / 60)%Q
  | _, _ => None
  end.

Definition with_duration (t : Trip) : DTrip :=
  {| trip := t; min_duration := duration_minutes t |}.

Definition _calculate_trip_duration (all_trips : list Trip) : list DTrip :=
  map with_duration all_trips.

(** The range test of the outlier filter. *)
Definition in_duration_range (r : DTrip) : bool :=
  ge_const (min_duration r) 1 && le_const (min_duration r) 120.

Definition same_station (r : DTrip) : bool :=
  cell_eq (start_station_id r) (end_station_id r).

Definition short_duration (r : DTrip) : bool := lt_const (min_duration r) 3.

Definition _filter_outlier_trips (all_trips : list DTrip) : result (list DTrip) :=
  let initial_count := List.length all_trips in
  let all_trips1 := filter in_duration_range all_trips in
  let all_trips2 :=
    filter (fun r => negb (same_station r && short_duration r)) all_trips1 in
  let total_removed := (initial_count - List.length all_trips2)%nat in
  _ <- percent total_removed initial_count ;;
  Ok all_trips2.

Definition _clean_trip_data
    (all_trips : list Trip) (metadata_station_ids : list string)
    : result (list DTrip) :=
  let initial_count := List.length all_trips in
  all_trips1 <- _filter_maintenance_trips all_trips metadata_station_ids ;;
  let all_trips2 := _calculate_trip_duration all_trips1 in
  all_trips3 <- _filter_outlier_trips all_trips2 ;;
  _ <- percent (List.length all_trips3) initial_count ;;
  Ok all_trips3.

(* ------------------------------------------------------------------ *)
(** ** Trip loader *)

(** [s.endswith(suffix)]. *)
Definition endswith (s suffix : string) : bool :=
  let n := String.length s in
  let m := String.length suffix in
  (m <=? n)%nat && String.eqb (substring (n - m) m s) suffix.

(** [s.replace(".csv", "")]: every occurrence is removed, left to right;
    [skip] counts the characters of a matched occurrence still to drop. *)
Fixpoint remove_dot_csv (skip : nat) (s : string) : string :=
  match s with
  | EmptyString => EmptyString
  | String c rest =>
      match skip with
      | S k => remove_dot_csv k rest
      | O => if String.prefix ".csv" s
             then remove_dot_csv 3 rest
             else String c (remove_dot_csv 0 rest)
      end
  end.

(** [d[k] = v] on a Python dict: an existing key keeps its position and
    takes the new value, a new key goes last. *)
Fixpoint dict_set {V : Type} (d : list (string * V)) (k : string) (v : V)
    : list (string * V) :=
  match d with
  | [] => [(k, v)]
  | (k', v') :: rest =>
      if String.eqb k' k then (k', v) :: rest else (k', v') :: dict_set rest k v
  end.

(** The raw directory as a run sees it: the names [os.listdir] returns, in
    the order it returns them, each with the rows [pd.read_csv] gives for
    that file (columns renamed by [_standardize_trip_data]). *)
Definition Listing : Type := list (string * list RawTrip).

Definition _load_all_trip_csvs (raw_trips_dir : Listing)
    : result (list (string * list RawTrip)) :=
  let csv_files := filter (fun f => endswith (fst f) ".csv") raw_trips_dir in
  match csv_files with
  | [] => Raise (FileNotFoundError "No CSV files found")
  | _ :: _ =>
      Ok (fold_left
            (fun trips_df_dict f => dict_set trips_df_dict (remove_dot_csv 0 (fst f)) (snd f))
            csv_files [])
  end.

Section Parsing.

(** [pd.to_datetime(text, errors="coerce")] on one non-null cell: the
    timestamp, or [None] (NaT) when the text does not parse.  pandas settles
    the format of a column on its first value; here the parser is one
    function of the text, as when the columns of a run share one format. *)
Variable to_datetime : string -> option Z.

Definition to_datetime_cell (c : cell) : option Z :=
  match c with
  | Some s => to_datetime s
  | None => None
  end.

Definition parse_row (r : RawTrip) : Trip :=
  {| started_at := to_datetime_cell (raw_started_at r);
     ended_at := to_datetime_cell (raw_ended_at r);
     start_station_id := raw_start_station_id r;
     end_station_id := raw_end_station_id r;
     member_casual := raw_member_casual r;
     rideable_type := raw_rideable_type r |}.

Definition _parse_datetimes (trips_df_dict : list (string * list RawTrip))
    : list (string * list Trip) :=
  map (fun entry => (fst entry, map parse_row (snd entry))) trips_df_dict.

Definition _concatenate_trips (trips_df_dict : list (string * list Trip))
    : list Trip :=
  List.concat (map snd trips_df_dict).

Definition _load_and_prepare_trips (raw_trips_dir : Listing) : result (list Trip) :=
  trips_df_dict <- _load_all_trip_csvs raw_trips_dir ;;
  Ok (_concatenate_trips (_parse_datetimes trips_df_dict)).

End Parsing.

(* ------------------------------------------------------------------ *)
(** ** Station metadata loader *)

Record Station : Type := mkStation {
  station_id : cell;
  short_name : cell
}.

Section StationMetadata.

(** [list(a_set)]: the order in which a run iterates over the set built
    from the given elements (it varies with the hash seed of the run). *)
Variable set_to_list : list string -> list string.

(** The metadata file is [None] when it does not exist.  A cell is the
    text [.astype(str)] gives for it. *)
Definition _load_station_metadata (station_metadata : option (list Station))
    : result (list Station * list string) :=
  match station_metadata with
  | None => Raise (FileNotFoundError "Station metadata file not found")
  | Some stations_df =>
      let metadata_station_ids :=
        set_to_list (dropna (map station_id stations_df)
                     ++ dropna (map short_name stations_df)) in
      Ok (stations_df, metadata_station_ids)
  end.

End StationMetadata.

(* ------------------------------------------------------------------ *)
(** ** Frame operations shared by the aggregators *)

Section Sorting.

Context {A : Type} (leb : A -> A -> bool).

Fixpoint insert_sorted (x : A) (l : list A) : list A :=
  match l with
  | [] => [x]
  | y :: l' => if leb x y then x :: l else y :: insert_sorted x l'
  end.

(** A stable sort. *)
Definition sort_by (l : list A) : list A := fold_right insert_sorted [] l.

End Sorting.

(** [df.groupby(keys).size()] with its defaults (sorted group keys, rows
    with a null key dropped): each distinct key once, in ascending order,
    with the number of rows that carry it. *)
Definition groupby_size {K : Type} (K_eq_dec : forall a b : K, {a = b} + {a <> b})
    (K_leb : K -> K -> bool) (keys : list (option K)) : list (K * nat) :=
  let ks := dropna keys in
  map (fun k => (k, count_occ K_eq_dec ks k)) (sort_by K_leb (nodup K_eq_dec ks)).

(** [.fillna(0)] followed by [.astype(int)] on a count column. *)
Definition fillna0 (c : option nat) : Z :=
  match c with
  | Some n => Z.of_nat n
  | None => 0
  end.

Definition ns_per_hour : Z := 3600 * ns_per_second.
Definition ns_per_day : Z := 24 * ns_per_hour.

(** [.dt.date], as a day number, and [.dt.hour]. *)
Definition dt_date (ts : Z) : Z := ts / ns_per_day.
Definition dt_hour (ts : Z) : Z := (ts mod ns_per_day) / ns_per_hour.

(* ------------------------------------------------------------------ *)
(** ** Daily aggregator *)

Record DailyRow : Type := mkDailyRow {
  date : Z;
  trip_count : Z
}.

(** [.min()] and [.max()] of a column without nulls; NaN ([None]) on an
    empty column. *)
Definition series_min (col : list Z) : option Z :=
  match col with
  | [] => None
  | x :: rest => Some (fold_left Z.min rest x)
  end.

Definition series_max (col : list Z) : option Z :=
  match col with
  | [] => None
  | x :: rest => Some (fold_left Z.max rest x)
  end.

(** [pd.date_range(start, end, freq='D')], both ends included. *)
Definition date_range (start stop : Z) : list Z :=
  map (fun i => start + Z.of_nat i) (seq 0 (Z.to_nat (stop - start + 1))).

(** [complete_dates.merge(counts, on='date', how='left')]: every left row,
    in order, once per matching right row, or once with a null count. *)
Definition merge_left (complete_dates : list Z) (counts : list (Z * nat))
    : list (Z * option nat) :=
  flat_map
    (fun d =>
       match filter (fun g => Z.eqb (fst g) d) counts with
       | [] => [(d, None)]
       | (_ :: _) as matches => map (fun g => (d, Some (snd g))) matches
       end)
    complete_dates.

(** [_generate_daily_aggregates]; the result is the frame written to
    [daily_aggregates.csv].  On a frame without any date, [min()] and
    [max()] are NaN and [pd.date_range] raises. *)
Definition _generate_daily_aggregates (all_trips : list DTrip)
    : result (list DailyRow) :=
  let dates := map (fun r : DTrip => option_map dt_date (started_at r)) all_trips in
  let daily_aggregates := groupby_size Z.eq_dec Z.leb dates in
  match series_min (map fst daily_aggregates),
        series_max (map fst daily_aggregates) with
  | Some min_date, Some max_date =>
      let full_date_range := date_range min_date max_date in
      Ok (map (fun m => {| date := fst m; trip_count := fillna0 (snd m) |})
              (merge_left full_date_range daily_aggregates))
  | _, _ => Raise (ValueError "Neither `start` nor `end` can be NaT")
  end.

(* ------------------------------------------------------------------ *)
(** ** Hourly station aggregator *)

(** The stations-of-interest file once [json.load] has read it. *)
Inductive json_doc : Type :=
| JsonList (items : list string)
| JsonNotAList.

Definition _load_stations_of_interest (doc : json_doc) : result (list string) :=
  match doc with
  | JsonList stations_of_interest => Ok stations_of_interest
  | JsonNotAList =>
      Raise (ValueError "stations_of_interest file must contain a JSON list")
  end.

(** The five grouping columns. *)
Record Key : Type := mkKey {
  key_station_id : string;
  key_date : Z;
  key_hour : Z;
  key_member : Z;
  key_ebike : Z
}.

Definition Key_eq_dec (a b : Key) : {a = b} + {a <> b}.
Proof.
  decide equality; try apply Z.eq_dec; apply string_dec.
Defined.

Definition Key_eqb (a b : Key) : bool :=
  if Key_eq_dec a b then true else false.

Definition lex (c1 c2 : comparison) : comparison :=
  match c1 with
  | Eq => c2
  | _ => c1
  end.

Definition Key_compare (a b : Key) : comparison :=
  lex (String.compare (key_station_id a) (key_station_id b))
  (lex (Z.compare (key_date a) (key_date b))
  (lex (Z.compare (key_hour a) (key_hour b))
  (lex (Z.compare (key_member a) (key_member b))
       (Z.compare (key_ebike a) (key_ebike b))))).

Definition Key_leb (a b : Key) : bool :=
  match Key_compare a b with
  | Gt => false
  | _ => true
  end.

Record HourlyRow : Type := mkHourlyRow {
  row_key : Key;
  pickups : Z;
  dropoffs : Z
}.

(** [(column == literal).astype(int)]. *)
Definition as_int (b : bool) : Z := if b then 1 else 0.

(** The grouping key of a row under the given station column; null as soon
    as one of the five columns is. *)
Definition group_key (station : cell) (r : DTrip) : option Key :=
  match station, started_at r with
  | Some s, Some ts =>
      Some {| key_station_id := s;
              key_date := dt_date ts;
              key_hour := dt_hour ts;
              key_member := as_int (cell_is (member_casual r) "member");
              key_ebike := as_int (cell_is (rideable_type r) "electric_bike") |}
  | _, _ => None
  end.

Definition pickup_key (r : DTrip) : option Key := group_key (start_station_id r) r.
Definition dropoff_key (r : DTrip) : option Key := group_key (end_station_id r) r.

(** [started_at >= hourly_start]; false on NaT. *)
Definition ts_ge (ts : option Z) (bound : Z) : bool :=
  match ts with
  | Some t => bound <=? t
  | None => false
  end.

(** [pd.merge(pickups, dropoffs, on=keys, how="outer")]: the left rows with
    their matches (or a null right count), then the right rows no left row
    matches.  The caller sorts the result by key. *)
Definition merge_outer (left right : list (Key * nat))
    : list (Key * option nat * option nat) :=
  flat_map
    (fun p =>
       match filter (fun d => Key_eqb (fst d) (fst p)) right with
       | [] => [(fst p, Some (snd p), None)]
       | (_ :: _) as matches =>
           map (fun d => (fst p, Some (snd p), Some (snd d))) matches
       end)
    left
  ++ map (fun d => (fst d, None, Some (snd d)))
         (filter (fun d => negb (existsb (fun p => Key_eqb (fst p) (fst d)) left))
                 right).

Definition sort_values (rows : list HourlyRow) : list HourlyRow :=
  sort_by (fun a b => Key_leb (row_key a) (row_key b)) rows.

(** [_generate_hourly_station_aggregates]; the result is the frame written
    to [hourly_station_aggregates.csv].  A row has every column the
    aggregator reads (null where a file lacks it); on a table without a
    [rideable_type] column at all the code raises KeyError, a path left out
    here. *)
Definition _generate_hourly_station_aggregates
    (all_trips : list DTrip) (stations_doc : json_doc) (hourly_start : Z)
    : result (list HourlyRow) :=
  stations_of_interest <- _load_stations_of_interest stations_doc ;;
  let trips_filtered :=
    filter (fun r : DTrip => ts_ge (started_at r) hourly_start) all_trips in
  let pickups_df :=
    groupby_size Key_eq_dec Key_leb
      (map pickup_key
           (filter (fun r : DTrip => isin (start_station_id r) stations_of_interest)
                   trips_filtered)) in
  let dropoffs_df :=
    groupby_size Key_eq_dec Key_leb
      (map dropoff_key
           (filter (fun r : DTrip => isin (end_station_id r) stations_of_interest)
                   trips_filtered)) in
  let hourly_aggregates :=
    map (fun m => {| row_key := fst (fst m);
                     pickups := fillna0 (snd (fst m));
                     dropoffs := fillna0 (snd m) |})
        (merge_outer pickups_df dropoffs_df) in
  Ok (sort_values hourly_aggregates).

(* ------------------------------------------------------------------ *)
(** ** The task *)

(** The context of a run, each path standing for what the run reads there. *)
Record AggregateTripsContext : Type := mkContext {
  raw_trips_dir : Listing;
  station_metadata_path : option (list Station);
  stations_of_interest_path : json_doc;
  hourly_start_date : Z
}.

(** The two output files; [None] while a file has not been written. *)
Record Outputs : Type := mkOutputs {
  daily_aggregates_csv : option string;
  hourly_station_aggregates_csv : option string
}.

Section Task.

Variable to_datetime : string -> option Z.
Variable set_to_list : list string -> list string.

(** [DataFrame.to_csv(path, index=False)]: the bytes of a frame. *)
Variable daily_to_csv : list DailyRow -> string.
Variable hourly_to_csv : list HourlyRow -> string.

Definition load_and_clean (ctx : AggregateTripsContext) : result (list DTrip) :=
  all_trips <- _load_and_prepare_trips to_datetime (raw_trips_dir ctx) ;;
  metadata <- _load_station_metadata set_to_list (station_metadata_path ctx) ;;
  _clean_trip_data all_trips (snd metadata).

(** [aggregate_trips]: the files written, and how the run ended. *)
Definition aggregate_trips (ctx : AggregateTripsContext) : Outputs * result unit :=
  match load_and_clean ctx with
  | Raise e => (mkOutputs None None, Raise e)
  | Ok all_trips =>
      match _generate_daily_aggregates all_trips with
      | Raise e => (mkOutputs None None, Raise e)
      | Ok daily =>
          let daily_bytes := Some (daily_to_csv daily) in
          match _generate_hourly_station_aggregates
                  all_trips (stations_of_interest_path ctx) (hourly_start_date ctx) with
          | Raise e => (mkOutputs daily_bytes None, Raise e)
          | Ok hourly =>
              (mkOutputs daily_bytes (Some (hourly_to_csv hourly)), Ok tt)
          end
      end
  end.

End Task.

(* ------------------------------------------------------------------ *)
(** ** The outlier filter in one pass *)

Definition gt_const (x : option Q) (c : Q) : bool :=
  match x with Some d => negb (Qle_bool d c) | None => false end.

(** First drop condition as worded: [min_duration < 1] or
    [min_duration > 120], with the comparisons of the code (false on a null
    duration). *)
Definition duration_below_1_or_above_120 (r : DTrip) : bool :=
  lt_const (min_duration r) 1 || gt_const (min_duration r) 120.

(** Second drop condition: same station and [min_duration < 3]. *)
Definition drop_false_start (r : DTrip) : bool :=
  same_station r && short_duration r.

(** One pass that drops the union of the two conditions as worded. *)
Definition outlier_filter_union_as_worded (all_trips : list DTrip) : list DTrip :=
  filter (fun r => negb (duration_below_1_or_above_120 r || drop_false_start r))
         all_trips.

(** First drop condition as the code applies it: the row fails the range
    test [1 <= min_duration <= 120]; a null duration fails it. *)
Definition drop_out_of_range (r : DTrip) : bool :=
  match min_duration r with
  | Some d => negb (Qle_bool 1 d) || negb (Qle_bool d 120)
  | None => true
  end.

(** One pass that drops the rows failing the range test and the false
    starts. *)
Definition outlier_filter_one_pass (all_trips : list DTrip) : list DTrip :=
  filter (fun r => negb (drop_out_of_range r || drop_false_start r)) all_trips.

(* ------------------------------------------------------------------ *)
(** ** Vocabulary of the statements *)

(** An id known to the station metadata. *)
Definition known_id (metadata_station_ids : list string) (c : cell) : bool :=
  isin c metadata_station_ids.

(** A maintenance id: unknown to the metadata and starting with [X]. *)
Definition is_maintenance_id (metadata_station_ids : list string) (c : cell) : bool :=
  match c with
  | Some s => negb (existsb (String.eqb s) metadata_station_ids) && startswith_X s
  | None => false
  end.

Definition touches_maintenance (metadata_station_ids : list string) (t : Trip) : bool :=
  is_maintenance_id metadata_station_ids (start_station_id t)
  || is_maintenance_id metadata_station_ids (end_station_id t).

(** A cell that is null or whose text does not start with [X]. *)
Definition not_X_prefixed (c : cell) : bool :=
  match c with
  | Some s => negb (startswith_X s)
  | None => true
  end.

(** [sum()] of an integer column. *)
Definition sum_Z (col : list Z) : Z := fold_right Z.add 0 col.

(** The calendar date of a trip, null when its start is. *)
Definition trip_date (r : DTrip) : option Z := option_map dt_date (started_at r).

(** Number of rows of a table that start on a given date. *)
Definition trips_on (d : Z) (all_trips : list DTrip) : nat :=
  List.length
    (filter (fun r => match trip_date r with Some x => x =? d | None => false end)
            all_trips).

(** [sum()] of a column of group sizes. *)
Fixpoint sum_nat (l : list nat) : nat :=
  match l with
  | [] => O
  | n :: rest => (n + sum_nat rest)%nat
  end.

(** A (possibly null) key cell that holds the key [k]. *)
Definition key_is (k : Key) (c : option Key) : bool :=
  match c with
  | Some k' => Key_eqb k' k
  | None => false
  end.

(** A trip is counted in the pickups of key [k]: it starts on or after
    [hourly_start], its start station is in the allow-list, and its pickup
    key is [k]. *)
Definition counts_as_pickup
    (k : Key) (stations_of_interest : list string) (hourly_start : Z)
    (r : DTrip) : bool :=
  ts_ge (started_at r) hourly_start
  && isin (start_station_id r) stations_of_interest
  && key_is k (pickup_key r).

(** The same for the end station and the dropoff key. *)
Definition counts_as_dropoff
    (k : Key) (stations_of_interest : list string) (hourly_start : Z)
    (r : DTrip) : bool :=
  ts_ge (started_at r) hourly_start
  && isin (end_station_id r) stations_of_interest
  && key_is k (dropoff_key r).

Definition pickups_at
    (k : Key) (stations_of_interest : list string) (hourly_start : Z)
    (all_trips : list DTrip) : nat :=
  List.length (filter (counts_as_pickup k stations_of_interest hourly_start) all_trips).

Definition dropoffs_at
    (k : Key) (stations_of_interest : list string) (hourly_start : Z)
    (all_trips : list DTrip) : nat :=
  List.length (filter (counts_as_dropoff k stations_of_interest hourly_start) all_trips).

(** Keys of an outer merge: the left keys, then the right keys that are not
    left keys. *)
Definition outer_keys (left right : list Key) : list Key :=
  left ++ filter (fun k => if in_dec Key_eq_dec k left then false else true) right.

(** What a run may do when it turns a set into a list: any order, the same
    elements, each once. *)
Definition set_iteration_order (set_to_list : list string -> list string) : Prop :=
  forall l : list string,
    NoDup (set_to_list l) /\ forall x, In x (set_to_list l) <-> In x l.

(** A comparison that orders its type totally, up to the classes of [Eq]. *)
Record TotalCmp {A : Type} (cmp : A -> A -> comparison) : Prop := mkTotalCmp {
  cmp_refl : forall a, cmp a a = Eq;
  cmp_antisym : forall a b, cmp b a = CompOpp (cmp a b);
  cmp_trans : forall a b c, cmp a b = Lt -> cmp b c = Lt -> cmp a c = Lt;
  cmp_eq_compat : forall a b c, cmp a b = Eq -> cmp a c = cmp b c
}.

Definition leb_of {A : Type} (cmp : A -> A -> comparison) (a b : A) : bool :=
  match cmp a b with
  | Gt => false
  | _ => true
  end.

(** Two outcomes that agree up to the order of the rows. *)
Definition result_perm {A : Type} (r1 r2 : result (list A)) : Prop :=
  match r1, r2 with
  | Ok l1, Ok l2 => Permutation l1 l2
  | Raise e1, Raise e2 => e1 = e2
  | _, _ => False
  end.

(** The CSV files of a listing, and the dict key of each. *)
Definition csv_files (raw_trips_dir : Listing) : Listing :=
  filter (fun f => endswith (fst f) ".csv") raw_trips_dir.

Definition file_key (f : string * list RawTrip) : string := remove_dot_csv 0 (fst f).

(* ------------------------------------------------------------------ *)
(** ** Sample data: 2023-04-01 08:00:00 is day 19448, hour 8 *)

Definition minute_ns : Z := 60 * ns_per_second.
Definition t_0800 : Z := 19448 * ns_per_day + 8 * ns_per_hour.

Definition trip_a_b : Trip :=
  mkTrip (Some t_0800) (Some (t_0800 + 10 * minute_ns))
         (Some "A") (Some "B") (Some "member") (Some "classic_bike").

Definition trip_false_start : Trip :=
  mkTrip (Some (t_0800 + 5 * minute_ns)) (Some (t_0800 + 6 * minute_ns))
         (Some "A") (Some "A") (Some "casual") (Some "classic_bike").

Definition trip_depot : Trip :=
  mkTrip (Some t_0800) (Some (t_0800 + 20 * minute_ns))
         (Some "X1234") (Some "A") (Some "member") (Some "classic_bike").

Definition trip_unlisted : Trip :=
  mkTrip (Some (t_0800 + 3 * ns_per_day)) (Some (t_0800 + 3 * ns_per_day + 16 * minute_ns))
         (Some "ZZ9") (Some "A") (Some "casual") (Some "electric_bike").

Definition raw_unparsed : RawTrip :=
  mkRawTrip (Some "not a date") (Some "2023-04-01 08:10:00")
            (Some "A") (Some "B") (Some "member") (Some "classic_bike").

Definition sample_trips : list Trip :=
  [trip_a_b; trip_false_start; trip_depot; trip_unlisted].

Definition sample_metadata_ids : list string := ["A"; "B"].

(** A parser that coerces every text to NaT. *)
Definition never_parses (s : string) : option Z := None.

Definition sample_cleaned : list DTrip :=
  [with_duration trip_a_b; with_duration trip_unlisted].

(** A directory with one file whose only row has an unparseable start. *)
Definition sample_listing : Listing := [("202304-bluebikes-tripdata.csv", [raw_unparsed])].

Definition sample_stations : list Station :=
  [mkStation (Some "A") None; mkStation None (Some "B")].

Definition sample_context : AggregateTripsContext :=
  {| raw_trips_dir := sample_listing;
     station_metadata_path := Some sample_stations;
     stations_of_interest_path := JsonList ["A"; "B"];
     hourly_start_date := 19448 * ns_per_day |}.

(** Two iteration orders. *)
Definition first_seen_order (l : list string) : list string := nodup string_dec l.
Definition last_seen_order (l : list string) : list string := rev (nodup string_dec l).

(** A parser that knows two timestamps. *)
Definition sample_to_datetime (s : string) : option Z :=
  if String.eqb s "2023-04-01 08:00:00" then Some t_0800
  else if String.eqb s "2023-04-01 08:10:00" then Some (t_0800 + 10 * minute_ns)
  else None.

(** Sample CSV writers (dates shown as day numbers). *)
Definition render_Z (z : Z) : string := NilZero.string_of_int (Z.to_int z).

Definition newline : string := String (ascii_of_nat 10) EmptyString.

Definition sample_daily_to_csv (rows : list DailyRow) : string :=
  String.concat newline
    ("date,trip_count"
     :: map (fun r => (render_Z (date r) ++ "," ++ render_Z (trip_count r))%string) rows).

Definition sample_hourly_to_csv (rows : list HourlyRow) : string :=
  String.concat newline
    ("station_id,date,hour,member,ebike,pickups,dropoffs"
     :: map (fun r =>
               (key_station_id (row_key r) ++ "," ++ render_Z (key_date (row_key r))
                ++ "," ++ render_Z (key_hour (row_key r))
                ++ "," ++ render_Z (key_member (row_key r))
                ++ "," ++ render_Z (key_ebike (row_key r))
                ++ "," ++ render_Z (pickups r)
                ++ "," ++ render_Z (dropoffs r))%string)
            rows).

Definition raw_a_b : RawTrip :=
  mkRawTrip (Some "2023-04-01 08:00:00") (Some "2023-04-01 08:10:00")
            (Some "A") (Some "B") (Some "member") (Some "classic_bike").

Definition raw_b_a : RawTrip :=
  mkRawTrip (Some "2023-04-01 08:00:00") (Some "2023-04-01 08:10:00")
            (Some "B") (Some "A") (Some "casual") (Some "electric_bike").

Definition april_context : AggregateTripsContext :=
  {| raw_trips_dir := [("202304-bluebikes-tripdata.csv", [raw_a_b; raw_unparsed]);
                       ("202305-bluebikes-tripdata.csv", [raw_b_a])];
     station_metadata_path := Some sample_stations;
     stations_of_interest_path := JsonList ["A"; "B"];
     hourly_start_date := 19448 * ns_per_day |}.



(* ------------------------------------------------------------------ *)
(** ** Column standardisation *)

(** A frame by columns: label and content of each column, left to right.
    Labels may repeat, as pandas allows. *)
Definition Frame (C : Type) : Type := list (string * C).

(** Column name mapping: old -> new. *)
Definition column_mapping : list (string * string) :=
  [("starttime", "started_at");
   ("stoptime", "ended_at");
   ("start station id", "start_station_id");
   ("end station id", "end_station_id");
   ("start station latitude", "start_lat");
   ("start station longitude", "start_lng");
   ("end station latitude", "end_lat");
   ("end station longitude", "end_lng");
   ("usertype", "member_casual")].

(** Columns to keep (standardized names). *)
Definition keep_columns : list string :=
  ["started_at"; "ended_at"; "start_station_id"; "end_station_id";
   "start_lat"; "start_lng"; "end_lat"; "end_lng";
   "member_casual"; "rideable_type"].

(** The new label of a column under [df.rename(columns=column_mapping)]. *)
Definition renamed (label : string) : string :=
  match find (fun p => String.eqb (fst p) label) column_mapping with
  | Some p => snd p
  | None => label
  end.

Definition rename_columns {C : Type} (df : Frame C) : Frame C :=
  map (fun col => (renamed (fst col), snd col)) df.

(** [df[labels]]: for each label in turn, every column that carries it. *)
Definition select_columns {C : Type} (df : Frame C) (labels : list string) : Frame C :=
  flat_map (fun c => filter (fun col => String.eqb (fst col) c) df) labels.

(** One iteration of the loop of [_standardize_trip_data]. *)
Definition standardize_frame {C : Type} (df : Frame C) : Frame C :=
  let df' := rename_columns df in
  let cols_to_keep :=
    filter (fun c => existsb (String.eqb c) (map fst df')) keep_columns in
  select_columns df' cols_to_keep.

Definition _standardize_trip_data {C : Type} (trips_df_dict : list (string * Frame C))
    : list (string * Frame C) :=
  map (fun entry => (fst entry, standardize_frame (snd entry))) trips_df_dict.

(* ------------------------------------------------------------------ *)
(** ** Context validation ([types.py]) *)

Definition _validate_storage (storage : string) : result unit :=
  if existsb (String.eqb storage) ["local"; "drive"]
  then Ok tt
  else Raise (ValueError "output_storage must be one of ['local', 'drive']").

(** [datetime(2023, 4, 1)]. *)
Definition min_date : Z := 19448 * ns_per_day.

Section Validation.

(** [datetime.strptime(text, "%Y-%m-%d")]: the datetime, or [None] when it
    raises ValueError. *)
Variable strptime : string -> option Z.

Definition _validate_hourly_start_date (date_str : string) : result unit :=
  match strptime date_str with
  | None => Raise (ValueError "hourly_start_date must be in YYYY-MM-DD format")
  | Some date =>
      if date <? min_date
      then Raise (ValueError "hourly_start_date must be 2023-04-01 or later (new station ID system)")
      else Ok tt
  end.

(** The argument tells whether the path exists. *)
Definition _validate_stations_file (file_exists : bool) : result unit :=
  if file_exists
  then Ok tt
  else Raise (FileNotFoundError "Stations of interest file not found").

(** [AggregateTripsContext.__post_init__], after the output directory is
    made. *)
Definition post_init (output_storage hourly_start_date_str : string)
    (stations_file_exists : bool) : result unit :=
  _ <- _validate_storage output_storage ;;
  _ <- _validate_hourly_start_date hourly_start_date_str ;;
  _validate_stations_file stations_file_exists.

End Validation.

(* ------------------------------------------------------------------ *)
(** ** More vocabulary *)

(** [d[k]] on a dict, [None] for a missing key. *)
Definition dict_get {V : Type} (d : list (string * V)) (k : string) : option V :=
  match find (fun e => String.eqb (fst e) k) d with
  | Some e => Some (snd e)
  | None => None
  end.

(** The rows of the last file of a listing whose dict key is [k]. *)
Definition last_with_key (files : Listing) (k : string) : option (list RawTrip) :=
  fold_left (fun found f => if String.eqb (file_key f) k then Some (snd f) else found)
            files None.

(** A text with a dot in it. *)
Fixpoint has_dot (s : string) : bool :=
  match s with
  | EmptyString => false
  | String c rest => Ascii.eqb c "." || has_dot rest
  end.

(** The listing of files named [stem.csv]. *)
Definition named_listing (files : list (string * list RawTrip)) : Listing :=
  map (fun f => ((fst f ++ ".csv")%string, snd f)) files.

(** The row-local test of the cleaner: the trip touches no maintenance id,
    its duration passes the range test, and it is no false start. *)
Definition keeps (metadata_station_ids : list string) (t : Trip) : bool :=
  negb (touches_maintenance metadata_station_ids t)
  && in_duration_range (with_duration t)
  && negb (same_station (with_duration t) && short_duration (with_duration t)).

Definition ns_per_minute : Z := 60 * ns_per_second.

(** Whether a started trip counts for some key of the hourly frame. *)
Definition counted_somewhere
    (stations_of_interest : list string) (hourly_start : Z) (r : DTrip) : bool :=
  ts_ge (started_at r) hourly_start
  && (isin (start_station_id r) stations_of_interest
      || isin (end_station_id r) stations_of_interest).

(** Two files named by dot-free stems. *)
Definition april_files : list (string * list RawTrip) :=
  [("202304-bluebikes-tripdata", [raw_a_b; raw_unparsed]);
   ("202305-bluebikes-tripdata", [raw_b_a])].

(** A row with a start timestamp. *)
Definition has_start (r : DTrip) : bool :=
  match started_at r with
  | Some _ => true
  | None => false
  end.

(** A [strptime] that knows two dates. *)
Definition sample_strptime (s : string) : option Z :=
  if String.eqb s "2023-04-01" then Some (19448 * ns_per_day)
  else if String.eqb s "2021-01-01" then Some (18628 * ns_per_day)
  else None.

(** A legacy frame, columns in file order, and a frame of the new format
    with a column the task does not keep. *)
Definition legacy_frame : Frame nat :=
  [("tripduration", 0%nat); ("starttime", 1%nat); ("stoptime", 2%nat);
   ("start station id", 3%nat); ("end station id", 4%nat); ("usertype", 5%nat)].

Definition recent_frame : Frame nat :=
  [("ride_id", 0%nat); ("rideable_type", 1%nat); ("started_at", 2%nat);
   ("ended_at", 3%nat); ("start_station_id", 4%nat); ("end_station_id", 5%nat);
   ("member_casual", 6%nat)].

(* ================================================================== *)
(** * Properties *)

(** ** Cells, columns and the log percentages *)

Lemma percent_nonzero (a b : nat) :
  b <> O -> exists q, percent a b = Ok q.
Proof.
  destruct b as [|b']; [congruence | intros _; eexists; reflexivity].
Qed.

Lemma percent_Ok_inv (a b : nat) (q : Q) :
  percent a b = Ok q -> b <> O.
Proof.
  destruct b; simpl; [discriminate | auto].
Qed.

Lemma In_dropna {A : Type} (a : A) (col : list (option A)) :
  In a (dropna col) <-> In (Some a) col.
Proof.
  induction col as [|[x|] col IH]; simpl.
  - tauto.
  - rewrite IH. split; intros [H|H]; auto; left; congruence.
  - rewrite IH. split; [auto | intros [H|H]; [discriminate | auto]].
Qed.

Lemma isin_true_iff (c : cell) (values : list string) :
  isin c values = true <-> exists s, c = Some s /\ In s values.
Proof.
  destruct c as [s|]; simpl.
  - rewrite existsb_exists. split.
    + intros [x [Hin Heq]]. apply String.eqb_eq in Heq. subst x. eauto.
    + intros [s' [Hs Hin]]. inversion Hs; subst s'.
      exists s. split; [assumption | apply String.eqb_refl].
  - split; [discriminate | intros [s [Hs _]]; discriminate].
Qed.

Lemma existsb_eqb_In (s : string) (values : list string) :
  existsb (String.eqb s) values = true <-> In s values.
Proof.
  rewrite existsb_exists. split.
  - intros [x [Hin Heq]]. apply String.eqb_eq in Heq. now subst x.
  - intros Hin. exists s. split; [assumption | apply String.eqb_refl].
Qed.

Lemma isin_same_elements (c : cell) (l1 l2 : list string) :
  (forall s, In s l1 <-> In s l2) -> isin c l1 = isin c l2.
Proof.
  intros Hsame. apply Bool.eq_iff_eq_true.
  rewrite !isin_true_iff. split; intros [s [Hc Hin]]; exists s; split; auto;
    now apply Hsame.
Qed.

(** ** Maintenance filter *)

(** Membership in the X-prefixed unknown ids collected from the table is
    the row-local test [is_maintenance_id], for every cell of the table. *)
Lemma isin_X_station_ids
    (all_trips : list Trip) (metadata_station_ids : list string) (c : cell) :
  (exists t, In t all_trips /\ (start_station_id t = c \/ end_station_id t = c)) ->
  isin c
    (filter startswith_X
       (dropna (map start_station_id
                  (filter (fun t => negb (isin (start_station_id t) metadata_station_ids))
                          all_trips))
        ++ dropna (map end_station_id
                     (filter (fun t => negb (isin (end_station_id t) metadata_station_ids))
                             all_trips))))
  = is_maintenance_id metadata_station_ids c.
Proof.
  intros [t [Ht Hc]].
  apply Bool.eq_iff_eq_true. rewrite isin_true_iff.
  destruct c as [s|]; simpl.
  - rewrite andb_true_iff, negb_true_iff. split.
    + intros [s' [Hs Hin]]. inversion Hs; subst s'. clear Hs.
      apply filter_In in Hin. destruct Hin as [Hin HX]. split; [|assumption].
      apply in_app_or in Hin.
      destruct Hin as [Hin|Hin]; apply In_dropna, in_map_iff in Hin;
        destruct Hin as [u [Hu Hin]]; apply filter_In in Hin;
        destruct Hin as [_ Hunk]; rewrite Hu in Hunk; simpl in Hunk;
        now apply negb_true_iff in Hunk.
    + intros [Hunk HX]. exists s. split; [reflexivity|].
      apply filter_In. split; [|assumption].
      apply in_or_app.
      destruct Hc as [Hc|Hc]; [left | right]; apply In_dropna, in_map_iff;
        exists t; (split; [assumption|]); apply filter_In;
        (split; [assumption|]); rewrite Hc; simpl; now apply negb_true_iff.
  - split; [intros [s [Hs _]]; discriminate | discriminate].
Qed.

Lemma filter_maintenance_trips_eq
    (all_trips : list Trip) (metadata_station_ids : list string) :
  _filter_maintenance_trips all_trips metadata_station_ids
  = (_ <- percent (List.length all_trips
                   - List.length (filter (fun t => negb (touches_maintenance metadata_station_ids t))
                                         all_trips))%nat
                  (List.length all_trips) ;;
     Ok (filter (fun t => negb (touches_maintenance metadata_station_ids t)) all_trips)).
Proof.
  unfold _filter_maintenance_trips.
  match goal with
  | |- context [filter ?f all_trips] =>
      match f with
      | (fun t => negb (isin _ _ || _)) =>
          replace (filter f all_trips)
            with (filter (fun t => negb (touches_maintenance metadata_station_ids t))
                         all_trips)
      end
  end.
  - reflexivity.
  - apply filter_ext_in. intros t Ht. unfold touches_maintenance.
    rewrite !isin_X_station_ids by (exists t; auto). reflexivity.
Qed.

Lemma filter_maintenance_trips_nonempty
    (all_trips : list Trip) (metadata_station_ids : list string) :
  all_trips <> [] ->
  _filter_maintenance_trips all_trips metadata_station_ids
  = Ok (filter (fun t => negb (touches_maintenance metadata_station_ids t)) all_trips).
Proof.
  intros Hne. rewrite filter_maintenance_trips_eq.
  destruct all_trips as [|t rest]; [congruence | reflexivity].
Qed.

Lemma filter_maintenance_trips_Ok
    (all_trips kept : list Trip) (metadata_station_ids : list string) :
  _filter_maintenance_trips all_trips metadata_station_ids = Ok kept ->
  all_trips <> []
  /\ kept = filter (fun t => negb (touches_maintenance metadata_station_ids t)) all_trips.
Proof.
  rewrite filter_maintenance_trips_eq.
  destruct all_trips as [|t rest]; simpl; [discriminate|].
  intros H. inversion H. split; [discriminate | reflexivity].
Qed.

(** ** Outlier filter *)

Lemma filter_filter {A : Type} (f g : A -> bool) (l : list A) :
  filter g (filter f l) = filter (fun x => f x && g x) l.
Proof.
  induction l as [|x l IH]; simpl; [reflexivity|].
  destruct (f x); simpl; [destruct (g x)|]; now rewrite IH.
Qed.

Lemma filter_outlier_trips_eq (all_trips : list DTrip) :
  _filter_outlier_trips all_trips
  = (_ <- percent (List.length all_trips
                   - List.length
                       (filter (fun r => negb (same_station r && short_duration r))
                               (filter in_duration_range all_trips)))%nat
                  (List.length all_trips) ;;
     Ok (filter (fun r => negb (same_station r && short_duration r))
                (filter in_duration_range all_trips))).
Proof. reflexivity. Qed.

Lemma filter_outlier_trips_Ok (all_trips out : list DTrip) :
  _filter_outlier_trips all_trips = Ok out ->
  all_trips <> []
  /\ out = filter (fun r => negb (same_station r && short_duration r))
                  (filter in_duration_range all_trips).
Proof.
  rewrite filter_outlier_trips_eq.
  destruct all_trips as [|r rest]; simpl; [discriminate|].
  intros H. inversion H. split; [discriminate | reflexivity].
Qed.

(** The range test and the first drop condition are complementary. *)
Lemma drop_out_of_range_negb (r : DTrip) :
  drop_out_of_range r = negb (in_duration_range r).
Proof.
  unfold drop_out_of_range, in_duration_range, ge_const, le_const.
  destruct (min_duration r) as [d|]; [|reflexivity].
  now rewrite negb_andb.
Qed.

Lemma drop_out_of_range_spec (r : DTrip) :
  drop_out_of_range r = true <->
  min_duration r = None
  \/ exists d, min_duration r = Some d /\ (d < 1 \/ 120 < d)%Q.
Proof.
  unfold drop_out_of_range. destruct (min_duration r) as [d|].
  - rewrite orb_true_iff, !negb_true_iff. split.
    + intros H. right. exists d. split; [reflexivity|].
      destruct H as [H|H]; [left | right]; apply Qnot_le_lt; intros Hle;
        apply Qle_bool_iff in Hle; congruence.
    + intros [H|[d' [Hd H]]]; [discriminate|]. inversion Hd; subst d'.
      destruct H as [H|H]; [left | right]; apply not_true_is_false;
        intros Hle; apply Qle_bool_iff in Hle;
        exact (Qlt_not_le _ _ H Hle).
  - split; auto.
Qed.

(** What the two filters leave in a row. *)
Lemma outlier_survivor (r : DTrip) :
  in_duration_range r = true ->
  negb (same_station r && short_duration r) = true ->
  exists d, min_duration r = Some d
            /\ (1 <= d)%Q /\ (d <= 120)%Q
            /\ ~ (same_station r = true /\ (d < 3)%Q).
Proof.
  unfold in_duration_range, short_duration, ge_const, le_const, lt_const.
  destruct (min_duration r) as [d|]; simpl; [|discriminate].
  rewrite andb_true_iff, negb_true_iff, !Qle_bool_iff.
  intros [Hlo Hhi] Hfs. exists d. repeat split; try assumption.
  intros [Hsame Hlt]. rewrite Hsame in Hfs. simpl in Hfs.
  apply negb_false_iff, Qle_bool_iff in Hfs.
  exact (Qlt_not_le _ _ Hlt Hfs).
Qed.

(** ** Cleaner *)

Lemma clean_trip_data_Ok
    (all_trips : list Trip) (metadata_station_ids : list string) (cleaned : list DTrip) :
  _clean_trip_data all_trips metadata_station_ids = Ok cleaned ->
  cleaned
  = filter (fun r => negb (same_station r && short_duration r))
      (filter in_duration_range
         (_calculate_trip_duration
            (filter (fun t => negb (touches_maintenance metadata_station_ids t))
                    all_trips))).
Proof.
  unfold _clean_trip_data.
  destruct (_filter_maintenance_trips all_trips metadata_station_ids) as [kept|e] eqn:Hm;
    simpl; [|discriminate].
  apply filter_maintenance_trips_Ok in Hm. destruct Hm as [_ Hkept].
  destruct (_filter_outlier_trips (_calculate_trip_duration kept)) as [out|e] eqn:Ho;
    simpl; [|discriminate].
  apply filter_outlier_trips_Ok in Ho. destruct Ho as [_ Hout].
  destruct (percent (List.length out) (List.length all_trips)); simpl; [|discriminate].
  intros H. inversion H. subst. reflexivity.
Qed.

(** The cleaner returns a table exactly when some trip survives the
    maintenance filter; otherwise a log line divides by zero. *)
Lemma clean_trip_data_returns
    (all_trips : list Trip) (metadata_station_ids : list string) :
  filter (fun t => negb (touches_maintenance metadata_station_ids t)) all_trips <> [] ->
  exists cleaned, _clean_trip_data all_trips metadata_station_ids = Ok cleaned.
Proof.
  intros Hkept.
  assert (Hne : all_trips <> []) by (intros ->; now apply Hkept).
  unfold _clean_trip_data.
  rewrite (filter_maintenance_trips_nonempty _ _ Hne). simpl.
  rewrite filter_outlier_trips_eq.
  destruct (percent_nonzero
              (List.length
                 (_calculate_trip_duration
                    (filter (fun t => negb (touches_maintenance metadata_station_ids t))
                            all_trips))
               - List.length
                   (filter (fun r => negb (same_station r && short_duration r))
                      (filter in_duration_range
                         (_calculate_trip_duration
                            (filter (fun t => negb (touches_maintenance metadata_station_ids t))
                                    all_trips)))))
              (List.length
                 (_calculate_trip_duration
                    (filter (fun t => negb (touches_maintenance metadata_station_ids t))
                            all_trips)))) as [q Hq].
  { unfold _calculate_trip_duration. rewrite length_map.
    intros H0. apply length_zero_iff_nil in H0. now apply Hkept. }
  rewrite Hq. simpl.
  match goal with
  | |- context [percent ?a ?b] => destruct (percent_nonzero a b) as [q' Hq']
  end.
  { intros H0. apply length_zero_iff_nil in H0. now apply Hne. }
  rewrite Hq'. simpl. eexists. reflexivity.
Qed.

Lemma cleaned_row_inv
    (all_trips : list Trip) (metadata_station_ids : list string)
    (cleaned : list DTrip) (r : DTrip) :
  _clean_trip_data all_trips metadata_station_ids = Ok cleaned ->
  In r cleaned ->
  negb (same_station r && short_duration r) = true
  /\ in_duration_range r = true
  /\ r = with_duration (trip r)
  /\ In (trip r) all_trips
  /\ touches_maintenance metadata_station_ids (trip r) = false.
Proof.
  intros Hclean Hin. apply clean_trip_data_Ok in Hclean. subst cleaned.
  apply filter_In in Hin. destruct Hin as [Hin Hfs].
  apply filter_In in Hin. destruct Hin as [Hin Hrange].
  unfold _calculate_trip_duration in Hin. apply in_map_iff in Hin.
  destruct Hin as [t [Ht Hin]]. apply filter_In in Hin.
  destruct Hin as [Hin Hm]. subst r. simpl.
  repeat split; try assumption. now apply negb_true_iff.
Qed.

(** C1: every row of the table the trip cleaner returns carries a duration
    with [1 <= min_duration <= 120], and no returned row has both
    [start_station_id == end_station_id] (the elementwise comparison of the
    code) and [min_duration < 3]. *)
Theorem cleaned_rows_duration_invariant :
  forall (all_trips : list Trip) (metadata_station_ids : list string)
         (cleaned : list DTrip),
    _clean_trip_data all_trips metadata_station_ids = Ok cleaned ->
    forall r : DTrip, In r cleaned ->
      exists d : Q,
        min_duration r = Some d
        /\ (1 <= d)%Q /\ (d <= 120)%Q
        /\ ~ (same_station r = true /\ (d < 3)%Q).
Proof.
  intros all_trips ids cleaned Hclean r Hin.
  destruct (cleaned_row_inv _ _ _ _ Hclean Hin) as [Hfs [Hrange _]].
  now apply outlier_survivor.
Qed.

Lemma cleaned_rows_duration_invariant_witness :
  _clean_trip_data sample_trips sample_metadata_ids = Ok sample_cleaned
  /\ forall r : DTrip, In r sample_cleaned ->
       exists d : Q,
         min_duration r = Some d
         /\ (1 <= d)%Q /\ (d <= 120)%Q
         /\ ~ (same_station r = true /\ (d < 3)%Q).
Proof.
  split; [reflexivity|].
  apply (cleaned_rows_duration_invariant sample_trips sample_metadata_ids).
  reflexivity.
Defined.

(** C4, as stated, fails: a trip from an id the metadata does not list and
    that does not start with X goes through the cleaner. *)
Lemma cleaned_row_with_unknown_id :
  _clean_trip_data [trip_unlisted] sample_metadata_ids = Ok [with_duration trip_unlisted]
  /\ ~ (forall r : DTrip, In r [with_duration trip_unlisted] ->
          known_id sample_metadata_ids (start_station_id r) = true
          /\ known_id sample_metadata_ids (end_station_id r) = true).
Proof.
  split; [reflexivity|].
  intros H. destruct (H (with_duration trip_unlisted)) as [Hs _].
  - left. reflexivity.
  - discriminate Hs.
Qed.

(** C4, amended: in every row the cleaner returns, each of the two station
    ids is present in the known-id set, or is null, or does not start with
    X; an unknown id without the X prefix is kept. *)
Theorem cleaned_rows_known_or_not_X :
  forall (all_trips : list Trip) (metadata_station_ids : list string)
         (cleaned : list DTrip),
    _clean_trip_data all_trips metadata_station_ids = Ok cleaned ->
    forall r : DTrip, In r cleaned ->
      (known_id metadata_station_ids (start_station_id r) = true
       \/ not_X_prefixed (start_station_id r) = true)
      /\ (known_id metadata_station_ids (end_station_id r) = true
          \/ not_X_prefixed (end_station_id r) = true).
Proof.
  intros all_trips ids cleaned Hclean r Hin.
  destruct (cleaned_row_inv _ _ _ _ Hclean Hin) as [_ [_ [_ [_ Hm]]]].
  unfold touches_maintenance in Hm. apply orb_false_iff in Hm.
  unfold known_id, is_maintenance_id, not_X_prefixed, isin in *.
  destruct Hm as [Hs He].
  split.
  - destruct (start_station_id (trip r)) as [s|]; [|now right].
    apply andb_false_iff in Hs. destruct Hs as [Hs|Hs].
    + left. now apply negb_false_iff.
    + right. now rewrite Hs.
  - destruct (end_station_id (trip r)) as [s|]; [|now right].
    apply andb_false_iff in He. destruct He as [He|He].
    + left. now apply negb_false_iff.
    + right. now rewrite He.
Qed.

Lemma cleaned_rows_known_or_not_X_witness :
  _clean_trip_data sample_trips sample_metadata_ids = Ok sample_cleaned
  /\ forall r : DTrip, In r sample_cleaned ->
       (known_id sample_metadata_ids (start_station_id r) = true
        \/ not_X_prefixed (start_station_id r) = true)
       /\ (known_id sample_metadata_ids (end_station_id r) = true
           \/ not_X_prefixed (end_station_id r) = true).
Proof.
  split; [reflexivity|].
  apply (cleaned_rows_known_or_not_X sample_trips sample_metadata_ids).
  reflexivity.
Defined.

(** C5: whenever the maintenance filter returns, it has dropped exactly the
    trips whose start or end id is unknown to the metadata and starts with
    X, and it returns on every table with at least one row; so no kept row,
    and no cleaned row whatever its duration, references such an id, while
    a trip none of whose ids starts with X (unknown ids included) is kept
    as it is. *)
Theorem maintenance_filter_drops_exactly_X_unknown :
  forall (all_trips : list Trip) (metadata_station_ids : list string),
    (all_trips <> [] ->
     _filter_maintenance_trips all_trips metadata_station_ids
     = Ok (filter (fun t => negb (touches_maintenance metadata_station_ids t)) all_trips))
    /\ (forall kept : list Trip,
          _filter_maintenance_trips all_trips metadata_station_ids = Ok kept ->
          kept = filter (fun t => negb (touches_maintenance metadata_station_ids t))
                        all_trips)
    /\ (forall (kept : list Trip) (t : Trip),
          _filter_maintenance_trips all_trips metadata_station_ids = Ok kept ->
          (In t kept <->
           In t all_trips
           /\ is_maintenance_id metadata_station_ids (start_station_id t) = false
           /\ is_maintenance_id metadata_station_ids (end_station_id t) = false))
    /\ (forall (kept : list Trip) (t : Trip),
          _filter_maintenance_trips all_trips metadata_station_ids = Ok kept ->
          In t all_trips ->
          not_X_prefixed (start_station_id t) = true ->
          not_X_prefixed (end_station_id t) = true ->
          In t kept)
    /\ (forall (cleaned : list DTrip) (r : DTrip),
          _clean_trip_data all_trips metadata_station_ids = Ok cleaned ->
          In r cleaned ->
          is_maintenance_id metadata_station_ids (start_station_id r) = false
          /\ is_maintenance_id metadata_station_ids (end_station_id r) = false).
Proof.
  intros all_trips ids.
  assert (Hiff : forall (kept : list Trip) (t : Trip),
             _filter_maintenance_trips all_trips ids = Ok kept ->
             (In t kept <->
              In t all_trips
              /\ is_maintenance_id ids (start_station_id t) = false
              /\ is_maintenance_id ids (end_station_id t) = false)).
  { intros kept t Hk. apply filter_maintenance_trips_Ok in Hk.
    destruct Hk as [_ ->]. rewrite filter_In, negb_true_iff.
    unfold touches_maintenance. rewrite orb_false_iff. tauto. }
  split; [now apply filter_maintenance_trips_nonempty|].
  split; [intros kept Hk; now apply filter_maintenance_trips_Ok in Hk|].
  split; [exact Hiff|]. split.
  - intros kept t Hk Hin Hs He. apply (Hiff kept t Hk). split; [assumption|].
    unfold not_X_prefixed, is_maintenance_id in *.
    split.
    + destruct (start_station_id t) as [s|]; [|reflexivity].
      apply negb_true_iff in Hs. rewrite Hs. apply andb_false_r.
    + destruct (end_station_id t) as [s|]; [|reflexivity].
      apply negb_true_iff in He. rewrite He. apply andb_false_r.
  - intros cleaned r Hclean Hin.
    destruct (cleaned_row_inv _ _ _ _ Hclean Hin) as [_ [_ [_ [_ Hm]]]].
    unfold touches_maintenance in Hm. now apply orb_false_iff in Hm.
Qed.

Lemma maintenance_filter_drops_exactly_X_unknown_witness :
  sample_trips <> []
  /\ _filter_maintenance_trips sample_trips sample_metadata_ids
     = Ok [trip_a_b; trip_false_start; trip_unlisted].
Proof.
  split; [discriminate|].
  apply (proj1 (maintenance_filter_drops_exactly_X_unknown
                  sample_trips sample_metadata_ids)).
  discriminate.
Defined.

Lemma filter_outlier_trips_empty :
  _filter_outlier_trips [] = Raise ZeroDivisionError.
Proof. reflexivity. Qed.

(** C7, as stated, fails on a row with a null duration: the range test of
    the code drops it, while it meets neither [min_duration < 1] nor
    [min_duration > 120] nor the false-start condition. *)
Lemma outlier_filter_drops_null_duration :
  _filter_outlier_trips [with_duration (parse_row never_parses raw_unparsed)] = Ok []
  /\ outlier_filter_union_as_worded [with_duration (parse_row never_parses raw_unparsed)]
     = [with_duration (parse_row never_parses raw_unparsed)].
Proof. split; reflexivity. Qed.

(** C7, amended: the range test (keep [1 <= min_duration <= 120], which a
    null duration fails) followed by the false-start drop, as the code
    applies them, returns exactly the table obtained by dropping in one pass
    the union of the rows that fail the range test and the false starts:
    on every table with at least one row the filter returns that table, and
    whenever it returns, that is what it returns.  On a non-null duration,
    failing the range test is [min_duration < 1] or [min_duration > 120]. *)
Theorem outlier_filter_sequential_is_union :
  forall all_trips : list DTrip,
    (all_trips <> [] ->
     _filter_outlier_trips all_trips = Ok (outlier_filter_one_pass all_trips))
    /\ (forall out : list DTrip,
          _filter_outlier_trips all_trips = Ok out ->
          out = outlier_filter_one_pass all_trips)
    /\ (forall r : DTrip,
          drop_out_of_range r = true <->
          min_duration r = None
          \/ exists d, min_duration r = Some d /\ (d < 1 \/ 120 < d)%Q).
Proof.
  intros all_trips.
  assert (Heq : filter (fun r => negb (same_station r && short_duration r))
                       (filter in_duration_range all_trips)
                = outlier_filter_one_pass all_trips).
  { rewrite filter_filter. unfold outlier_filter_one_pass.
    apply filter_ext. intros r.
    rewrite drop_out_of_range_negb. unfold drop_false_start.
    now rewrite negb_orb, negb_involutive. }
  split; [|split].
  - intros Hne. rewrite filter_outlier_trips_eq.
    match goal with
    | |- context [percent ?a ?b] => destruct (percent_nonzero a b) as [q Hq]
    end.
    { intros H0. apply length_zero_iff_nil in H0. contradiction. }
    rewrite Hq. simpl. now rewrite Heq.
  - intros out Hout. apply filter_outlier_trips_Ok in Hout.
    destruct Hout as [_ ->]. exact Heq.
  - apply drop_out_of_range_spec.
Qed.

Lemma outlier_filter_sequential_is_union_witness :
  _calculate_trip_duration sample_trips <> []
  /\ _filter_outlier_trips (_calculate_trip_duration sample_trips)
     = Ok (outlier_filter_one_pass (_calculate_trip_duration sample_trips)).
Proof.
  split; [discriminate|].
  apply (proj1 (outlier_filter_sequential_is_union
                  (_calculate_trip_duration sample_trips))).
  discriminate.
Defined.

(** ** Rows with an unparseable timestamp *)

Lemma duration_minutes_null (t : Trip) :
  started_at t = None \/ ended_at t = None -> duration_minutes t = None.
Proof.
  unfold duration_minutes. intros [H|H]; rewrite H; [reflexivity|].
  now destruct (started_at t).
Qed.

Lemma in_concatenate_parsed
    (to_datetime : string -> option Z) (trips_df_dict : list (string * list RawTrip))
    (name : string) (df : list RawTrip) (raw : RawTrip) :
  In (name, df) trips_df_dict -> In raw df ->
  In (parse_row to_datetime raw)
     (_concatenate_trips (_parse_datetimes to_datetime trips_df_dict)).
Proof.
  intros Hdf Hraw. unfold _concatenate_trips, _parse_datetimes.
  apply in_concat. exists (map (parse_row to_datetime) df). split.
  - apply in_map_iff. exists (name, map (parse_row to_datetime) df).
    split; [reflexivity|].
    apply in_map_iff. exists (name, df). split; [reflexivity | assumption].
  - now apply in_map.
Qed.

(** C8: a raw row whose [started_at] or [ended_at] does not parse is loaded
    with a null timestamp (the load goes on and the row reaches the
    concatenated table), its [min_duration] is null, the 1-120 range test is
    false on it, and no row of a table the cleaner returns comes from it. *)
Theorem unparsed_timestamp_row_excluded_by_range_test :
  forall (to_datetime : string -> option Z) (raw : RawTrip),
    to_datetime_cell to_datetime (raw_started_at raw) = None
    \/ to_datetime_cell to_datetime (raw_ended_at raw) = None ->
    (started_at (parse_row to_datetime raw) = None
     \/ ended_at (parse_row to_datetime raw) = None)
    /\ (forall (trips_df_dict : list (string * list RawTrip))
               (name : string) (df : list RawTrip),
          In (name, df) trips_df_dict -> In raw df ->
          In (parse_row to_datetime raw)
             (_concatenate_trips (_parse_datetimes to_datetime trips_df_dict)))
    /\ min_duration (with_duration (parse_row to_datetime raw)) = None
    /\ in_duration_range (with_duration (parse_row to_datetime raw)) = false
    /\ (forall (all_trips : list Trip) (metadata_station_ids : list string)
               (cleaned : list DTrip) (r : DTrip),
          _clean_trip_data all_trips metadata_station_ids = Ok cleaned ->
          In r cleaned ->
          trip r <> parse_row to_datetime raw).
Proof.
  intros to_datetime raw Hfail.
  assert (Hnull : started_at (parse_row to_datetime raw) = None
                  \/ ended_at (parse_row to_datetime raw) = None) by exact Hfail.
  assert (Hdur : min_duration (with_duration (parse_row to_datetime raw)) = None)
    by (simpl; now apply duration_minutes_null).
  assert (Hrange : in_duration_range (with_duration (parse_row to_datetime raw)) = false)
    by (unfold in_duration_range; now rewrite Hdur).
  repeat split; try assumption.
  - intros d name df. apply in_concatenate_parsed.
  - intros all_trips ids cleaned r Hclean Hin Heq.
    destruct (cleaned_row_inv _ _ _ _ Hclean Hin) as [_ [Hr [Hwd _]]].
    rewrite Hwd, Heq in Hr. congruence.
Qed.

Lemma unparsed_timestamp_row_excluded_by_range_test_witness :
  (to_datetime_cell never_parses (raw_started_at raw_unparsed) = None
   \/ to_datetime_cell never_parses (raw_ended_at raw_unparsed) = None)
  /\ min_duration (with_duration (parse_row never_parses raw_unparsed)) = None
  /\ in_duration_range (with_duration (parse_row never_parses raw_unparsed)) = false.
Proof.
  split; [left; reflexivity|].
  destruct (unparsed_timestamp_row_excluded_by_range_test never_parses raw_unparsed
              (or_introl eq_refl)) as [_ [_ [Hd [Hr _]]]].
  split; assumption.
Defined.

(** ** Daily aggregator on a table without dates *)

(** C6: on an empty cleaned table the daily aggregator fails (the
    specification's EmptyInputError is the ValueError that [pd.date_range]
    raises on null bounds), and a run whose cleaned table is empty ends with
    that error before any file is written. *)
Theorem daily_aggregates_fail_on_empty_table :
  _generate_daily_aggregates []
  = Raise (ValueError "Neither `start` nor `end` can be NaT")
  /\ forall (to_datetime : string -> option Z)
            (set_to_list : list string -> list string)
            (daily_to_csv : list DailyRow -> string)
            (hourly_to_csv : list HourlyRow -> string)
            (ctx : AggregateTripsContext),
       load_and_clean to_datetime set_to_list ctx = Ok [] ->
       aggregate_trips to_datetime set_to_list daily_to_csv hourly_to_csv ctx
       = (mkOutputs None None,
          Raise (ValueError "Neither `start` nor `end` can be NaT")).
Proof.
  split; [reflexivity|].
  intros to_datetime set_to_list daily_to_csv hourly_to_csv ctx Hclean.
  unfold aggregate_trips. rewrite Hclean. reflexivity.
Qed.

Lemma daily_aggregates_fail_on_empty_table_witness :
  load_and_clean never_parses (fun ids => ids) sample_context = Ok []
  /\ aggregate_trips never_parses (fun ids => ids)
       (fun _ => EmptyString) (fun _ => EmptyString) sample_context
     = (mkOutputs None None,
        Raise (ValueError "Neither `start` nor `end` can be NaT")).
Proof.
  split; [reflexivity|].
  apply (proj2 daily_aggregates_fail_on_empty_table). reflexivity.
Defined.

(** ** Sorting and grouping *)

Section SortFacts.

Context {A : Type} (leb : A -> A -> bool).

Lemma insert_sorted_perm (x : A) (l : list A) :
  Permutation (insert_sorted leb x l) (x :: l).
Proof.
  induction l as [|y l IH]; simpl; [apply Permutation_refl|].
  destruct (leb x y); [apply Permutation_refl|].
  apply perm_trans with (y :: x :: l); [now apply perm_skip | apply perm_swap].
Qed.

Lemma sort_by_perm (l : list A) : Permutation (sort_by leb l) l.
Proof.
  induction l as [|x l IH]; simpl; [apply perm_nil|].
  apply perm_trans with (x :: sort_by leb l);
    [apply insert_sorted_perm | now apply perm_skip].
Qed.

Lemma sort_by_In (x : A) (l : list A) : In x (sort_by leb l) <-> In x l.
Proof.
  split; apply Permutation_in;
    [apply sort_by_perm | apply Permutation_sym, sort_by_perm].
Qed.

Lemma sort_by_NoDup (l : list A) : NoDup l -> NoDup (sort_by leb l).
Proof.
  apply Permutation_NoDup, Permutation_sym, sort_by_perm.
Qed.

End SortFacts.

Section GroupFacts.

Context {K : Type} (K_eq_dec : forall a b : K, {a = b} + {a <> b}).
Context (K_leb : K -> K -> bool).

Lemma groupby_size_keys (keys : list (option K)) :
  map fst (groupby_size K_eq_dec K_leb keys)
  = sort_by K_leb (nodup K_eq_dec (dropna keys)).
Proof.
  unfold groupby_size. rewrite map_map. simpl. apply map_id.
Qed.

Lemma groupby_size_NoDup (keys : list (option K)) :
  NoDup (map fst (groupby_size K_eq_dec K_leb keys)).
Proof.
  rewrite groupby_size_keys. apply sort_by_NoDup, NoDup_nodup.
Qed.

Lemma groupby_size_key_In (keys : list (option K)) (k : K) :
  In k (map fst (groupby_size K_eq_dec K_leb keys)) <-> In (Some k) keys.
Proof.
  now rewrite groupby_size_keys, sort_by_In, nodup_In, In_dropna.
Qed.

Lemma groupby_size_In (keys : list (option K)) (k : K) (n : nat) :
  In (k, n) (groupby_size K_eq_dec K_leb keys) <->
  In (Some k) keys /\ n = count_occ K_eq_dec (dropna keys) k.
Proof.
  unfold groupby_size. rewrite in_map_iff. split.
  - intros [k' [Heq Hin]]. inversion Heq; subst.
    split; [|reflexivity].
    now rewrite sort_by_In, nodup_In, In_dropna in Hin.
  - intros [Hin ->]. exists k. split; [reflexivity|].
    now rewrite sort_by_In, nodup_In, In_dropna.
Qed.

(** Rows of a grouping that carry a given key. *)
Lemma filter_key_NoDup {V : Type} (c : K -> V) (groups : list K) (k : K)
    (test : K * V -> bool) :
  (forall g, test g = true <-> fst g = k) ->
  NoDup groups ->
  filter test (map (fun g => (g, c g)) groups)
  = if in_dec K_eq_dec k groups then [(k, c k)] else [].
Proof.
  intros Htest. induction groups as [|g groups IH]; intros Hnd; [reflexivity|].
  inversion Hnd as [|? ? Hnotin Hnd']; subst. simpl.
  destruct (test (g, c g)) eqn:Hg.
  - apply Htest in Hg. simpl in Hg. subst g.
    destruct (K_eq_dec k k) as [Hkk|Hne]; [|congruence].
    rewrite (IH Hnd'). destruct (in_dec K_eq_dec k groups); [contradiction | reflexivity].
  - assert (Hne : g <> k).
    { intros Heq. assert (Ht : test (g, c g) = true) by now apply Htest.
      congruence. }
    destruct (K_eq_dec g k) as [Heq|Hgk]; [contradiction|].
    rewrite (IH Hnd'). destruct (in_dec K_eq_dec k groups); reflexivity.
Qed.

(** Counting: over duplicate-free keys, the group sizes add up to the
    number of rows whose key is among them. *)
Lemma sum_indicator (k : K) (D : list K) :
  NoDup D ->
  sum_nat (map (fun d => if K_eq_dec k d then 1%nat else 0%nat) D)
  = if in_dec K_eq_dec k D then 1%nat else 0%nat.
Proof.
  induction D as [|d D IH]; intros Hnd; [reflexivity|].
  inversion Hnd as [|? ? Hnotin Hnd']; subst. simpl. rewrite (IH Hnd').
  destruct (K_eq_dec d k) as [->|Hne].
  - destruct (K_eq_dec k k) as [_|Hne]; [|congruence].
    destruct (in_dec K_eq_dec k D); [contradiction | reflexivity].
  - destruct (K_eq_dec k d) as [Hkd|Hkd]; [congruence|].
    destruct (in_dec K_eq_dec k D); reflexivity.
Qed.

Lemma sum_nat_plus (f g : K -> nat) (D : list K) :
  sum_nat (map (fun d => (f d + g d)%nat) D)
  = (sum_nat (map f D) + sum_nat (map g D))%nat.
Proof.
  induction D as [|d D IH]; simpl; [reflexivity | rewrite IH; lia].
Qed.

Lemma sum_count_occ (ks D : list K) :
  NoDup D ->
  (forall k, In k ks -> In k D) ->
  sum_nat (map (count_occ K_eq_dec ks) D) = List.length ks.
Proof.
  intros Hnd. induction ks as [|k ks IH]; intros Hsub.
  - simpl. induction D as [|d D IHD]; simpl; [reflexivity|].
    inversion Hnd; subst. now apply IHD.
  - rewrite (map_ext (count_occ K_eq_dec (k :: ks))
               (fun d => ((if K_eq_dec k d then 1 else 0)
                          + count_occ K_eq_dec ks d)%nat)).
    + rewrite sum_nat_plus, (sum_indicator k D Hnd), IH.
      * destruct (in_dec K_eq_dec k D) as [_|Hnot]; [reflexivity|].
        exfalso. apply Hnot, Hsub. now left.
      * intros k' Hk'. apply Hsub. now right.
    + intros d. simpl. destruct (K_eq_dec k d); reflexivity.
Qed.

End GroupFacts.

(** ** Daily aggregator *)

Lemma fold_left_min_spec (l : list Z) (x : Z) :
  (fold_left Z.min l x = x \/ In (fold_left Z.min l x) l)
  /\ fold_left Z.min l x <= x
  /\ forall y, In y l -> fold_left Z.min l x <= y.
Proof.
  revert x. induction l as [|a l IH]; intros x; simpl.
  - repeat split; [now left | lia | tauto].
  - destruct (IH (Z.min x a)) as [Hin [Hle Hall]]. repeat split.
    + destruct Hin as [Heq|Hin]; [|now right; right].
      rewrite Heq. destruct (Z.min_spec x a) as [[_ ->]|[_ ->]]; auto.
    + lia.
    + intros y [->|Hy]; [lia | now apply Hall].
Qed.

Lemma fold_left_max_spec (l : list Z) (x : Z) :
  (fold_left Z.max l x = x \/ In (fold_left Z.max l x) l)
  /\ x <= fold_left Z.max l x
  /\ forall y, In y l -> y <= fold_left Z.max l x.
Proof.
  revert x. induction l as [|a l IH]; intros x; simpl.
  - repeat split; [now left | lia | tauto].
  - destruct (IH (Z.max x a)) as [Hin [Hle Hall]]. repeat split.
    + destruct Hin as [Heq|Hin]; [|now right; right].
      rewrite Heq. destruct (Z.max_spec x a) as [[_ ->]|[_ ->]]; auto.
    + lia.
    + intros y [->|Hy]; [lia | now apply Hall].
Qed.

Lemma series_min_spec (col : list Z) :
  col <> [] ->
  exists m, series_min col = Some m /\ In m col /\ forall y, In y col -> m <= y.
Proof.
  destruct col as [|x rest]; [congruence|]. intros _.
  destruct (fold_left_min_spec rest x) as [Hin [Hle Hall]].
  exists (fold_left Z.min rest x). repeat split.
  - destruct Hin as [->|Hin]; [now left | now right].
  - intros y [<-|Hy]; [assumption | now apply Hall].
Qed.

Lemma series_max_spec (col : list Z) :
  col <> [] ->
  exists m, series_max col = Some m /\ In m col /\ forall y, In y col -> y <= m.
Proof.
  destruct col as [|x rest]; [congruence|]. intros _.
  destruct (fold_left_max_spec rest x) as [Hin [Hle Hall]].
  exists (fold_left Z.max rest x). repeat split.
  - destruct Hin as [->|Hin]; [now left | now right].
  - intros y [<-|Hy]; [assumption | now apply Hall].
Qed.

Lemma date_range_In (start stop d : Z) :
  In d (date_range start stop) <-> start <= d <= stop.
Proof.
  unfold date_range. rewrite in_map_iff. split.
  - intros [i [<- Hi]]. apply in_seq in Hi. lia.
  - intros Hd. exists (Z.to_nat (d - start)). split; [lia|].
    apply in_seq. lia.
Qed.

Lemma offsets_strictly_sorted (start : Z) (n s : nat) :
  StronglySorted Z.lt (map (fun i => start + Z.of_nat i) (seq s n)).
Proof.
  revert s. induction n as [|n IH]; intros s; simpl; constructor.
  - apply IH.
  - apply Forall_forall. intros d Hd. apply in_map_iff in Hd.
    destruct Hd as [i [<- Hi]]. apply in_seq in Hi. lia.
Qed.

Lemma date_range_sorted (start stop : Z) :
  StronglySorted Z.lt (date_range start stop).
Proof. apply offsets_strictly_sorted. Qed.

Lemma strictly_sorted_NoDup (l : list Z) : StronglySorted Z.lt l -> NoDup l.
Proof.
  induction 1 as [|x l Hs IH Hall]; constructor; [|assumption].
  intros Hin. rewrite Forall_forall in Hall. specialize (Hall x Hin). lia.
Qed.

Lemma flat_map_singletons {A B : Type} (f : A -> list B) (g : A -> B) (l : list A) :
  (forall a, In a l -> f a = [g a]) -> flat_map f l = map g l.
Proof.
  induction l as [|a l IH]; intros H; simpl; [reflexivity|].
  rewrite (H a) by now left. simpl. f_equal. apply IH.
  intros b Hb. apply H. now right.
Qed.

Lemma merge_left_groups (complete_dates groups : list Z) (c : Z -> nat) :
  NoDup groups ->
  merge_left complete_dates (map (fun k => (k, c k)) groups)
  = map (fun d => (d, if in_dec Z.eq_dec d groups then Some (c d) else None))
        complete_dates.
Proof.
  intros Hnd. unfold merge_left. apply flat_map_singletons. intros d _.
  rewrite (filter_key_NoDup Z.eq_dec c groups d) by
    (try assumption; intros g; apply Z.eqb_eq).
  destruct (in_dec Z.eq_dec d groups); reflexivity.
Qed.

Lemma count_occ_trips_on (d : Z) (all_trips : list DTrip) :
  count_occ Z.eq_dec (dropna (map trip_date all_trips)) d = trips_on d all_trips.
Proof.
  unfold trips_on. induction all_trips as [|r rest IH]; simpl; [reflexivity|].
  destruct (trip_date r) as [x|]; simpl; [|assumption].
  destruct (Z.eq_dec x d) as [->|Hne].
  - rewrite Z.eqb_refl. simpl. now rewrite IH.
  - apply Z.eqb_neq in Hne. now rewrite Hne.
Qed.

Lemma sum_Z_of_nat {A : Type} (f : A -> nat) (D : list A) :
  sum_Z (map (fun d => Z.of_nat (f d)) D) = Z.of_nat (sum_nat (map f D)).
Proof.
  induction D as [|d D IH]; simpl; [reflexivity | rewrite IH; lia].
Qed.

(** The frame the daily aggregator writes, in closed form. *)
Lemma generate_daily_aggregates_eq (all_trips : list DTrip) :
  dropna (map trip_date all_trips) <> [] ->
  exists min_date max_date,
    (In min_date (dropna (map trip_date all_trips))
     /\ forall d, In d (dropna (map trip_date all_trips)) -> min_date <= d)
    /\ (In max_date (dropna (map trip_date all_trips))
        /\ forall d, In d (dropna (map trip_date all_trips)) -> d <= max_date)
    /\ _generate_daily_aggregates all_trips
       = Ok (map (fun d => {| date := d; trip_count := Z.of_nat (trips_on d all_trips) |})
                 (date_range min_date max_date)).
Proof.
  intros Hne. unfold _generate_daily_aggregates.
  fold trip_date.
  change (map (fun r : DTrip => option_map dt_date (started_at r)) all_trips)
    with (map trip_date all_trips).
  set (ks := dropna (map trip_date all_trips)) in *.
  rewrite (groupby_size_keys Z.eq_dec Z.leb).
  fold ks. set (groups := sort_by Z.leb (nodup Z.eq_dec ks)).
  assert (Hgroups : forall d, In d groups <-> In d ks).
  { intros d. unfold groups. now rewrite sort_by_In, nodup_In. }
  assert (Hgne : groups <> []).
  { destruct ks as [|k ks'] eqn:Hks; [congruence|].
    intros Hg. assert (Hin : In k groups) by (apply Hgroups; now left).
    rewrite Hg in Hin. destruct Hin. }
  destruct (series_min_spec groups Hgne) as [lo [Hlo [Hlo_in Hlo_le]]].
  destruct (series_max_spec groups Hgne) as [hi [Hhi [Hhi_in Hhi_le]]].
  exists lo, hi. rewrite Hlo, Hhi.
  split; [split; [now apply Hgroups | intros d Hd; now apply Hlo_le, Hgroups]|].
  split; [split; [now apply Hgroups | intros d Hd; now apply Hhi_le, Hgroups]|].
  f_equal. unfold groupby_size. fold ks. fold groups.
  rewrite merge_left_groups by (apply sort_by_NoDup, NoDup_nodup).
  rewrite map_map. apply map_ext. intros d. simpl. f_equal.
  unfold ks. rewrite <- count_occ_trips_on. fold ks.
  destruct (in_dec Z.eq_dec d groups) as [Hin|Hnot]; [reflexivity|].
  simpl. rewrite (proj1 (count_occ_not_In Z.eq_dec ks d)); [reflexivity|].
  intros Hin. now apply Hnot, Hgroups.
Qed.

Lemma cleaned_row_has_date
    (all_trips : list Trip) (metadata_station_ids : list string)
    (cleaned : list DTrip) (r : DTrip) :
  _clean_trip_data all_trips metadata_station_ids = Ok cleaned ->
  In r cleaned ->
  exists ts, started_at r = Some ts /\ trip_date r = Some (dt_date ts).
Proof.
  intros Hclean Hin.
  destruct (cleaned_row_inv _ _ _ _ Hclean Hin) as [_ [Hrange [Hwd _]]].
  unfold in_duration_range in Hrange. rewrite Hwd in Hrange. simpl in Hrange.
  unfold duration_minutes, trip_date in *.
  destruct (started_at (trip r)) as [ts|]; [|discriminate].
  exists ts. split; reflexivity.
Qed.

Lemma dropna_length_no_null {A B : Type} (f : A -> option B) (l : list A) :
  (forall a, In a l -> exists b, f a = Some b) ->
  List.length (dropna (map f l)) = List.length l.
Proof.
  induction l as [|a l IH]; intros H; simpl; [reflexivity|].
  destruct (H a (or_introl eq_refl)) as [b ->]. simpl. f_equal.
  apply IH. intros a' Ha'. apply H. now right.
Qed.

(** C2: on a non-empty table returned by the cleaner the daily aggregator
    returns one row per calendar date from the earliest to the latest start
    date of the table, both included and both attained, in strictly
    ascending order and without duplicates; each count is the number of
    trips that start on that date, hence non-negative and zero on a date
    without trips; and the counts add up to the number of cleaned trips. *)
Theorem daily_aggregates_dense_sorted_conserving :
  forall (all_trips : list Trip) (metadata_station_ids : list string)
         (cleaned : list DTrip),
    _clean_trip_data all_trips metadata_station_ids = Ok cleaned ->
    cleaned <> [] ->
    exists (daily : list DailyRow) (min_date max_date : Z),
      _generate_daily_aggregates cleaned = Ok daily
      /\ (exists r, In r cleaned /\ trip_date r = Some min_date)
      /\ (exists r, In r cleaned /\ trip_date r = Some max_date)
      /\ (forall r, In r cleaned ->
            exists d, trip_date r = Some d /\ min_date <= d <= max_date)
      /\ (forall d, In d (map date daily) <-> min_date <= d <= max_date)
      /\ StronglySorted Z.lt (map date daily)
      /\ NoDup (map date daily)
      /\ (forall row, In row daily ->
            trip_count row = Z.of_nat (trips_on (date row) cleaned)
            /\ 0 <= trip_count row)
      /\ (forall row, In row daily ->
            (forall r, In r cleaned -> trip_date r <> Some (date row)) ->
            trip_count row = 0)
      /\ sum_Z (map trip_count daily) = Z.of_nat (List.length cleaned).
Proof.
  intros all_trips ids cleaned Hclean Hne.
  assert (Hdates : forall r, In r cleaned -> exists d, trip_date r = Some d).
  { intros r Hr. destruct (cleaned_row_has_date _ _ _ _ Hclean Hr) as [ts [_ Hd]].
    eauto. }
  assert (Hks : dropna (map trip_date cleaned) <> []).
  { intros H0. apply Hne. apply length_zero_iff_nil.
    rewrite <- (dropna_length_no_null trip_date cleaned Hdates), H0. reflexivity. }
  destruct (generate_daily_aggregates_eq cleaned Hks)
    as [lo [hi [[Hlo_in Hlo_le] [[Hhi_in Hhi_le] Heq]]]].
  assert (Hcol : map date
                   (map (fun d => {| date := d;
                                     trip_count := Z.of_nat (trips_on d cleaned) |})
                        (date_range lo hi))
                 = date_range lo hi)
    by (rewrite map_map; apply map_id).
  eexists; exists lo, hi. split; [exact Heq|].
  rewrite Hcol.
  split.
  { apply In_dropna, in_map_iff in Hlo_in. destruct Hlo_in as [r [Hd Hr]]. eauto. }
  split.
  { apply In_dropna, in_map_iff in Hhi_in. destruct Hhi_in as [r [Hd Hr]]. eauto. }
  split.
  { intros r Hr. destruct (Hdates r Hr) as [d Hd]. exists d. split; [assumption|].
    assert (Hin : In d (dropna (map trip_date cleaned))).
    { apply In_dropna, in_map_iff. eauto. }
    split; [now apply Hlo_le | now apply Hhi_le]. }
  split; [intros d; apply date_range_In|].
  split; [apply date_range_sorted|].
  split; [apply strictly_sorted_NoDup, date_range_sorted|].
  split.
  { intros row Hrow. apply in_map_iff in Hrow. destruct Hrow as [d [<- _]].
    simpl. split; [reflexivity | lia]. }
  split.
  { intros row Hrow Hnone. apply in_map_iff in Hrow.
    destruct Hrow as [d [<- _]]. simpl in *.
    rewrite <- count_occ_trips_on.
    rewrite (proj1 (count_occ_not_In Z.eq_dec _ d)); [reflexivity|].
    intros Hin. apply In_dropna, in_map_iff in Hin.
    destruct Hin as [r [Hd Hr]]. exact (Hnone r Hr Hd). }
  rewrite map_map. simpl.
  rewrite (sum_Z_of_nat (fun d => trips_on d cleaned)).
  rewrite (map_ext (fun d => trips_on d cleaned)
             (count_occ Z.eq_dec (dropna (map trip_date cleaned))))
    by (intros d; symmetry; apply count_occ_trips_on).
  rewrite sum_count_occ.
  - now rewrite (dropna_length_no_null trip_date cleaned Hdates).
  - apply strictly_sorted_NoDup, date_range_sorted.
  - intros d Hd. apply date_range_In. split; [now apply Hlo_le | now apply Hhi_le].
Qed.

Lemma daily_aggregates_dense_sorted_conserving_witness :
  _clean_trip_data sample_trips sample_metadata_ids = Ok sample_cleaned
  /\ sample_cleaned <> []
  /\ exists (daily : list DailyRow) (min_date max_date : Z),
       _generate_daily_aggregates sample_cleaned = Ok daily
       /\ (forall d, In d (map date daily) <-> min_date <= d <= max_date)
       /\ StronglySorted Z.lt (map date daily)
       /\ sum_Z (map trip_count daily) = Z.of_nat (List.length sample_cleaned).
Proof.
  split; [reflexivity|]. split; [discriminate|].
  destruct (daily_aggregates_dense_sorted_conserving
              sample_trips sample_metadata_ids sample_cleaned
              eq_refl ltac:(discriminate))
    as [daily [lo [hi [Hd [_ [_ [_ [Hin [Hs [_ [_ [_ Hsum]]]]]]]]]]]].
  exists daily, lo, hi. repeat split; try assumption; now apply Hin.
Defined.

(** ** Hourly station aggregator *)

Lemma Key_eqb_eq (a b : Key) : Key_eqb a b = true <-> a = b.
Proof.
  unfold Key_eqb. destruct (Key_eq_dec a b); split; congruence.
Qed.

Lemma count_occ_key_is (key_of : DTrip -> option Key) (rows : list DTrip) (k : Key) :
  count_occ Key_eq_dec (dropna (map key_of rows)) k
  = List.length (filter (fun r => key_is k (key_of r)) rows).
Proof.
  induction rows as [|r rows IH]; simpl; [reflexivity|].
  unfold key_is at 1. destruct (key_of r) as [k'|]; simpl; [|assumption].
  unfold Key_eqb. destruct (Key_eq_dec k' k); simpl; now rewrite IH.
Qed.

Lemma count_occ_pickups
    (k : Key) (stations_of_interest : list string) (hourly_start : Z)
    (all_trips : list DTrip) :
  count_occ Key_eq_dec
    (dropna (map pickup_key
               (filter (fun r : DTrip => isin (start_station_id r) stations_of_interest)
                  (filter (fun r : DTrip => ts_ge (started_at r) hourly_start) all_trips))))
    k
  = pickups_at k stations_of_interest hourly_start all_trips.
Proof.
  rewrite count_occ_key_is, !filter_filter. unfold pickups_at. f_equal.
  apply filter_ext. intros r. unfold counts_as_pickup. now rewrite andb_assoc.
Qed.

Lemma count_occ_dropoffs
    (k : Key) (stations_of_interest : list string) (hourly_start : Z)
    (all_trips : list DTrip) :
  count_occ Key_eq_dec
    (dropna (map dropoff_key
               (filter (fun r : DTrip => isin (end_station_id r) stations_of_interest)
                  (filter (fun r : DTrip => ts_ge (started_at r) hourly_start) all_trips))))
    k
  = dropoffs_at k stations_of_interest hourly_start all_trips.
Proof.
  rewrite count_occ_key_is, !filter_filter. unfold dropoffs_at. f_equal.
  apply filter_ext. intros r. unfold counts_as_dropoff. now rewrite andb_assoc.
Qed.

Lemma existsb_left_key (cp : Key -> nat) (gp : list Key) (k : Key) :
  existsb (fun p : Key * nat => Key_eqb (fst p) k) (map (fun g => (g, cp g)) gp)
  = if in_dec Key_eq_dec k gp then true else false.
Proof.
  apply Bool.eq_iff_eq_true. rewrite existsb_exists. split.
  - intros [p [Hin Heq]]. apply in_map_iff in Hin. destruct Hin as [g [<- Hg]].
    simpl in Heq. apply Key_eqb_eq in Heq. subst g.
    destruct (in_dec Key_eq_dec k gp); [reflexivity | contradiction].
  - destruct (in_dec Key_eq_dec k gp) as [Hin|]; [intros _ | discriminate].
    exists (k, cp k). split; [|now apply Key_eqb_eq].
    apply in_map_iff. now exists k.
Qed.

(** The outer merge of two groupings, in closed form. *)
Lemma merge_outer_groups (cp cd : Key -> nat) (gp gd : list Key) :
  NoDup gd ->
  merge_outer (map (fun g => (g, cp g)) gp) (map (fun g => (g, cd g)) gd)
  = map (fun k => (k, Some (cp k),
                   if in_dec Key_eq_dec k gd then Some (cd k) else None)) gp
    ++ map (fun k => (k, None, Some (cd k)))
           (filter (fun k => if in_dec Key_eq_dec k gp then false else true) gd).
Proof.
  intros Hgd. unfold merge_outer. f_equal.
  - rewrite flat_map_concat_map, map_map, <- flat_map_concat_map.
    apply flat_map_singletons. intros k _. simpl.
    rewrite (filter_key_NoDup Key_eq_dec cd gd k) by
      (try assumption; intros g; apply Key_eqb_eq).
    destruct (in_dec Key_eq_dec k gd); reflexivity.
  - rewrite filter_map_swap, map_map. simpl. f_equal.
    apply filter_ext. intros k. rewrite existsb_left_key.
    destruct (in_dec Key_eq_dec k gp); reflexivity.
Qed.

(** The rows of the hourly frame before the final sort, for two columns of
    (possibly null) keys. *)
Lemma hourly_rows_eq (pickup_keys dropoff_keys : list (option Key)) :
  map (fun m : Key * option nat * option nat =>
         {| row_key := fst (fst m);
            pickups := fillna0 (snd (fst m));
            dropoffs := fillna0 (snd m) |})
      (merge_outer (groupby_size Key_eq_dec Key_leb pickup_keys)
                   (groupby_size Key_eq_dec Key_leb dropoff_keys))
  = map (fun k =>
           {| row_key := k;
              pickups := Z.of_nat (count_occ Key_eq_dec (dropna pickup_keys) k);
              dropoffs := Z.of_nat (count_occ Key_eq_dec (dropna dropoff_keys) k) |})
        (outer_keys (map fst (groupby_size Key_eq_dec Key_leb pickup_keys))
                    (map fst (groupby_size Key_eq_dec Key_leb dropoff_keys))).
Proof.
  rewrite !groupby_size_keys. unfold groupby_size, outer_keys.
  set (pk := dropna pickup_keys). set (dk := dropna dropoff_keys).
  set (gp := sort_by Key_leb (nodup Key_eq_dec pk)).
  set (gd := sort_by Key_leb (nodup Key_eq_dec dk)).
  assert (Hgp : forall k, In k gp <-> In k pk)
    by (intros k; unfold gp; now rewrite sort_by_In, nodup_In).
  assert (Hgd : forall k, In k gd <-> In k dk)
    by (intros k; unfold gd; now rewrite sort_by_In, nodup_In).
  rewrite merge_outer_groups by (apply sort_by_NoDup, NoDup_nodup).
  rewrite !map_app, !map_map. simpl. f_equal.
  - apply map_ext. intros k. f_equal.
    destruct (in_dec Key_eq_dec k gd) as [Hin|Hnot]; [reflexivity|].
    simpl. rewrite (proj1 (count_occ_not_In Key_eq_dec dk k)); [reflexivity|].
    intros Hin. now apply Hnot, Hgd.
  - apply map_ext_in. intros k Hk. apply filter_In in Hk. destruct Hk as [_ Hk].
    destruct (in_dec Key_eq_dec k gp) as [|Hnot]; [discriminate|].
    f_equal. simpl.
    rewrite (proj1 (count_occ_not_In Key_eq_dec pk k)); [reflexivity|].
    intros Hin. now apply Hnot, Hgp.
Qed.

Lemma outer_keys_In (left right : list Key) (k : Key) :
  In k (outer_keys left right) <-> In k left \/ In k right.
Proof.
  unfold outer_keys. rewrite in_app_iff, filter_In.
  destruct (in_dec Key_eq_dec k left); tauto.
Qed.

Lemma outer_keys_NoDup (left right : list Key) :
  NoDup left -> NoDup right -> NoDup (outer_keys left right).
Proof.
  intros Hl Hr. unfold outer_keys. apply NoDup_app.
  - assumption.
  - now apply NoDup_filter.
  - intros k Hk Hin. apply filter_In in Hin. destruct Hin as [_ Hin].
    destruct (in_dec Key_eq_dec k left); [discriminate | contradiction].
Qed.

Lemma key_is_refl (k : Key) : key_is k (Some k) = true.
Proof. simpl. now apply Key_eqb_eq. Qed.

Lemma key_is_true (k : Key) (c : option Key) : key_is k c = true <-> c = Some k.
Proof.
  destruct c as [k'|]; simpl; [rewrite Key_eqb_eq|]; split; congruence.
Qed.

Lemma filter_length_pos {A : Type} (f : A -> bool) (l : list A) :
  (0 < List.length (filter f l))%nat <-> exists a, In a l /\ f a = true.
Proof.
  split.
  - destruct (filter f l) as [|a rest] eqn:Hf; simpl; [lia|]. intros _.
    assert (Hin : In a (filter f l)) by (rewrite Hf; now left).
    apply filter_In in Hin. eauto.
  - intros [a [Hin Ha]].
    assert (Hf : In a (filter f l)) by now apply filter_In.
    destruct (filter f l); [destruct Hf | simpl; lia].
Qed.

(** A key is in the pickups grouping exactly when some trip counts for it. *)
Lemma pickup_column_In
    (k : Key) (stations_of_interest : list string) (hourly_start : Z)
    (all_trips : list DTrip) :
  In (Some k)
     (map pickup_key
        (filter (fun r : DTrip => isin (start_station_id r) stations_of_interest)
           (filter (fun r : DTrip => ts_ge (started_at r) hourly_start) all_trips)))
  <-> (0 < pickups_at k stations_of_interest hourly_start all_trips)%nat.
Proof.
  unfold pickups_at. rewrite filter_length_pos, in_map_iff. unfold counts_as_pickup.
  split.
  - intros [r [Hk Hr]]. apply filter_In in Hr. destruct Hr as [Hr Hallow].
    apply filter_In in Hr. destruct Hr as [Hr Hts].
    exists r. split; [assumption|]. rewrite Hts, Hallow, Hk. apply key_is_refl.
  - intros [r [Hr Hc]]. rewrite !andb_true_iff in Hc.
    destruct Hc as [[Hts Hallow] Hk]. apply key_is_true in Hk.
    exists r. split; [assumption|]. now rewrite !filter_In.
Qed.

Lemma dropoff_column_In
    (k : Key) (stations_of_interest : list string) (hourly_start : Z)
    (all_trips : list DTrip) :
  In (Some k)
     (map dropoff_key
        (filter (fun r : DTrip => isin (end_station_id r) stations_of_interest)
           (filter (fun r : DTrip => ts_ge (started_at r) hourly_start) all_trips)))
  <-> (0 < dropoffs_at k stations_of_interest hourly_start all_trips)%nat.
Proof.
  unfold dropoffs_at. rewrite filter_length_pos, in_map_iff. unfold counts_as_dropoff.
  split.
  - intros [r [Hk Hr]]. apply filter_In in Hr. destruct Hr as [Hr Hallow].
    apply filter_In in Hr. destruct Hr as [Hr Hts].
    exists r. split; [assumption|]. rewrite Hts, Hallow, Hk. apply key_is_refl.
  - intros [r [Hr Hc]]. rewrite !andb_true_iff in Hc.
    destruct Hc as [[Hts Hallow] Hk]. apply key_is_true in Hk.
    exists r. split; [assumption|]. now rewrite !filter_In.
Qed.

(** The hourly frame in closed form: one row per key of the outer union,
    sorted, each with its two counts. *)
Lemma generate_hourly_station_aggregates_eq
    (all_trips : list DTrip) (stations_of_interest : list string) (hourly_start : Z) :
  exists keys : list Key,
    _generate_hourly_station_aggregates all_trips (JsonList stations_of_interest) hourly_start
    = Ok (sort_values
            (map (fun k =>
                    {| row_key := k;
                       pickups := Z.of_nat (pickups_at k stations_of_interest hourly_start all_trips);
                       dropoffs := Z.of_nat (dropoffs_at k stations_of_interest hourly_start all_trips) |})
                 keys))
    /\ NoDup keys
    /\ forall k, In k keys <->
                 (0 < pickups_at k stations_of_interest hourly_start all_trips)%nat
                 \/ (0 < dropoffs_at k stations_of_interest hourly_start all_trips)%nat.
Proof.
  unfold _generate_hourly_station_aggregates. simpl.
  rewrite hourly_rows_eq.
  eexists. split; [|split].
  - f_equal. f_equal. apply map_ext. intros k.
    now rewrite count_occ_pickups, count_occ_dropoffs.
  - apply outer_keys_NoDup; apply groupby_size_NoDup.
  - intros k. rewrite outer_keys_In, !groupby_size_key_In.
    now rewrite pickup_column_In, dropoff_column_In.
Qed.

Lemma sum_Z_perm (l1 l2 : list Z) : Permutation l1 l2 -> sum_Z l1 = sum_Z l2.
Proof.
  induction 1; simpl; lia.
Qed.

Lemma group_key_some
    (stations_of_interest : list string) (hourly_start : Z)
    (station : cell) (r : DTrip) :
  ts_ge (started_at r) hourly_start = true ->
  isin station stations_of_interest = true ->
  exists k, group_key station r = Some k.
Proof.
  unfold group_key, ts_ge, isin.
  destruct (started_at r); [|discriminate].
  destruct station; [|discriminate]. eauto.
Qed.

(** C3, as stated, fails on a trip that starts before the start date of
    the hourly aggregation: its start station is in the allow-list, yet it
    is counted in no row. *)
Lemma early_trip_counts_nowhere :
  _clean_trip_data [trip_a_b] sample_metadata_ids = Ok [with_duration trip_a_b]
  /\ isin (start_station_id trip_a_b) ["A"; "B"] = true
  /\ _generate_hourly_station_aggregates
       [with_duration trip_a_b] (JsonList ["A"; "B"]) (19449 * ns_per_day)
     = Ok [].
Proof. repeat split. Qed.

(** C3, amended: the hourly aggregator returns a frame in which every
    five-column key occurs at most once; a key is present exactly when some
    trip counts for it as a pickup or as a dropoff (outer union), so a key
    with pickups only, or dropoffs only, has its row, with the other count
    0; the two counts of a row are the numbers of trips counted for its
    key, hence non-negative; a trip that starts on or after the start date
    is counted in the pickups of a row iff its start station is in the
    allow-list, and in the dropoffs of a row iff its end station is, one
    test not looking at the other; and a trip that starts before the start
    date, or has no start, is counted nowhere. *)
Theorem hourly_aggregates_outer_union :
  forall (all_trips : list DTrip) (stations_of_interest : list string)
         (hourly_start : Z),
  exists hourly : list HourlyRow,
    _generate_hourly_station_aggregates
      all_trips (JsonList stations_of_interest) hourly_start = Ok hourly
    /\ NoDup (map row_key hourly)
    /\ (forall k,
          In k (map row_key hourly) <->
          (0 < pickups_at k stations_of_interest hourly_start all_trips)%nat
          \/ (0 < dropoffs_at k stations_of_interest hourly_start all_trips)%nat)
    /\ (forall row, In row hourly ->
          pickups row
          = Z.of_nat (pickups_at (row_key row) stations_of_interest hourly_start all_trips)
          /\ dropoffs row
             = Z.of_nat (dropoffs_at (row_key row) stations_of_interest hourly_start all_trips)
          /\ 0 <= pickups row /\ 0 <= dropoffs row)
    /\ (forall k,
          (0 < pickups_at k stations_of_interest hourly_start all_trips)%nat ->
          dropoffs_at k stations_of_interest hourly_start all_trips = 0%nat ->
          exists row, In row hourly /\ row_key row = k
                      /\ 0 < pickups row /\ dropoffs row = 0)
    /\ (forall k,
          (0 < dropoffs_at k stations_of_interest hourly_start all_trips)%nat ->
          pickups_at k stations_of_interest hourly_start all_trips = 0%nat ->
          exists row, In row hourly /\ row_key row = k
                      /\ pickups row = 0 /\ 0 < dropoffs row)
    /\ (forall r : DTrip, In r all_trips ->
          ts_ge (started_at r) hourly_start = true ->
          ((exists row, In row hourly
                        /\ counts_as_pickup (row_key row) stations_of_interest
                             hourly_start r = true)
           <-> isin (start_station_id r) stations_of_interest = true)
          /\ ((exists row, In row hourly
                           /\ counts_as_dropoff (row_key row) stations_of_interest
                                hourly_start r = true)
              <-> isin (end_station_id r) stations_of_interest = true))
    /\ (forall (r : DTrip) (k : Key),
          ts_ge (started_at r) hourly_start = false ->
          counts_as_pickup k stations_of_interest hourly_start r = false
          /\ counts_as_dropoff k stations_of_interest hourly_start r = false).
Proof.
  intros all_trips allow hs.
  destruct (generate_hourly_station_aggregates_eq all_trips allow hs)
    as [keys [Heq [Hnd Hkeys]]].
  set (rowfn := fun k =>
                  {| row_key := k;
                     pickups := Z.of_nat (pickups_at k allow hs all_trips);
                     dropoffs := Z.of_nat (dropoffs_at k allow hs all_trips) |}) in *.
  assert (Hrow : forall row, In row (sort_values (map rowfn keys)) <->
                             exists k, In k keys /\ row = rowfn k).
  { intros row. unfold sort_values. rewrite sort_by_In, in_map_iff.
    split; intros [k [H1 H2]]; exists k; auto. }
  assert (Hcol : Permutation (map row_key (sort_values (map rowfn keys))) keys).
  { apply perm_trans with (map row_key (map rowfn keys)).
    - apply Permutation_map, sort_by_perm.
    - rewrite map_map. simpl. rewrite map_id. apply Permutation_refl. }
  assert (Hpresent : forall k, In k keys ->
                               In (rowfn k) (sort_values (map rowfn keys)))
    by (intros k Hk; apply Hrow; eauto).
  exists (sort_values (map rowfn keys)). split; [exact Heq|].
  split; [exact (Permutation_NoDup (Permutation_sym Hcol) Hnd)|].
  split.
  { intros k. rewrite <- Hkeys. split; apply Permutation_in;
      [exact Hcol | exact (Permutation_sym Hcol)]. }
  split.
  { intros row Hin. apply Hrow in Hin. destruct Hin as [k [_ ->]]. simpl.
    repeat split; lia. }
  split.
  { intros k Hp Hd. exists (rowfn k). split; [apply Hpresent, Hkeys; now left|].
    simpl. rewrite Hd. repeat split; lia. }
  split.
  { intros k Hd Hp. exists (rowfn k). split; [apply Hpresent, Hkeys; now right|].
    simpl. rewrite Hp. repeat split; lia. }
  split.
  2:{ intros r k Hts. unfold counts_as_pickup, counts_as_dropoff.
      now rewrite Hts. }
  intros r Hr Hts. split.
  - split.
    + intros [row [_ Hc]]. unfold counts_as_pickup in Hc.
      rewrite !andb_true_iff in Hc. tauto.
    + intros Hallow.
      destruct (group_key_some allow hs (start_station_id r) r Hts Hallow) as [k Hk].
      assert (Hc : counts_as_pickup k allow hs r = true).
      { unfold counts_as_pickup, pickup_key. rewrite Hts, Hallow, Hk. apply key_is_refl. }
      exists (rowfn k). split; [|exact Hc].
      apply Hpresent, Hkeys. left. apply filter_length_pos. eauto.
  - split.
    + intros [row [_ Hc]]. unfold counts_as_dropoff in Hc.
      rewrite !andb_true_iff in Hc. tauto.
    + intros Hallow.
      destruct (group_key_some allow hs (end_station_id r) r Hts Hallow) as [k Hk].
      assert (Hc : counts_as_dropoff k allow hs r = true).
      { unfold counts_as_dropoff, dropoff_key. rewrite Hts, Hallow, Hk. apply key_is_refl. }
      exists (rowfn k). split; [|exact Hc].
      apply Hpresent, Hkeys. right. apply filter_length_pos. eauto.
Qed.

Lemma sum_counts_over_keys
    (key_of : DTrip -> option Key) (rows : list DTrip) (keys : list Key) :
  NoDup keys ->
  (forall r, In r rows -> exists k, key_of r = Some k /\ In k keys) ->
  sum_nat (map (count_occ Key_eq_dec (dropna (map key_of rows))) keys)
  = List.length rows.
Proof.
  intros Hnd Hrows. rewrite sum_count_occ.
  - apply dropna_length_no_null. intros r Hr.
    destruct (Hrows r Hr) as [k [Hk _]]. eauto.
  - assumption.
  - intros k Hk. apply In_dropna, in_map_iff in Hk. destruct Hk as [r [Hk Hr]].
    destruct (Hrows r Hr) as [k' [Hk' Hin]]. congruence.
Qed.

(** C10: the pickups of the hourly frame add up to the number of trips on
    or after the start date whose start station is in the allow-list, and
    its dropoffs to the number of those whose end station is. *)
Theorem hourly_aggregates_conserve_counts :
  forall (all_trips : list DTrip) (stations_of_interest : list string)
         (hourly_start : Z),
  exists hourly : list HourlyRow,
    _generate_hourly_station_aggregates
      all_trips (JsonList stations_of_interest) hourly_start = Ok hourly
    /\ sum_Z (map pickups hourly)
       = Z.of_nat
           (List.length
              (filter (fun r : DTrip =>
                         ts_ge (started_at r) hourly_start
                         && isin (start_station_id r) stations_of_interest)
                      all_trips))
    /\ sum_Z (map dropoffs hourly)
       = Z.of_nat
           (List.length
              (filter (fun r : DTrip =>
                         ts_ge (started_at r) hourly_start
                         && isin (end_station_id r) stations_of_interest)
                      all_trips)).
Proof.
  intros all_trips allow hs.
  destruct (generate_hourly_station_aggregates_eq all_trips allow hs)
    as [keys [Heq [Hnd Hkeys]]].
  eexists. split; [exact Heq|].
  unfold sort_values. split.
  - rewrite (sum_Z_perm _ _ (Permutation_map pickups (sort_by_perm _ _))).
    rewrite map_map. simpl.
    rewrite (sum_Z_of_nat (fun k => pickups_at k allow hs all_trips)). f_equal.
    rewrite (map_ext _ _ (fun k => eq_sym (count_occ_pickups k allow hs all_trips))).
    rewrite sum_counts_over_keys; [now rewrite filter_filter | assumption |].
    intros r Hr. apply filter_In in Hr. destruct Hr as [Hr Hallow].
    apply filter_In in Hr. destruct Hr as [Hr Hts].
    destruct (group_key_some allow hs (start_station_id r) r Hts Hallow) as [k Hk].
    exists k. split; [exact Hk|]. apply Hkeys. left.
    apply filter_length_pos. exists r. split; [assumption|].
    unfold counts_as_pickup, pickup_key. rewrite Hts, Hallow, Hk. apply key_is_refl.
  - rewrite (sum_Z_perm _ _ (Permutation_map dropoffs (sort_by_perm _ _))).
    rewrite map_map. simpl.
    rewrite (sum_Z_of_nat (fun k => dropoffs_at k allow hs all_trips)). f_equal.
    rewrite (map_ext _ _ (fun k => eq_sym (count_occ_dropoffs k allow hs all_trips))).
    rewrite sum_counts_over_keys; [now rewrite filter_filter | assumption |].
    intros r Hr. apply filter_In in Hr. destruct Hr as [Hr Hallow].
    apply filter_In in Hr. destruct Hr as [Hr Hts].
    destruct (group_key_some allow hs (end_station_id r) r Hts Hallow) as [k Hk].
    exists k. split; [exact Hk|]. apply Hkeys. right.
    apply filter_length_pos. exists r. split; [assumption|].
    unfold counts_as_dropoff, dropoff_key. rewrite Hts, Hallow, Hk. apply key_is_refl.
Qed.

(** ** Runs of the task *)

Lemma is_maintenance_id_same_ids (ids1 ids2 : list string) (c : cell) :
  (forall s, In s ids1 <-> In s ids2) ->
  is_maintenance_id ids1 c = is_maintenance_id ids2 c.
Proof.
  intros Hsame. destruct c as [s|]; simpl; [|reflexivity].
  f_equal. f_equal. apply Bool.eq_iff_eq_true.
  rewrite !existsb_eqb_In. apply Hsame.
Qed.

(** The cleaner only looks at which ids the metadata list holds, not at
    their order or multiplicity. *)
Lemma clean_trip_data_same_ids (all_trips : list Trip) (ids1 ids2 : list string) :
  (forall s, In s ids1 <-> In s ids2) ->
  _clean_trip_data all_trips ids1 = _clean_trip_data all_trips ids2.
Proof.
  intros Hsame. unfold _clean_trip_data.
  rewrite !filter_maintenance_trips_eq.
  rewrite (filter_ext (fun t => negb (touches_maintenance ids1 t))
                      (fun t => negb (touches_maintenance ids2 t))).
  - reflexivity.
  - intros t. unfold touches_maintenance.
    now rewrite !(is_maintenance_id_same_ids ids1 ids2 _ Hsame).
Qed.

Lemma load_and_clean_set_order
    (to_datetime : string -> option Z)
    (order1 order2 : list string -> list string) (ctx : AggregateTripsContext) :
  set_iteration_order order1 -> set_iteration_order order2 ->
  load_and_clean to_datetime order1 ctx = load_and_clean to_datetime order2 ctx.
Proof.
  intros H1 H2. unfold load_and_clean.
  destruct (_load_and_prepare_trips to_datetime (raw_trips_dir ctx)) as [all_trips|e];
    simpl; [|reflexivity].
  unfold _load_station_metadata.
  destruct (station_metadata_path ctx) as [stations_df|]; simpl; [|reflexivity].
  apply clean_trip_data_same_ids. intros s.
  rewrite (proj2 (H1 _)), (proj2 (H2 _)). reflexivity.
Qed.

Lemma aggregate_trips_set_order
    (to_datetime : string -> option Z)
    (daily_to_csv : list DailyRow -> string)
    (hourly_to_csv : list HourlyRow -> string)
    (order1 order2 : list string -> list string) (ctx : AggregateTripsContext) :
  set_iteration_order order1 ->
  set_iteration_order order2 ->
  aggregate_trips to_datetime order1 daily_to_csv hourly_to_csv ctx
  = aggregate_trips to_datetime order2 daily_to_csv hourly_to_csv ctx.
Proof.
  intros H1 H2. unfold aggregate_trips.
  now rewrite (load_and_clean_set_order to_datetime order1 order2 ctx H1 H2).
Qed.

Lemma first_seen_order_ok : set_iteration_order first_seen_order.
Proof.
  intros l. split; [apply NoDup_nodup | intros x; apply nodup_In].
Qed.

Lemma last_seen_order_ok : set_iteration_order last_seen_order.
Proof.
  intros l. unfold last_seen_order. split.
  - apply NoDup_rev, NoDup_nodup.
  - intros x. rewrite <- in_rev. apply nodup_In.
Qed.

(** ** The order of the grouping keys *)

Lemma Z_compare_total : TotalCmp Z.compare.
Proof.
  constructor.
  - apply Z.compare_refl.
  - intros a b. apply Z.compare_antisym.
  - intros a b c Hab Hbc. rewrite Z.compare_lt_iff in *. lia.
  - intros a b c Hab. apply Z.compare_eq in Hab. now subst.
Qed.

Lemma ascii_compare_refl (c : ascii) : Ascii.compare c c = Eq.
Proof. unfold Ascii.compare. apply N.compare_refl. Qed.

Lemma string_compare_refl (s : string) : String.compare s s = Eq.
Proof.
  induction s as [|c s IH]; simpl; [reflexivity|].
  now rewrite ascii_compare_refl.
Qed.

Lemma string_compare_trans (a b c : string) :
  String.compare a b = Lt -> String.compare b c = Lt -> String.compare a c = Lt.
Proof.
  revert b c. induction a as [|x a IH]; intros [|y b] [|z c]; simpl;
    try discriminate; try reflexivity.
  destruct (Ascii.compare x y) eqn:Hxy; try discriminate;
    destruct (Ascii.compare y z) eqn:Hyz; try discriminate; intros Hab Hbc.
  - apply Ascii.compare_eq_iff in Hxy, Hyz. subst.
    rewrite ascii_compare_refl. now apply IH with b.
  - apply Ascii.compare_eq_iff in Hxy. subst. now rewrite Hyz.
  - apply Ascii.compare_eq_iff in Hyz. subst. now rewrite Hxy.
  - unfold Ascii.compare in *. rewrite N.compare_lt_iff in Hxy, Hyz.
    assert (Hxz : (N_of_ascii x ?= N_of_ascii z)%N = Lt)
      by (apply N.compare_lt_iff; lia).
    now rewrite Hxz.
Qed.

Lemma string_compare_total : TotalCmp String.compare.
Proof.
  constructor.
  - apply string_compare_refl.
  - intros a b. apply String.compare_antisym.
  - apply string_compare_trans.
  - intros a b c Hab. apply String.compare_eq_iff in Hab. now subst.
Qed.

Lemma on_total {A B : Type} (f : A -> B) (cmp : B -> B -> comparison) :
  TotalCmp cmp -> TotalCmp (fun a b => cmp (f a) (f b)).
Proof.
  intros [Hr Ha Ht He]. constructor; intros.
  - apply Hr.
  - apply Ha.
  - now apply Ht with (f b).
  - now apply He.
Qed.

Lemma lex_total {A : Type} (c1 c2 : A -> A -> comparison) :
  TotalCmp c1 -> TotalCmp c2 -> TotalCmp (fun a b => lex (c1 a b) (c2 a b)).
Proof.
  intros [Hr1 Ha1 Ht1 He1] [Hr2 Ha2 Ht2 He2]. constructor.
  - intros a. now rewrite Hr1, Hr2.
  - intros a b. rewrite (Ha1 a b), (Ha2 a b). now destruct (c1 a b).
  - intros a b c. unfold lex.
    destruct (c1 a b) eqn:Hab; try discriminate;
      destruct (c1 b c) eqn:Hbc; try discriminate; intros H1 H2.
    + rewrite (He1 a b c Hab), Hbc. now apply Ht2 with b.
    + now rewrite (He1 a b c Hab), Hbc.
    + assert (Hcb : c1 c b = Eq) by (rewrite (Ha1 b c), Hbc; reflexivity).
      pose proof (He1 c b a Hcb) as Hca.
      rewrite (Ha1 a c), (Ha1 a b), Hab in Hca. simpl in Hca.
      destruct (c1 a c); simpl in Hca; try discriminate. reflexivity.
    + now rewrite (Ht1 a b c Hab Hbc).
  - intros a b c. unfold lex. destruct (c1 a b) eqn:Hab; try discriminate.
    intros H2. now rewrite (He1 a b c Hab), (He2 a b c H2).
Qed.

Lemma Key_compare_total : TotalCmp Key_compare.
Proof.
  unfold Key_compare.
  apply (lex_total (fun a b => String.compare (key_station_id a) (key_station_id b))).
  { apply on_total, string_compare_total. }
  apply (lex_total (fun a b => Z.compare (key_date a) (key_date b))).
  { apply on_total, Z_compare_total. }
  apply (lex_total (fun a b => Z.compare (key_hour a) (key_hour b))).
  { apply on_total, Z_compare_total. }
  apply (lex_total (fun a b => Z.compare (key_member a) (key_member b))).
  { apply on_total, Z_compare_total. }
  apply (on_total key_ebike), Z_compare_total.
Qed.

Lemma Key_compare_eq (a b : Key) : Key_compare a b = Eq -> a = b.
Proof.
  destruct a as [s1 d1 h1 m1 e1], b as [s2 d2 h2 m2 e2].
  unfold Key_compare, lex. simpl.
  destruct (String.compare s1 s2) eqn:Hs; try discriminate.
  destruct (d1 ?= d2) eqn:Hd; try discriminate.
  destruct (h1 ?= h2) eqn:Hh; try discriminate.
  destruct (m1 ?= m2) eqn:Hm; try discriminate.
  intros He.
  apply String.compare_eq_iff in Hs.
  apply Z.compare_eq in Hd, Hh, Hm, He. now subst.
Qed.

Section CmpOrder.

Context {A : Type} (cmp : A -> A -> comparison).
Hypothesis cmp_total : TotalCmp cmp.

Lemma leb_of_total (a b : A) : leb_of cmp a b = true \/ leb_of cmp b a = true.
Proof.
  unfold leb_of. rewrite (cmp_antisym cmp cmp_total a b).
  destruct (cmp a b); simpl; auto.
Qed.

Lemma leb_of_trans (a b c : A) :
  leb_of cmp a b = true -> leb_of cmp b c = true -> leb_of cmp a c = true.
Proof.
  unfold leb_of.
  destruct (cmp a b) eqn:Hab; try discriminate;
    destruct (cmp b c) eqn:Hbc; try discriminate; intros _ _.
  - now rewrite (cmp_eq_compat cmp cmp_total a b c Hab), Hbc.
  - now rewrite (cmp_eq_compat cmp cmp_total a b c Hab), Hbc.
  - assert (Hcb : cmp c b = Eq)
      by (rewrite (cmp_antisym cmp cmp_total b c), Hbc; reflexivity).
    pose proof (cmp_eq_compat cmp cmp_total c b a Hcb) as Hca.
    rewrite (cmp_antisym cmp cmp_total a c), (cmp_antisym cmp cmp_total a b), Hab in Hca.
    simpl in Hca. destruct (cmp a c); simpl in Hca; try discriminate. reflexivity.
  - now rewrite (cmp_trans cmp cmp_total a b c Hab Hbc).
Qed.

Lemma leb_of_antisym (a b : A) :
  leb_of cmp a b = true -> leb_of cmp b a = true -> cmp a b = Eq.
Proof.
  unfold leb_of. rewrite (cmp_antisym cmp cmp_total a b).
  destruct (cmp a b); simpl; congruence.
Qed.

End CmpOrder.

(** ** A sort by a total order has one result per multiset *)

Section SortCanonical.

Context {A : Type} (leb : A -> A -> bool).
Hypothesis leb_total : forall a b, leb a b = true \/ leb b a = true.
Hypothesis leb_trans : forall a b c, leb a b = true -> leb b c = true -> leb a c = true.

Lemma insert_sorted_sorted (x : A) (l : list A) :
  StronglySorted (fun a b => leb a b = true) l ->
  StronglySorted (fun a b => leb a b = true) (insert_sorted leb x l).
Proof.
  induction 1 as [|y l Hs IH Hall]; simpl.
  - repeat constructor.
  - destruct (leb x y) eqn:Hxy.
    + constructor; [now constructor|].
      constructor; [assumption|].
      apply Forall_forall. intros z Hz. rewrite Forall_forall in Hall.
      apply leb_trans with y; auto.
    + constructor; [assumption|].
      apply Forall_forall. intros z Hz.
      apply (Permutation_in _ (insert_sorted_perm leb x l)) in Hz.
      destruct Hz as [<-|Hz].
      * destruct (leb_total x y) as [H|H]; congruence.
      * rewrite Forall_forall in Hall. now apply Hall.
Qed.

Lemma sort_by_sorted (l : list A) :
  StronglySorted (fun a b => leb a b = true) (sort_by leb l).
Proof.
  induction l as [|x l IH]; simpl; [constructor | now apply insert_sorted_sorted].
Qed.

Hypothesis leb_antisym : forall a b, leb a b = true -> leb b a = true -> a = b.

Lemma sorted_perm_eq (l1 l2 : list A) :
  StronglySorted (fun a b => leb a b = true) l1 ->
  StronglySorted (fun a b => leb a b = true) l2 ->
  Permutation l1 l2 -> l1 = l2.
Proof.
  intros H1. revert l2. induction H1 as [|x l1 Hs1 IH Hall1]; intros l2 H2 Hperm.
  - now apply Permutation_nil in Hperm.
  - destruct H2 as [|y l2 Hs2 Hall2].
    + apply Permutation_sym, Permutation_nil in Hperm. discriminate.
    + assert (Hxy : x = y).
      { assert (Hx : In x (y :: l2))
          by (apply (Permutation_in _ Hperm); now left).
        assert (Hy : In y (x :: l1))
          by (apply (Permutation_in _ (Permutation_sym Hperm)); now left).
        rewrite Forall_forall in Hall1, Hall2.
        destruct Hx as [Hx|Hx]; [now symmetry|].
        destruct Hy as [Hy|Hy]; [assumption|].
        apply leb_antisym; auto. }
      subst y. f_equal. apply IH; [assumption|].
      now apply Permutation_cons_inv with x.
Qed.

Lemma sort_by_perm_eq (l1 l2 : list A) :
  Permutation l1 l2 -> sort_by leb l1 = sort_by leb l2.
Proof.
  intros Hperm. apply sorted_perm_eq; try apply sort_by_sorted.
  apply perm_trans with l1; [apply sort_by_perm|].
  apply perm_trans with l2; [assumption | apply Permutation_sym, sort_by_perm].
Qed.

End SortCanonical.

Lemma Key_leb_total (a b : Key) : Key_leb a b = true \/ Key_leb b a = true.
Proof. apply (leb_of_total Key_compare Key_compare_total). Qed.

Lemma Key_leb_trans (a b c : Key) :
  Key_leb a b = true -> Key_leb b c = true -> Key_leb a c = true.
Proof. apply (leb_of_trans Key_compare Key_compare_total). Qed.

Lemma Key_leb_antisym (a b : Key) :
  Key_leb a b = true -> Key_leb b a = true -> a = b.
Proof.
  intros Hab Hba. apply Key_compare_eq.
  now apply (leb_of_antisym Key_compare Key_compare_total).
Qed.

Lemma insert_sorted_map {A B : Type} (leb : A -> A -> bool) (f : A -> B) (g : B -> A)
    (x : A) (l : list A) :
  (forall a, g (f a) = a) ->
  insert_sorted (fun u v => leb (g u) (g v)) (f x) (map f l)
  = map f (insert_sorted leb x l).
Proof.
  intros Hgf. induction l as [|y l IH]; simpl; [reflexivity|].
  rewrite !Hgf. destruct (leb x y); simpl; [reflexivity | now rewrite IH].
Qed.

Lemma sort_by_map {A B : Type} (leb : A -> A -> bool) (f : A -> B) (g : B -> A)
    (l : list A) :
  (forall a, g (f a) = a) ->
  sort_by (fun u v => leb (g u) (g v)) (map f l) = map f (sort_by leb l).
Proof.
  intros Hgf. induction l as [|x l IH]; simpl; [reflexivity|].
  rewrite IH. now apply insert_sorted_map.
Qed.

(** The hourly frame is in ascending key order. *)
Lemma hourly_aggregates_sorted
    (all_trips : list DTrip) (stations_doc : json_doc) (hourly_start : Z)
    (hourly : list HourlyRow) :
  _generate_hourly_station_aggregates all_trips stations_doc hourly_start = Ok hourly ->
  StronglySorted (fun a b => Key_leb (row_key a) (row_key b) = true) hourly.
Proof.
  unfold _generate_hourly_station_aggregates.
  destruct (_load_stations_of_interest stations_doc) as [allow|e]; simpl;
    [|discriminate].
  intros H. inversion H. unfold sort_values.
  apply (sort_by_sorted (fun u v => Key_leb (row_key u) (row_key v))).
  - intros u v. apply Key_leb_total.
  - intros u v w. apply Key_leb_trans.
Qed.

(** ** The order of the rows does not matter to the cleaner and the
       aggregators *)

Lemma filter_perm {A : Type} (f : A -> bool) (l1 l2 : list A) :
  Permutation l1 l2 -> Permutation (filter f l1) (filter f l2).
Proof.
  induction 1 as [|x l1 l2 _ IH|x y l|l1 l2 l3 _ IH1 _ IH2]; simpl.
  - apply perm_nil.
  - destruct (f x); [now apply perm_skip | assumption].
  - destruct (f x); destruct (f y);
      try apply perm_swap; apply Permutation_refl.
  - now apply perm_trans with (filter f l2).
Qed.

Lemma filter_length_perm {A : Type} (f : A -> bool) (l1 l2 : list A) :
  Permutation l1 l2 -> List.length (filter f l1) = List.length (filter f l2).
Proof.
  intros H. now apply Permutation_length, filter_perm.
Qed.

Lemma dropna_perm {A : Type} (l1 l2 : list (option A)) :
  Permutation l1 l2 -> Permutation (dropna l1) (dropna l2).
Proof.
  induction 1 as [|x l1 l2 _ IH|x y l|l1 l2 l3 _ IH1 _ IH2]; simpl.
  - apply perm_nil.
  - destruct x; [now apply perm_skip | assumption].
  - destruct x; destruct y; try apply perm_swap; apply Permutation_refl.
  - now apply perm_trans with (dropna l2).
Qed.

(** The cleaner in closed form. *)
Lemma clean_trip_data_eq (all_trips : list Trip) (metadata_station_ids : list string) :
  _clean_trip_data all_trips metadata_station_ids
  = match filter (fun t => negb (touches_maintenance metadata_station_ids t)) all_trips with
    | [] => Raise ZeroDivisionError
    | kept =>
        Ok (filter (fun r => negb (same_station r && short_duration r))
              (filter in_duration_range (_calculate_trip_duration kept)))
    end.
Proof.
  unfold _clean_trip_data. rewrite filter_maintenance_trips_eq.
  destruct all_trips as [|t rest]; [reflexivity|].
  set (kept := filter (fun t0 => negb (touches_maintenance metadata_station_ids t0))
                      (t :: rest)).
  change (percent (List.length (t :: rest) - List.length kept) (List.length (t :: rest)))
    with (Ok (A := Q)
              ((inject_Z (Z.of_nat (List.length (t :: rest) - List.length kept))
                / inject_Z (Z.of_nat (List.length (t :: rest)))) * 100)%Q).
  cbn [bind]. rewrite filter_outlier_trips_eq.
  destruct kept as [|k kept']; [reflexivity|]. reflexivity.
Qed.

Lemma clean_trip_data_perm
    (all_trips1 all_trips2 : list Trip) (metadata_station_ids : list string) :
  Permutation all_trips1 all_trips2 ->
  result_perm (_clean_trip_data all_trips1 metadata_station_ids)
              (_clean_trip_data all_trips2 metadata_station_ids).
Proof.
  intros Hperm. rewrite !clean_trip_data_eq.
  pose proof (filter_perm (fun t => negb (touches_maintenance metadata_station_ids t))
                _ _ Hperm) as Hkept.
  destruct (filter _ all_trips1) as [|k1 kept1];
    destruct (filter _ all_trips2) as [|k2 kept2]; unfold result_perm.
  - reflexivity.
  - now apply Permutation_nil in Hkept.
  - now apply Permutation_sym, Permutation_nil in Hkept.
  - apply filter_perm, filter_perm.
    exact (Permutation_map with_duration Hkept).
Qed.

Lemma generate_daily_aggregates_no_dates (all_trips : list DTrip) :
  dropna (map trip_date all_trips) = [] ->
  _generate_daily_aggregates all_trips
  = Raise (ValueError "Neither `start` nor `end` can be NaT").
Proof.
  intros Hks. unfold _generate_daily_aggregates, groupby_size.
  change (map (fun r : DTrip => option_map dt_date (started_at r)) all_trips)
    with (map trip_date all_trips).
  rewrite Hks. reflexivity.
Qed.

Lemma trips_on_perm (d : Z) (l1 l2 : list DTrip) :
  Permutation l1 l2 -> trips_on d l1 = trips_on d l2.
Proof. apply filter_length_perm. Qed.

Lemma generate_daily_aggregates_perm (all_trips1 all_trips2 : list DTrip) :
  Permutation all_trips1 all_trips2 ->
  _generate_daily_aggregates all_trips1 = _generate_daily_aggregates all_trips2.
Proof.
  intros Hperm.
  assert (Hks : Permutation (dropna (map trip_date all_trips1))
                            (dropna (map trip_date all_trips2)))
    by (apply dropna_perm, Permutation_map, Hperm).
  destruct (dropna (map trip_date all_trips1)) as [|k ks] eqn:Hks1.
  - apply Permutation_nil in Hks.
    now rewrite !generate_daily_aggregates_no_dates.
  - assert (Hne1 : dropna (map trip_date all_trips1) <> []) by (rewrite Hks1; discriminate).
    assert (Hne2 : dropna (map trip_date all_trips2) <> []).
    { intros H0. rewrite H0 in Hks.
      apply Permutation_sym, Permutation_nil in Hks. discriminate. }
    rewrite <- Hks1 in Hks.
    destruct (generate_daily_aggregates_eq all_trips1 Hne1)
      as [lo1 [hi1 [[Hlo1 Hlo1_le] [[Hhi1 Hhi1_le] ->]]]].
    destruct (generate_daily_aggregates_eq all_trips2 Hne2)
      as [lo2 [hi2 [[Hlo2 Hlo2_le] [[Hhi2 Hhi2_le] ->]]]].
    assert (Hlo : lo1 = lo2).
    { apply Z.le_antisymm.
      - apply Hlo1_le. now apply (Permutation_in _ (Permutation_sym Hks)).
      - apply Hlo2_le. now apply (Permutation_in _ Hks). }
    assert (Hhi : hi1 = hi2).
    { apply Z.le_antisymm.
      - apply Hhi2_le. now apply (Permutation_in _ Hks).
      - apply Hhi1_le. now apply (Permutation_in _ (Permutation_sym Hks)). }
    subst. f_equal. apply map_ext. intros d.
    now rewrite (trips_on_perm d _ _ Hperm).
Qed.

Lemma generate_hourly_station_aggregates_perm
    (all_trips1 all_trips2 : list DTrip) (stations_doc : json_doc) (hourly_start : Z) :
  Permutation all_trips1 all_trips2 ->
  _generate_hourly_station_aggregates all_trips1 stations_doc hourly_start
  = _generate_hourly_station_aggregates all_trips2 stations_doc hourly_start.
Proof.
  intros Hperm. destruct stations_doc as [allow|]; [|reflexivity].
  destruct (generate_hourly_station_aggregates_eq all_trips1 allow hourly_start)
    as [keys1 [-> [Hnd1 Hkeys1]]].
  destruct (generate_hourly_station_aggregates_eq all_trips2 allow hourly_start)
    as [keys2 [-> [Hnd2 Hkeys2]]].
  assert (Hp : forall k, pickups_at k allow hourly_start all_trips1
                         = pickups_at k allow hourly_start all_trips2)
    by (intros k; now apply filter_length_perm).
  assert (Hd : forall k, dropoffs_at k allow hourly_start all_trips1
                         = dropoffs_at k allow hourly_start all_trips2)
    by (intros k; now apply filter_length_perm).
  f_equal. unfold sort_values.
  rewrite (map_ext _ (fun k =>
             {| row_key := k;
                pickups := Z.of_nat (pickups_at k allow hourly_start all_trips2);
                dropoffs := Z.of_nat (dropoffs_at k allow hourly_start all_trips2) |}))
    by (intros k; now rewrite Hp, Hd).
  rewrite !(sort_by_map Key_leb _ row_key) by reflexivity.
  f_equal.
  apply (sort_by_perm_eq Key_leb Key_leb_total Key_leb_trans Key_leb_antisym).
  apply NoDup_Permutation; try assumption.
  intros k. rewrite Hkeys1, Hkeys2, Hp, Hd. reflexivity.
Qed.

(** ** The order of the directory listing *)

Lemma dict_set_fresh {V : Type} (d : list (string * V)) (k : string) (v : V) :
  ~ In k (map fst d) -> dict_set d k v = d ++ [(k, v)].
Proof.
  induction d as [|[k' v'] d IH]; simpl; intros Hnot; [reflexivity|].
  destruct (String.eqb_spec k' k) as [->|Hne]; [exfalso; auto|].
  f_equal. apply IH. tauto.
Qed.

(** With pairwise distinct keys the dict holds every file, in listing
    order. *)
Lemma fold_dict_set_distinct (files : Listing) (acc : list (string * list RawTrip)) :
  NoDup (map file_key files) ->
  (forall f, In f files -> ~ In (file_key f) (map fst acc)) ->
  fold_left (fun trips_df_dict f =>
               dict_set trips_df_dict (remove_dot_csv 0 (fst f)) (snd f))
            files acc
  = acc ++ map (fun f => (file_key f, snd f)) files.
Proof.
  revert acc. induction files as [|f files IH]; intros acc Hnd Hfresh; simpl.
  - now rewrite app_nil_r.
  - inversion Hnd as [|? ? Hf Hnd']; subst.
    rewrite dict_set_fresh by (apply Hfresh; now left).
    rewrite IH; [now rewrite <- app_assoc | assumption |].
    intros g Hg. rewrite map_app, in_app_iff. simpl.
    intros [Hin|[Heq|[]]].
    + apply (Hfresh g); [now right | assumption].
    + apply Hf. unfold file_key in *. rewrite Heq.
      exact (in_map (fun h : string * list RawTrip => remove_dot_csv 0 (fst h))
                    files g Hg).
Qed.

Lemma load_and_prepare_trips_distinct
    (to_datetime : string -> option Z) (raw_trips_dir : Listing) :
  NoDup (map file_key (csv_files raw_trips_dir)) ->
  _load_and_prepare_trips to_datetime raw_trips_dir
  = match csv_files raw_trips_dir with
    | [] => Raise (FileNotFoundError "No CSV files found")
    | files => Ok (flat_map (fun f => map (parse_row to_datetime) (snd f)) files)
    end.
Proof.
  intros Hnd. unfold _load_and_prepare_trips, _load_all_trip_csvs.
  fold (csv_files raw_trips_dir).
  destruct (csv_files raw_trips_dir) as [|f files] eqn:Hcsv; [reflexivity|].
  cbn [bind]. f_equal.
  rewrite fold_dict_set_distinct by (try assumption; intros g _ []).
  cbn [app]. unfold _concatenate_trips, _parse_datetimes.
  rewrite !map_map. cbn [snd]. now rewrite flat_map_concat_map.
Qed.

Lemma load_and_prepare_trips_perm
    (to_datetime : string -> option Z) (listing1 listing2 : Listing) :
  Permutation listing1 listing2 ->
  NoDup (map file_key (csv_files listing1)) ->
  result_perm (_load_and_prepare_trips to_datetime listing1)
              (_load_and_prepare_trips to_datetime listing2).
Proof.
  intros Hperm Hnd.
  assert (Hcsv : Permutation (csv_files listing1) (csv_files listing2))
    by now apply filter_perm.
  assert (Hnd2 : NoDup (map file_key (csv_files listing2)))
    by exact (Permutation_NoDup (Permutation_map file_key Hcsv) Hnd).
  rewrite !load_and_prepare_trips_distinct by assumption.
  destruct (csv_files listing1) as [|f1 files1];
    destruct (csv_files listing2) as [|f2 files2]; unfold result_perm.
  - reflexivity.
  - now apply Permutation_nil in Hcsv.
  - now apply Permutation_sym, Permutation_nil in Hcsv.
  - now apply Permutation_flat_map.
Qed.

(** X4: two listings of a directory whose CSV file names give pairwise
    distinct dict keys lead to the same output files and the same end of
    the run, whatever the order of the names and of the sets. *)
Theorem aggregate_trips_listing_order :
  forall (to_datetime : string -> option Z)
         (daily_to_csv : list DailyRow -> string)
         (hourly_to_csv : list HourlyRow -> string)
         (order1 order2 : list string -> list string)
         (listing1 listing2 : Listing)
         (stations : option (list Station)) (stations_doc : json_doc)
         (hourly_start : Z),
    set_iteration_order order1 ->
    set_iteration_order order2 ->
    Permutation listing1 listing2 ->
    NoDup (map file_key (csv_files listing1)) ->
    aggregate_trips to_datetime order1 daily_to_csv hourly_to_csv
      (mkContext listing1 stations stations_doc hourly_start)
    = aggregate_trips to_datetime order2 daily_to_csv hourly_to_csv
        (mkContext listing2 stations stations_doc hourly_start).
Proof.
  intros to_datetime daily_to_csv hourly_to_csv order1 order2 listing1 listing2
         stations stations_doc hourly_start H1 H2 Hperm Hnd.
  rewrite (aggregate_trips_set_order to_datetime daily_to_csv hourly_to_csv
             order1 order2 _ H1 H2).
  unfold aggregate_trips, load_and_clean. cbn [raw_trips_dir station_metadata_path
    stations_of_interest_path hourly_start_date].
  pose proof (load_and_prepare_trips_perm to_datetime _ _ Hperm Hnd) as Hload.
  destruct (_load_and_prepare_trips to_datetime listing1) as [all1|e1];
    destruct (_load_and_prepare_trips to_datetime listing2) as [all2|e2];
    unfold result_perm in Hload; try contradiction; cbn [bind];
    [|now subst].
  destruct (_load_station_metadata order2 stations) as [[df ids]|e]; cbn [bind snd];
    [|reflexivity].
  pose proof (clean_trip_data_perm all1 all2 ids Hload) as Hclean.
  destruct (_clean_trip_data all1 ids) as [c1|e1];
    destruct (_clean_trip_data all2 ids) as [c2|e2];
    unfold result_perm in Hclean; try contradiction; [|now subst].
  rewrite (generate_daily_aggregates_perm c1 c2 Hclean).
  now rewrite (generate_hourly_station_aggregates_perm c1 c2 _ _ Hclean).
Qed.


(** ** The scenarios of the specification, evaluated *)

Example scenario_false_start_dropped :
  _clean_trip_data [trip_a_b; trip_false_start] sample_metadata_ids
  = Ok [with_duration trip_a_b].
Proof. reflexivity. Qed.

Example scenario_daily :
  _generate_daily_aggregates [with_duration trip_a_b]
  = Ok [{| date := 19448; trip_count := 1 |}].
Proof. reflexivity. Qed.

Example scenario_hourly_both_allowed :
  _generate_hourly_station_aggregates
    [with_duration trip_a_b] (JsonList ["A"; "B"]) (19448 * ns_per_day)
  = Ok [{| row_key := mkKey "A" 19448 8 1 0; pickups := 1; dropoffs := 0 |};
        {| row_key := mkKey "B" 19448 8 1 0; pickups := 0; dropoffs := 1 |}].
Proof. reflexivity. Qed.

Example scenario_hourly_only_A_allowed :
  _generate_hourly_station_aggregates
    [with_duration trip_a_b] (JsonList ["A"]) (19448 * ns_per_day)
  = Ok [{| row_key := mkKey "A" 19448 8 1 0; pickups := 1; dropoffs := 0 |}].
Proof. reflexivity. Qed.

Example scenario_depot_trip_dropped :
  _clean_trip_data [trip_a_b; trip_depot] sample_metadata_ids
  = Ok [with_duration trip_a_b].
Proof. reflexivity. Qed.

Example scenario_all_trips_from_depot :
  _clean_trip_data [trip_depot] sample_metadata_ids = Raise ZeroDivisionError.
Proof. reflexivity. Qed.

Example scenario_no_allowed_station :
  _generate_hourly_station_aggregates
    [with_duration trip_a_b] (JsonList ["C"]) (19448 * ns_per_day)
  = Ok [].
Proof. reflexivity. Qed.

(* ================================================================== *)
(** * Further properties of the task *)

(** ** The dict of the trip loader *)

Lemma dict_get_set {V : Type} (d : list (string * V)) (k k' : string) (v : V) :
  dict_get (dict_set d k v) k'
  = if String.eqb k k' then Some v else dict_get d k'.
Proof.
  unfold dict_get. induction d as [|[k0 v0] d IH]; simpl.
  - destruct (String.eqb k k'); reflexivity.
  - destruct (String.eqb_spec k0 k) as [->|Hne]; simpl.
    + destruct (String.eqb k k'); reflexivity.
    + destruct (String.eqb_spec k0 k') as [->|Hne'].
      * destruct (String.eqb_spec k k') as [->|_]; [congruence | reflexivity].
      * exact IH.
Qed.

Lemma dict_set_keys {V : Type} (d : list (string * V)) (k : string) (v : V) :
  map fst (dict_set d k v)
  = if in_dec string_dec k (map fst d) then map fst d else map fst d ++ [k].
Proof.
  induction d as [|[k0 v0] d IH]; simpl; [reflexivity|].
  destruct (String.eqb_spec k0 k) as [->|Hne]; simpl.
  - destruct (string_dec k k) as [Hkk|Hkk]; [reflexivity | congruence].
  - rewrite IH. destruct (string_dec k0 k) as [Heq|Hneq]; [congruence|].
    destruct (in_dec string_dec k (map fst d)); reflexivity.
Qed.

Lemma dict_set_NoDup {V : Type} (d : list (string * V)) (k : string) (v : V) :
  NoDup (map fst d) -> NoDup (map fst (dict_set d k v)).
Proof.
  intros Hnd. rewrite dict_set_keys.
  destruct (in_dec string_dec k (map fst d)) as [Hin|Hnot]; [assumption|].
  apply NoDup_app; [assumption | repeat constructor; auto |].
  intros a Ha [<-|[]]. contradiction.
Qed.

Lemma dict_set_length {V : Type} (d : list (string * V)) (k : string) (v : V) :
  (List.length (dict_set d k v) <= S (List.length d))%nat.
Proof.
  induction d as [|[k0 v0] d IH]; simpl; [lia|].
  destruct (String.eqb k0 k); simpl; lia.
Qed.

Lemma fold_dict_set_spec (files : Listing) (acc : list (string * list RawTrip)) :
  NoDup (map fst acc) ->
  let d := fold_left (fun trips_df_dict f =>
                        dict_set trips_df_dict (remove_dot_csv 0 (fst f)) (snd f))
                     files acc in
  NoDup (map fst d)
  /\ (List.length d <= List.length acc + List.length files)%nat
  /\ forall k,
       dict_get d k
       = fold_left (fun found f => if String.eqb (file_key f) k then Some (snd f) else found)
                   files (dict_get acc k).
Proof.
  revert acc. induction files as [|f files IH]; intros acc Hnd; simpl.
  - repeat split; [assumption | lia].
  - destruct (IH (dict_set acc (remove_dot_csv 0 (fst f)) (snd f))
                 (dict_set_NoDup _ _ _ Hnd)) as [H1 [H2 H3]].
    split; [exact H1|]. split.
    + pose proof (dict_set_length acc (remove_dot_csv 0 (fst f)) (snd f)). lia.
    + intros k. rewrite H3, dict_get_set. reflexivity.
Qed.

(** X1: the trip loader raises FileNotFoundError exactly when no name of
    the directory ends in [.csv]; otherwise it returns a dict with pairwise
    distinct keys, at most one entry per CSV file, in which each key holds
    the rows of the last listed CSV file that has this key (an earlier file
    with the same key is lost). *)
Theorem load_all_trip_csvs_last_file_wins :
  forall raw_trips_dir : Listing,
    (csv_files raw_trips_dir = [] ->
     _load_all_trip_csvs raw_trips_dir = Raise (FileNotFoundError "No CSV files found"))
    /\ (csv_files raw_trips_dir <> [] ->
        exists trips_df_dict,
          _load_all_trip_csvs raw_trips_dir = Ok trips_df_dict
          /\ NoDup (map fst trips_df_dict)
          /\ (List.length trips_df_dict <= List.length (csv_files raw_trips_dir))%nat
          /\ forall k,
               dict_get trips_df_dict k = last_with_key (csv_files raw_trips_dir) k).
Proof.
  intros raw_trips_dir. unfold _load_all_trip_csvs. fold (csv_files raw_trips_dir).
  split.
  - intros ->. reflexivity.
  - intros Hne. destruct (csv_files raw_trips_dir) as [|f files] eqn:Hcsv; [congruence|].
    eexists. split; [reflexivity|].
    destruct (fold_dict_set_spec (f :: files) [] (NoDup_nil _)) as [H1 [H2 H3]].
    split; [exact H1|]. split; [exact H2|]. exact H3.
Qed.

(** ** Same files, same outputs *)








(** ** Files named by a stem without a dot *)

Lemma prefix_dot_csv_head (c : ascii) (s : string) :
  Ascii.eqb c "." = false -> String.prefix ".csv" (String c s) = false.
Proof.
  intros Hc.
  change (String.prefix ".csv" (String c s))
    with (if ascii_dec "." c then String.prefix "csv" s else false).
  destruct (ascii_dec "." c) as [Heq|Hne]; [|reflexivity].
  subst c. discriminate Hc.
Qed.

Lemma remove_dot_csv_stem (stem : string) :
  has_dot stem = false -> remove_dot_csv 0 (stem ++ ".csv") = stem.
Proof.
  induction stem as [|c stem IH]; intros Hdot; [reflexivity|].
  simpl in Hdot. apply orb_false_iff in Hdot. destruct Hdot as [Hc Hrest].
  change ((String c stem ++ ".csv")%string) with (String c (stem ++ ".csv")).
  cbn [remove_dot_csv]. rewrite (prefix_dot_csv_head c _ Hc).
  now rewrite IH.
Qed.

Lemma substring_skip_append (s t : string) :
  substring (String.length s) (String.length t) (s ++ t) = t.
Proof.
  induction s as [|c s IH]; simpl.
  - induction t as [|c t IHt]; simpl; [reflexivity | now rewrite IHt].
  - exact IH.
Qed.

Lemma length_append (s t : string) :
  String.length (s ++ t) = (String.length s + String.length t)%nat.
Proof.
  induction s as [|c s IH]; simpl; [reflexivity | now rewrite IH].
Qed.

Lemma endswith_append (s suffix : string) : endswith (s ++ suffix) suffix = true.
Proof.
  unfold endswith. rewrite length_append.
  replace (String.length s + String.length suffix - String.length suffix)%nat
    with (String.length s) by lia.
  rewrite substring_skip_append, String.eqb_refl, andb_true_r.
  apply Nat.leb_le. lia.
Qed.

Lemma csv_files_named (files : list (string * list RawTrip)) :
  csv_files (named_listing files) = named_listing files.
Proof.
  unfold csv_files, named_listing. induction files as [|f files IH]; simpl;
    [reflexivity|].
  rewrite endswith_append. now rewrite IH.
Qed.

Lemma file_keys_named (files : list (string * list RawTrip)) :
  (forall f, In f files -> has_dot (fst f) = false) ->
  map file_key (named_listing files) = map fst files.
Proof.
  unfold named_listing, file_key. induction files as [|f files IH]; intros Hdot;
    simpl; [reflexivity|].
  rewrite remove_dot_csv_stem by (apply Hdot; now left).
  f_equal. apply IH. intros g Hg. apply Hdot. now right.
Qed.






Lemma NoDup_april_keys :
  NoDup (map file_key (csv_files (raw_trips_dir april_context))).
Proof.
  change (raw_trips_dir april_context) with (named_listing april_files).
  rewrite csv_files_named, file_keys_named.
  - repeat constructor; simpl; intuition discriminate.
  - intros f [<-|[<-|[]]]; reflexivity.
Qed.

(** X3: files named [stem.csv] with pairwise distinct stems that contain no
    dot are all found by the loader and stored under their stems, in
    listing order: no file replaces another. *)
Theorem dot_free_stems_are_the_dict_keys :
  forall files : list (string * list RawTrip),
    files <> [] ->
    (forall f, In f files -> has_dot (fst f) = false) ->
    NoDup (map fst files) ->
    _load_all_trip_csvs (named_listing files) = Ok files.
Proof.
  intros files Hne Hdot Hnd.
  unfold _load_all_trip_csvs. fold (csv_files (named_listing files)).
  rewrite csv_files_named.
  destruct (named_listing files) as [|g rest] eqn:Hnamed.
  { destruct files; [congruence | discriminate]. }
  rewrite <- Hnamed. f_equal.
  rewrite fold_dict_set_distinct.
  - cbn [app]. unfold named_listing. rewrite map_map.
    rewrite <- (map_id files) at 2. apply map_ext_in. intros f Hf.
    unfold file_key. cbn [fst snd].
    rewrite remove_dot_csv_stem by now apply Hdot.
    now destruct f.
  - now rewrite file_keys_named.
  - intros f _ [].
Qed.

Lemma dot_free_stems_are_the_dict_keys_witness :
  april_files <> []
  /\ (forall f, In f april_files -> has_dot (fst f) = false)
  /\ NoDup (map fst april_files)
  /\ _load_all_trip_csvs (named_listing april_files) = Ok april_files.
Proof.
  assert (Hdot : forall f, In f april_files -> has_dot (fst f) = false)
    by (intros f [<-|[<-|[]]]; reflexivity).
  assert (Hnd : NoDup (map fst april_files))
    by (repeat constructor; simpl; intuition discriminate).
  split; [discriminate|]. split; [exact Hdot|]. split; [exact Hnd|].
  exact (dot_free_stems_are_the_dict_keys april_files ltac:(discriminate) Hdot Hnd).
Defined.

Lemma aggregate_trips_listing_order_witness :
  set_iteration_order first_seen_order
  /\ set_iteration_order last_seen_order
  /\ Permutation (raw_trips_dir april_context) (rev (raw_trips_dir april_context))
  /\ NoDup (map file_key (csv_files (raw_trips_dir april_context)))
  /\ aggregate_trips sample_to_datetime first_seen_order
       sample_daily_to_csv sample_hourly_to_csv
       (mkContext (raw_trips_dir april_context) (Some sample_stations)
                  (JsonList ["A"; "B"]) (19448 * ns_per_day))
     = aggregate_trips sample_to_datetime last_seen_order
         sample_daily_to_csv sample_hourly_to_csv
         (mkContext (rev (raw_trips_dir april_context)) (Some sample_stations)
                    (JsonList ["A"; "B"]) (19448 * ns_per_day)).
Proof.
  split; [exact first_seen_order_ok|]. split; [exact last_seen_order_ok|].
  split; [apply Permutation_rev|]. split; [exact NoDup_april_keys|].
  exact (aggregate_trips_listing_order sample_to_datetime
           sample_daily_to_csv sample_hourly_to_csv
           first_seen_order last_seen_order
           (raw_trips_dir april_context) (rev (raw_trips_dir april_context))
           (Some sample_stations) (JsonList ["A"; "B"]) (19448 * ns_per_day)
           first_seen_order_ok last_seen_order_ok
           (Permutation_rev _) NoDup_april_keys).
Defined.

(** ** The cleaner as a row-local filter *)

Lemma clean_survivors_eq (metadata_station_ids : list string) (all_trips : list Trip) :
  filter (fun r => negb (same_station r && short_duration r))
    (filter in_duration_range
       (_calculate_trip_duration
          (filter (fun t => negb (touches_maintenance metadata_station_ids t))
                  all_trips)))
  = map with_duration (filter (keeps metadata_station_ids) all_trips).
Proof.
  unfold _calculate_trip_duration.
  rewrite !filter_map_swap, !filter_filter. f_equal.
  apply filter_ext. intros t. unfold keeps. now rewrite andb_assoc.
Qed.

Lemma clean_trip_data_cases (all_trips : list Trip) (metadata_station_ids : list string) :
  (filter (fun t => negb (touches_maintenance metadata_station_ids t)) all_trips = []
   /\ _clean_trip_data all_trips metadata_station_ids = Raise ZeroDivisionError)
  \/ (filter (fun t => negb (touches_maintenance metadata_station_ids t)) all_trips <> []
      /\ _clean_trip_data all_trips metadata_station_ids
         = Ok (map with_duration (filter (keeps metadata_station_ids) all_trips))).
Proof.
  rewrite clean_trip_data_eq.
  destruct (filter (fun t => negb (touches_maintenance metadata_station_ids t)) all_trips)
    as [|k kept] eqn:Hkept.
  - left. split; reflexivity.
  - right. split; [discriminate|]. rewrite <- Hkept. now rewrite clean_survivors_eq.
Qed.

(** X5: the cleaner as one row-local filter.  Whenever the cleaner returns
    a table, the table holds, in input order and each with its duration,
    exactly the input rows that pass one test of the row alone (no station
    id that starts with X and is absent from the metadata ids, a duration
    from 1 to 120 minutes, and not a same-station trip under 3 minutes),
    and some input trip touches no maintenance id; when no input trip is
    left by the maintenance filter (an empty input included) a log line
    divides by zero. *)
Theorem clean_trip_data_row_local :
  forall (all_trips : list Trip) (metadata_station_ids : list string),
    (filter (fun t => negb (touches_maintenance metadata_station_ids t)) all_trips = [] ->
     _clean_trip_data all_trips metadata_station_ids = Raise ZeroDivisionError)
    /\ (forall cleaned : list DTrip,
          _clean_trip_data all_trips metadata_station_ids = Ok cleaned ->
          cleaned = map with_duration (filter (keeps metadata_station_ids) all_trips)
          /\ exists t, In t all_trips
                       /\ touches_maintenance metadata_station_ids t = false).
Proof.
  intros all_trips ids.
  destruct (clean_trip_data_cases all_trips ids) as [[Hk Hc]|[Hk Hc]].
  - split; [intros _; exact Hc|]. intros cleaned He. congruence.
  - split; [intros H0; contradiction|]. intros cleaned He.
    rewrite Hc in He. inversion He. split; [reflexivity|].
    destruct (filter (fun t => negb (touches_maintenance ids t)) all_trips)
      as [|t kept] eqn:Hkept; [congruence|].
    assert (Hin : In t (filter (fun t => negb (touches_maintenance ids t)) all_trips))
      by (rewrite Hkept; now left).
    apply filter_In in Hin. destruct Hin as [Hin Ht].
    exists t. split; [assumption|]. now apply negb_true_iff in Ht.
Qed.

Lemma clean_trip_data_Ok_keeps
    (all_trips : list Trip) (metadata_station_ids : list string) (cleaned : list DTrip) :
  _clean_trip_data all_trips metadata_station_ids = Ok cleaned ->
  filter (fun t => negb (touches_maintenance metadata_station_ids t)) all_trips <> []
  /\ cleaned = map with_duration (filter (keeps metadata_station_ids) all_trips).
Proof.
  intros Hc. destruct (clean_trip_data_cases all_trips metadata_station_ids)
    as [[Hk Hc']|[Hk Hc']]; rewrite Hc' in Hc; [discriminate|].
  inversion Hc. split; [assumption | reflexivity].
Qed.

(** X6: cleaning distributes over concatenation: when the cleaner returns
    on two tables, cleaning the first followed by the second returns the
    first cleaned table followed by the second (whether a row is kept does
    not depend on the other rows, although the maintenance ids are
    collected from the whole table). *)
Theorem clean_trip_data_app :
  forall (trips1 trips2 : list Trip) (metadata_station_ids : list string)
         (cleaned1 cleaned2 : list DTrip),
    _clean_trip_data trips1 metadata_station_ids = Ok cleaned1 ->
    _clean_trip_data trips2 metadata_station_ids = Ok cleaned2 ->
    _clean_trip_data (trips1 ++ trips2) metadata_station_ids = Ok (cleaned1 ++ cleaned2).
Proof.
  intros trips1 trips2 ids cleaned1 cleaned2 H1 H2.
  apply clean_trip_data_Ok_keeps in H1, H2.
  destruct H1 as [Hk1 ->], H2 as [Hk2 ->].
  destruct (clean_trip_data_cases (trips1 ++ trips2) ids) as [[Hk Hc]|[Hk Hc]].
  - rewrite filter_app in Hk. apply app_eq_nil in Hk. tauto.
  - rewrite Hc, filter_app, map_app. reflexivity.
Qed.

Lemma clean_trip_data_app_witness :
  _clean_trip_data [trip_a_b; trip_depot] sample_metadata_ids = Ok [with_duration trip_a_b]
  /\ _clean_trip_data [trip_false_start; trip_unlisted] sample_metadata_ids
     = Ok [with_duration trip_unlisted]
  /\ _clean_trip_data ([trip_a_b; trip_depot] ++ [trip_false_start; trip_unlisted])
       sample_metadata_ids
     = Ok ([with_duration trip_a_b] ++ [with_duration trip_unlisted]).
Proof.
  split; [reflexivity|]. split; [reflexivity|].
  apply (clean_trip_data_app [trip_a_b; trip_depot] [trip_false_start; trip_unlisted]
           sample_metadata_ids); reflexivity.
Defined.

Lemma filter_idem {A : Type} (f : A -> bool) (l : list A) :
  filter f (filter f l) = filter f l.
Proof.
  rewrite filter_filter. apply filter_ext. intros a. apply andb_diag.
Qed.

(** X7: cleaning is idempotent: the trips of a non-empty cleaned table,
    cleaned again against the same metadata ids, give the same table. *)
Theorem clean_trip_data_idempotent :
  forall (all_trips : list Trip) (metadata_station_ids : list string)
         (cleaned : list DTrip),
    _clean_trip_data all_trips metadata_station_ids = Ok cleaned ->
    cleaned <> [] ->
    _clean_trip_data (map trip cleaned) metadata_station_ids = Ok cleaned.
Proof.
  intros all_trips ids cleaned Hc Hne.
  apply clean_trip_data_Ok_keeps in Hc. destruct Hc as [_ ->].
  rewrite map_map. cbn [trip with_duration]. rewrite map_id.
  assert (Hall : filter (fun t => negb (touches_maintenance ids t))
                       (filter (keeps ids) all_trips)
                = filter (keeps ids) all_trips).
  { rewrite filter_filter. apply filter_ext. intros t. unfold keeps.
    destruct (touches_maintenance ids t); simpl; [reflexivity|].
    now rewrite andb_true_r. }
  destruct (clean_trip_data_cases (filter (keeps ids) all_trips) ids) as [[Hk Hc]|[Hk Hc]].
  - exfalso. apply Hne. rewrite Hall in Hk. now rewrite Hk.
  - now rewrite Hc, filter_idem.
Qed.

Lemma clean_trip_data_idempotent_witness :
  _clean_trip_data sample_trips sample_metadata_ids = Ok sample_cleaned
  /\ sample_cleaned <> []
  /\ _clean_trip_data (map trip sample_cleaned) sample_metadata_ids = Ok sample_cleaned.
Proof.
  split; [reflexivity|]. split; [discriminate|].
  apply (clean_trip_data_idempotent sample_trips sample_metadata_ids sample_cleaned);
    [reflexivity | discriminate].
Defined.

(** ** Durations in nanoseconds *)

Lemma minutes_ge (n x : Z) :
  Qle_bool (inject_Z n) ((inject_Z x / inject_Z ns_per_second) / 60)%Q = true
  <-> n * ns_per_minute <= x.
Proof.
  rewrite Qle_bool_iff.
  unfold Qle, Qdiv, Qmult, Qinv, inject_Z, ns_per_minute, ns_per_second.
  simpl Qnum. simpl Qden. lia.
Qed.

Lemma minutes_le (n x : Z) :
  Qle_bool ((inject_Z x / inject_Z ns_per_second) / 60)%Q (inject_Z n) = true
  <-> x <= n * ns_per_minute.
Proof.
  rewrite Qle_bool_iff.
  unfold Qle, Qdiv, Qmult, Qinv, inject_Z, ns_per_minute, ns_per_second.
  simpl Qnum. simpl Qden. lia.
Qed.

(** X8: in every row the cleaner returns, both timestamps are present and
    the trip ends at least one minute and at most 120 minutes after it
    starts (so no cleaned trip ends before it starts); when both station
    ids are the same text, it lasts at least three minutes. *)
Theorem cleaned_rows_timestamp_bounds :
  forall (all_trips : list Trip) (metadata_station_ids : list string)
         (cleaned : list DTrip),
    _clean_trip_data all_trips metadata_station_ids = Ok cleaned ->
    forall r : DTrip, In r cleaned ->
      exists s e : Z,
        started_at r = Some s /\ ended_at r = Some e
        /\ 1 * ns_per_minute <= e - s <= 120 * ns_per_minute
        /\ (forall id, start_station_id r = Some id -> end_station_id r = Some id ->
                       3 * ns_per_minute <= e - s).
Proof.
  intros all_trips ids cleaned Hclean r Hin.
  destruct (cleaned_row_inv _ _ _ _ Hclean Hin) as [Hfs [Hrange [Hwd _]]].
  rewrite Hwd in Hfs, Hrange.
  unfold in_duration_range, same_station, short_duration, ge_const, le_const, lt_const
    in Hfs, Hrange.
  cbn [min_duration trip with_duration] in Hfs, Hrange.
  unfold duration_minutes in Hfs, Hrange.
  destruct (started_at (trip r)) as [s|]; [|discriminate].
  destruct (ended_at (trip r)) as [e|]; [|discriminate].
  exists s, e. split; [reflexivity|]. split; [reflexivity|].
  apply andb_true_iff in Hrange. destruct Hrange as [Hlo Hhi].
  apply (minutes_ge 1) in Hlo. apply (minutes_le 120) in Hhi.
  split; [lia|].
  intros id Hs He. rewrite Hs, He in Hfs. cbn [cell_eq] in Hfs.
  rewrite String.eqb_refl in Hfs. cbn [andb] in Hfs.
  apply negb_true_iff, negb_false_iff in Hfs.
  now apply (minutes_ge 3) in Hfs.
Qed.

Lemma cleaned_rows_timestamp_bounds_witness :
  _clean_trip_data sample_trips sample_metadata_ids = Ok sample_cleaned
  /\ forall r : DTrip, In r sample_cleaned ->
       exists s e : Z,
         started_at r = Some s /\ ended_at r = Some e
         /\ 1 * ns_per_minute <= e - s <= 120 * ns_per_minute
         /\ (forall id, start_station_id r = Some id -> end_station_id r = Some id ->
                        3 * ns_per_minute <= e - s).
Proof.
  split; [reflexivity|].
  apply (cleaned_rows_timestamp_bounds sample_trips sample_metadata_ids).
  reflexivity.
Defined.

(** ** The daily aggregator on any table *)

Lemma dropna_length_filter {A B : Type} (f : A -> option B) (l : list A) :
  List.length (dropna (map f l))
  = List.length (filter (fun a => match f a with Some _ => true | None => false end) l).
Proof.
  induction l as [|a l IH]; simpl; [reflexivity|].
  destruct (f a); simpl; now rewrite IH.
Qed.

Lemma no_dates_iff (all_trips : list DTrip) :
  dropna (map trip_date all_trips) = [] <->
  forall r, In r all_trips -> started_at r = None.
Proof.
  split.
  - intros Hks r Hr. destruct (started_at r) as [ts|] eqn:Hs; [|reflexivity].
    assert (Hin : In (dt_date ts) (dropna (map trip_date all_trips))).
    { apply In_dropna, in_map_iff. exists r. split; [|assumption].
      unfold trip_date. now rewrite Hs. }
    rewrite Hks in Hin. destruct Hin.
  - intros Hall. destruct (dropna (map trip_date all_trips)) as [|d ks] eqn:Hks;
      [reflexivity|].
    assert (Hin : In d (dropna (map trip_date all_trips))) by (rewrite Hks; now left).
    apply In_dropna, in_map_iff in Hin. destruct Hin as [r [Hd Hr]].
    unfold trip_date in Hd. rewrite (Hall r Hr) in Hd. discriminate.
Qed.

(** X9: the daily aggregator on any table, cleaned or not: it raises the
    ValueError of [pd.date_range] exactly when no row has a start timestamp
    (an empty table, or only null starts); otherwise it returns one row per
    day from the earliest to the latest start date of the table (both are
    dates on which a row starts, and every start date lies between them),
    as many rows as days in that range, each counting the rows that start
    on its day, and the counts add up to the number of rows with a start
    timestamp: rows without one are left out silently. *)
Theorem daily_aggregates_on_any_table :
  forall all_trips : list DTrip,
    ((forall r, In r all_trips -> started_at r = None) ->
     _generate_daily_aggregates all_trips
     = Raise (ValueError "Neither `start` nor `end` can be NaT"))
    /\ ((exists r, In r all_trips /\ started_at r <> None) ->
        exists (daily : list DailyRow) (lo hi : Z),
          _generate_daily_aggregates all_trips = Ok daily
          /\ (exists r, In r all_trips /\ trip_date r = Some lo)
          /\ (exists r, In r all_trips /\ trip_date r = Some hi)
          /\ (forall r d, In r all_trips -> trip_date r = Some d -> lo <= d <= hi)
          /\ map date daily = date_range lo hi
          /\ lo <= hi
          /\ List.length daily = Z.to_nat (hi - lo + 1)
          /\ (forall row, In row daily ->
                trip_count row = Z.of_nat (trips_on (date row) all_trips))
          /\ sum_Z (map trip_count daily)
             = Z.of_nat (List.length (filter has_start all_trips))).
Proof.
  intros all_trips. split.
  - intros Hall. apply generate_daily_aggregates_no_dates. now apply no_dates_iff.
  - intros [r0 [Hr0 Hs0]].
    assert (Hne : dropna (map trip_date all_trips) <> []).
    { intros H0. apply Hs0. exact (proj1 (no_dates_iff all_trips) H0 r0 Hr0). }
    destruct (generate_daily_aggregates_eq all_trips Hne)
      as [lo [hi [[Hlo_in Hlo_le] [[Hhi_in Hhi_le] Heq]]]].
    assert (Hcol : map date
                     (map (fun d => {| date := d;
                                       trip_count := Z.of_nat (trips_on d all_trips) |})
                          (date_range lo hi))
                   = date_range lo hi)
      by (rewrite map_map; apply map_id).
    eexists; exists lo, hi. split; [exact Heq|].
    split.
    { apply In_dropna, in_map_iff in Hlo_in. destruct Hlo_in as [r [Hd Hr]]. eauto. }
    split.
    { apply In_dropna, in_map_iff in Hhi_in. destruct Hhi_in as [r [Hd Hr]]. eauto. }
    split.
    { intros r d Hr Hd.
      assert (Hin : In d (dropna (map trip_date all_trips))).
      { apply In_dropna, in_map_iff. exists r. split; assumption. }
      split; [now apply Hlo_le | now apply Hhi_le]. }
    split; [exact Hcol|].
    split; [now apply Hlo_le|].
    split.
    { rewrite length_map. unfold date_range. now rewrite length_map, length_seq. }
    split.
    { intros row Hrow. apply in_map_iff in Hrow. destruct Hrow as [d [<- _]].
      reflexivity. }
    rewrite map_map. simpl.
    rewrite (sum_Z_of_nat (fun d => trips_on d all_trips)).
    rewrite (map_ext (fun d => trips_on d all_trips)
               (count_occ Z.eq_dec (dropna (map trip_date all_trips))))
      by (intros d; symmetry; apply count_occ_trips_on).
    rewrite sum_count_occ.
    + f_equal. rewrite dropna_length_filter. f_equal.
      apply filter_ext. intros r. unfold trip_date, has_start.
      now destruct (started_at r).
    + apply strictly_sorted_NoDup, date_range_sorted.
    + intros d Hd. apply date_range_In.
      split; [now apply Hlo_le | now apply Hhi_le].
Qed.

(** X10: the two aggregators do not depend on the order of the rows of the
    table: two tables with the same rows in any order give the same daily
    frame and the same hourly frame (or the same error). *)
Theorem aggregates_do_not_depend_on_row_order :
  forall all_trips1 all_trips2 : list DTrip,
    Permutation all_trips1 all_trips2 ->
    _generate_daily_aggregates all_trips1 = _generate_daily_aggregates all_trips2
    /\ forall (stations_doc : json_doc) (hourly_start : Z),
         _generate_hourly_station_aggregates all_trips1 stations_doc hourly_start
         = _generate_hourly_station_aggregates all_trips2 stations_doc hourly_start.
Proof.
  intros all_trips1 all_trips2 Hperm. split.
  - now apply generate_daily_aggregates_perm.
  - intros stations_doc hourly_start.
    now apply generate_hourly_station_aggregates_perm.
Qed.

Lemma aggregates_do_not_depend_on_row_order_witness :
  Permutation sample_cleaned (rev sample_cleaned)
  /\ _generate_daily_aggregates sample_cleaned
     = _generate_daily_aggregates (rev sample_cleaned)
  /\ _generate_hourly_station_aggregates sample_cleaned (JsonList ["A"; "B"]) 0
     = _generate_hourly_station_aggregates (rev sample_cleaned) (JsonList ["A"; "B"]) 0.
Proof.
  split; [apply Permutation_rev|].
  destruct (aggregates_do_not_depend_on_row_order sample_cleaned (rev sample_cleaned)
              (Permutation_rev _)) as [Hd Hh].
  split; [exact Hd | apply Hh].
Defined.

(** ** The rows of the hourly frame *)

Lemma sorted_NoDup_strict {A : Type} (g : A -> Key) (l : list A) :
  StronglySorted (fun a b => Key_leb (g a) (g b) = true) l ->
  NoDup (map g l) ->
  StronglySorted (fun a b => Key_compare (g a) (g b) = Lt) l.
Proof.
  induction 1 as [|x l Hs IH Hall]; intros Hnd; constructor.
  - apply IH. now inversion Hnd.
  - inversion Hnd as [|? ? Hnotin _]; subst.
    rewrite Forall_forall in *. intros y Hy.
    specialize (Hall y Hy). unfold Key_leb in Hall.
    destruct (Key_compare (g x) (g y)) eqn:Hc; try discriminate; [|reflexivity].
    exfalso. apply Hnotin. apply Key_compare_eq in Hc. rewrite Hc.
    now apply in_map.
Qed.

(** What the closed form of the hourly frame gives for each of its rows. *)
Lemma hourly_rows_inv
    (all_trips : list DTrip) (stations_of_interest : list string) (hourly_start : Z) :
  exists hourly : list HourlyRow,
    _generate_hourly_station_aggregates
      all_trips (JsonList stations_of_interest) hourly_start = Ok hourly
    /\ NoDup (map row_key hourly)
    /\ (forall row, In row hourly ->
          pickups row
          = Z.of_nat (pickups_at (row_key row) stations_of_interest hourly_start all_trips)
          /\ dropoffs row
             = Z.of_nat (dropoffs_at (row_key row) stations_of_interest hourly_start
                                     all_trips)
          /\ ((0 < pickups_at (row_key row) stations_of_interest hourly_start all_trips)%nat
              \/ (0 < dropoffs_at (row_key row) stations_of_interest hourly_start
                                  all_trips)%nat))
    /\ (forall k,
          (0 < pickups_at k stations_of_interest hourly_start all_trips)%nat
          \/ (0 < dropoffs_at k stations_of_interest hourly_start all_trips)%nat ->
          exists row, In row hourly /\ row_key row = k).
Proof.
  destruct (generate_hourly_station_aggregates_eq all_trips stations_of_interest hourly_start)
    as [keys [Heq [Hnd Hkeys]]].
  eexists. split; [exact Heq|]. unfold sort_values.
  assert (Hcol : Permutation
                   (map row_key
                      (sort_by (fun a b => Key_leb (row_key a) (row_key b))
                         (map (fun k =>
                                 {| row_key := k;
                                    pickups := Z.of_nat (pickups_at k stations_of_interest
                                                           hourly_start all_trips);
                                    dropoffs := Z.of_nat (dropoffs_at k stations_of_interest
                                                            hourly_start all_trips) |})
                              keys)))
                   keys).
  { eapply perm_trans; [apply Permutation_map, sort_by_perm|].
    rewrite map_map. simpl. rewrite map_id. apply Permutation_refl. }
  split; [exact (Permutation_NoDup (Permutation_sym Hcol) Hnd)|]. split.
  - intros row Hrow. rewrite sort_by_In, in_map_iff in Hrow.
    destruct Hrow as [k [<- Hk]]. simpl. repeat split. now apply Hkeys.
  - intros k Hk. apply Hkeys in Hk. eexists. split.
    + rewrite sort_by_In, in_map_iff. exists k. split; [reflexivity | exact Hk].
    + reflexivity.
Qed.

(** X11: the hourly frame is in strictly ascending order of
    (station_id, date, hour, member, ebike), station ids compared as text
    and the other columns as numbers. *)
Theorem hourly_aggregates_strictly_ascending :
  forall (all_trips : list DTrip) (stations_of_interest : list string)
         (hourly_start : Z),
  exists hourly : list HourlyRow,
    _generate_hourly_station_aggregates
      all_trips (JsonList stations_of_interest) hourly_start = Ok hourly
    /\ StronglySorted (fun a b => Key_compare (row_key a) (row_key b) = Lt) hourly.
Proof.
  intros all_trips allow hs.
  destruct (hourly_rows_inv all_trips allow hs) as [hourly [Heq [Hnd _]]].
  exists hourly. split; [exact Heq|].
  apply sorted_NoDup_strict; [|exact Hnd].
  exact (hourly_aggregates_sorted _ _ _ _ Heq).
Qed.

Lemma dt_hour_bounds (ts : Z) : 0 <= dt_hour ts <= 23.
Proof.
  unfold dt_hour.
  assert (Hday : 0 <= ts mod ns_per_day < ns_per_day)
    by (apply Z.mod_pos_bound; reflexivity).
  split.
  - apply Z.div_pos; [lia | reflexivity].
  - assert (H : (ts mod ns_per_day) / ns_per_hour < 24);
      [|lia].
    apply Z.div_lt_upper_bound; [reflexivity|].
    change (ns_per_hour * 24) with ns_per_day. lia.
Qed.

Lemma dt_date_mono (a b : Z) : a <= b -> dt_date a <= dt_date b.
Proof.
  intros Hab. unfold dt_date. apply Z.div_le_mono; [reflexivity | assumption].
Qed.

Lemma group_key_inv
    (stations_of_interest : list string) (hourly_start : Z)
    (station : cell) (r : DTrip) (k : Key) :
  ts_ge (started_at r) hourly_start = true ->
  isin station stations_of_interest = true ->
  key_is k (group_key station r) = true ->
  In (key_station_id k) stations_of_interest
  /\ dt_date hourly_start <= key_date k
  /\ 0 <= key_hour k <= 23
  /\ (key_member k = 0 \/ key_member k = 1)
  /\ (key_ebike k = 0 \/ key_ebike k = 1).
Proof.
  intros Hts Hallow Hk. apply key_is_true in Hk.
  unfold group_key, ts_ge in *.
  destruct station as [s|]; [|discriminate].
  destruct (started_at r) as [ts|]; [|discriminate].
  inversion Hk; subst k; clear Hk. simpl.
  split; [now apply existsb_eqb_In|].
  split; [apply dt_date_mono; now apply Z.leb_le|].
  split; [apply dt_hour_bounds|].
  unfold as_int.
  split; [destruct (cell_is (member_casual r) "member")
         | destruct (cell_is (rideable_type r) "electric_bike")]; auto.
Qed.

(** X12: every row of the hourly frame has a station of the allow-list, a
    date not before the date of the start threshold, an hour from 0 to 23,
    member and ebike flags that are 0 or 1, and counts at least one pickup
    or dropoff: the frame has no row for a station outside the list and no
    row with both counts 0. *)
Theorem hourly_rows_within_schema :
  forall (all_trips : list DTrip) (stations_of_interest : list string)
         (hourly_start : Z),
  exists hourly : list HourlyRow,
    _generate_hourly_station_aggregates
      all_trips (JsonList stations_of_interest) hourly_start = Ok hourly
    /\ forall row, In row hourly ->
         In (key_station_id (row_key row)) stations_of_interest
         /\ dt_date hourly_start <= key_date (row_key row)
         /\ 0 <= key_hour (row_key row) <= 23
         /\ (key_member (row_key row) = 0 \/ key_member (row_key row) = 1)
         /\ (key_ebike (row_key row) = 0 \/ key_ebike (row_key row) = 1)
         /\ 1 <= pickups row + dropoffs row.
Proof.
  intros all_trips allow hs.
  destruct (hourly_rows_inv all_trips allow hs) as [hourly [Heq [_ [Hrows _]]]].
  exists hourly. split; [exact Heq|].
  intros row Hrow. destruct (Hrows row Hrow) as [Hp [Hd Hpos]].
  assert (Hkey : In (key_station_id (row_key row)) allow
                 /\ dt_date hs <= key_date (row_key row)
                 /\ 0 <= key_hour (row_key row) <= 23
                 /\ (key_member (row_key row) = 0 \/ key_member (row_key row) = 1)
                 /\ (key_ebike (row_key row) = 0 \/ key_ebike (row_key row) = 1)).
  { destruct Hpos as [Hpos|Hpos]; apply filter_length_pos in Hpos;
      destruct Hpos as [r [_ Hc]];
      [unfold counts_as_pickup in Hc | unfold counts_as_dropoff in Hc];
      rewrite !andb_true_iff in Hc; destruct Hc as [[Hts Hallow] Hk];
      exact (group_key_inv allow hs _ r _ Hts Hallow Hk). }
  destruct Hkey as [H1 [H2 [H3 [H4 H5]]]].
  repeat (split; [assumption|]). rewrite Hp, Hd. lia.
Qed.

(** X13: a stations-of-interest file that is not a JSON list makes the
    hourly aggregator raise ValueError, whatever the trips; with a list,
    whenever the aggregator returns a frame, the frame is empty exactly
    when no trip that starts on or after the start threshold has its start
    or its end station in the list (an allow-list that excludes every trip
    gives an empty frame, not an error). *)
Theorem hourly_aggregates_empty_iff_nothing_counted :
  forall (all_trips : list DTrip) (hourly_start : Z),
    _generate_hourly_station_aggregates all_trips JsonNotAList hourly_start
    = Raise (ValueError "stations_of_interest file must contain a JSON list")
    /\ forall (stations_of_interest : list string) (hourly : list HourlyRow),
         _generate_hourly_station_aggregates
           all_trips (JsonList stations_of_interest) hourly_start = Ok hourly ->
         (hourly = [] <->
          forall r, In r all_trips ->
                    counted_somewhere stations_of_interest hourly_start r = false).
Proof.
  intros all_trips hs. split; [reflexivity|]. intros allow hourly0 Hret.
  destruct (hourly_rows_inv all_trips allow hs) as [hourly [Heq [_ [Hrows Hkeys]]]].
  rewrite Heq in Hret. inversion Hret. subst hourly0. clear Hret. split.
  - intros Hnil r Hr. apply not_true_is_false. intros Hc.
    unfold counted_somewhere in Hc. apply andb_true_iff in Hc.
    destruct Hc as [Hts Hc]. apply orb_true_iff in Hc.
    assert (Hrow : exists row, In row hourly).
    { destruct Hc as [Hallow|Hallow].
      - destruct (group_key_some allow hs (start_station_id r) r Hts Hallow) as [k Hk].
        destruct (Hkeys k) as [row [Hrow _]]; [|eauto].
        left. apply filter_length_pos. exists r. split; [assumption|].
        unfold counts_as_pickup, pickup_key. rewrite Hts, Hallow, Hk. apply key_is_refl.
      - destruct (group_key_some allow hs (end_station_id r) r Hts Hallow) as [k Hk].
        destruct (Hkeys k) as [row [Hrow _]]; [|eauto].
        right. apply filter_length_pos. exists r. split; [assumption|].
        unfold counts_as_dropoff, dropoff_key. rewrite Hts, Hallow, Hk. apply key_is_refl. }
    destruct Hrow as [row Hrow]. rewrite Hnil in Hrow. destruct Hrow.
  - intros Hnone. destruct hourly as [|row rest]; [reflexivity|]. exfalso.
    destruct (Hrows row (or_introl eq_refl)) as [_ [_ Hpos]].
    destruct Hpos as [Hpos|Hpos]; apply filter_length_pos in Hpos;
      destruct Hpos as [r [Hr Hc]]; specialize (Hnone r Hr);
      unfold counted_somewhere in Hnone;
      [unfold counts_as_pickup in Hc | unfold counts_as_dropoff in Hc];
      rewrite !andb_true_iff in Hc; destruct Hc as [[Hts Hallow] _];
      rewrite Hts, Hallow in Hnone; simpl in Hnone;
      [discriminate | rewrite orb_true_r in Hnone; discriminate].
Qed.

(** ** Validation of the context *)

Lemma validate_storage_Ok (storage : string) :
  _validate_storage storage = Ok tt <-> storage = "local" \/ storage = "drive".
Proof.
  unfold _validate_storage. simpl.
  destruct (String.eqb_spec storage "local") as [->|Hl]; simpl; [intuition|].
  destruct (String.eqb_spec storage "drive") as [->|Hd]; simpl; [intuition|].
  split; [discriminate | intros [H|H]; contradiction].
Qed.

Lemma post_init_Ok (strptime : string -> option Z)
    (output_storage hourly_start_date_str : string) (stations_file_exists : bool) :
  post_init strptime output_storage hourly_start_date_str stations_file_exists = Ok tt
  <-> (output_storage = "local" \/ output_storage = "drive")
      /\ (exists date, strptime hourly_start_date_str = Some date /\ min_date <= date)
      /\ stations_file_exists = true.
Proof.
  unfold post_init, _validate_hourly_start_date, _validate_stations_file.
  rewrite <- validate_storage_Ok.
  destruct (_validate_storage output_storage) as [[]|e]; cbn [bind].
  - destruct (strptime hourly_start_date_str) as [date|]; cbn [bind].
    + destruct (Z.ltb_spec date min_date) as [Hlt|Hge]; cbn [bind].
      * split; [discriminate|]. intros [_ [[d [Hd Hle]] _]]. inversion Hd. lia.
      * destruct stations_file_exists.
        -- split; [|reflexivity]. intros _. repeat split. eauto.
        -- split; [discriminate | intros [_ [_ H]]; discriminate].
    + split; [discriminate | intros [_ [[d [Hd _]] _]]; discriminate].
  - split; [discriminate | intros [H _]; discriminate].
Qed.

(** X17: the context passes its validation exactly when the storage option
    is "local" or "drive", the start date parses to a date not before
    2023-04-01, and the stations-of-interest file exists; and for a context
    that passed, the hourly frame computed from its start date holds no row
    dated before 2023-04-01 (day 19448), whatever the trips. *)
Theorem validated_context_bounds_hourly_dates :
  forall (strptime : string -> option Z)
         (output_storage hourly_start_date_str : string) (stations_file_exists : bool),
    (post_init strptime output_storage hourly_start_date_str stations_file_exists = Ok tt
     <-> (output_storage = "local" \/ output_storage = "drive")
         /\ (exists date, strptime hourly_start_date_str = Some date /\ min_date <= date)
         /\ stations_file_exists = true)
    /\ (post_init strptime output_storage hourly_start_date_str stations_file_exists = Ok tt ->
        exists hourly_start : Z,
          strptime hourly_start_date_str = Some hourly_start
          /\ forall (all_trips : list DTrip) (stations_of_interest : list string),
             exists hourly : list HourlyRow,
               _generate_hourly_station_aggregates
                 all_trips (JsonList stations_of_interest) hourly_start = Ok hourly
               /\ forall row, In row hourly -> 19448 <= key_date (row_key row)).
Proof.
  intros strptime output_storage date_str file_exists.
  split; [apply post_init_Ok|]. intros Hok.
  apply post_init_Ok in Hok. destruct Hok as [_ [[hs [Hparse Hmin]] _]].
  exists hs. split; [exact Hparse|].
  intros all_trips allow.
  destruct (hourly_rows_inv all_trips allow hs) as [hourly [Heq [_ [Hrows _]]]].
  exists hourly. split; [exact Heq|].
  intros row Hrow. destruct (Hrows row Hrow) as [_ [_ Hpos]].
  assert (Hdate : dt_date hs <= key_date (row_key row)).
  { destruct Hpos as [Hpos|Hpos]; apply filter_length_pos in Hpos;
      destruct Hpos as [r [_ Hc]];
      [unfold counts_as_pickup in Hc | unfold counts_as_dropoff in Hc];
      rewrite !andb_true_iff in Hc; destruct Hc as [[Hts Hallow] Hk];
      exact (proj1 (proj2 (group_key_inv allow hs _ r _ Hts Hallow Hk))). }
  pose proof (dt_date_mono min_date hs Hmin) as Hmono.
  change (dt_date min_date) with 19448 in Hmono. lia.
Qed.

(** The validators run in the order storage, start date, stations file:
    the first one that fails gives the error. *)
Example scenario_validation_order :
  post_init sample_strptime "s3" "2021-01-01" false
  = Raise (ValueError "output_storage must be one of ['local', 'drive']")
  /\ post_init sample_strptime "drive" "2021-01-01" false
     = Raise (ValueError "hourly_start_date must be 2023-04-01 or later (new station ID system)")
  /\ post_init sample_strptime "drive" "01/04/2023" false
     = Raise (ValueError "hourly_start_date must be in YYYY-MM-DD format")
  /\ post_init sample_strptime "drive" "2023-04-01" false
     = Raise (FileNotFoundError "Stations of interest file not found")
  /\ post_init sample_strptime "drive" "2023-04-01" true = Ok tt.
Proof. repeat split. Qed.

(** A file in the recent format loses [ride_id] and keeps its other
    columns, in the order of the canonical names. *)
Example scenario_recent_frame :
  standardize_frame recent_frame
  = [("started_at", 2%nat); ("ended_at", 3%nat); ("start_station_id", 4%nat);
     ("end_station_id", 5%nat); ("member_casual", 6%nat); ("rideable_type", 1%nat)].
Proof. reflexivity. Qed.

(** ** How a run can end *)

Lemma load_and_clean_errors
    (to_datetime : string -> option Z) (set_to_list : list string -> list string)
    (ctx : AggregateTripsContext) (e : exn) :
  load_and_clean to_datetime set_to_list ctx = Raise e ->
  e = FileNotFoundError "No CSV files found"
  \/ e = FileNotFoundError "Station metadata file not found"
  \/ e = ZeroDivisionError.
Proof.
  unfold load_and_clean, _load_and_prepare_trips, _load_all_trip_csvs,
    _load_station_metadata.
  destruct (filter _ (raw_trips_dir ctx)) as [|f files]; cbn [bind].
  - intros H. inversion H. auto.
  - destruct (station_metadata_path ctx) as [df|]; cbn [bind snd].
    + intros H. match type of H with
        | _clean_trip_data ?a ?i = _ =>
            destruct (clean_trip_data_cases a i) as [[_ Hc]|[_ Hc]]
        end; rewrite Hc in H; [inversion H; auto | discriminate].
    + intros H. inversion H. auto.
Qed.

(** X18: what a run leaves behind.  It ends well exactly when it wrote the
    hourly file, and it never writes the hourly file without the daily
    file; a daily file it wrote holds the daily frame of the cleaned table,
    which then has at least one row; and with a stations-of-interest file
    that is not a JSON list the run writes no hourly file and, failed as it
    is, has written the daily file exactly when its error is the ValueError
    of that file: the list is only read after the daily file is on disk. *)
Theorem aggregate_trips_outcomes :
  forall (to_datetime : string -> option Z)
         (set_to_list : list string -> list string)
         (daily_to_csv : list DailyRow -> string)
         (hourly_to_csv : list HourlyRow -> string)
         (ctx : AggregateTripsContext) (out : Outputs) (status : result unit),
    aggregate_trips to_datetime set_to_list daily_to_csv hourly_to_csv ctx
    = (out, status) ->
    (status = Ok tt <-> exists bytes, hourly_station_aggregates_csv out = Some bytes)
    /\ (forall bytes, hourly_station_aggregates_csv out = Some bytes ->
                      exists bytes', daily_aggregates_csv out = Some bytes')
    /\ (forall bytes, daily_aggregates_csv out = Some bytes ->
          exists (cleaned : list DTrip) (daily : list DailyRow),
            load_and_clean to_datetime set_to_list ctx = Ok cleaned
            /\ cleaned <> []
            /\ _generate_daily_aggregates cleaned = Ok daily
            /\ bytes = daily_to_csv daily)
    /\ (stations_of_interest_path ctx = JsonNotAList ->
        hourly_station_aggregates_csv out = None
        /\ ((exists bytes, daily_aggregates_csv out = Some bytes) <->
            status = Raise (ValueError "stations_of_interest file must contain a JSON list"))).
Proof.
  intros to_datetime set_to_list daily_to_csv hourly_to_csv ctx out status.
  unfold aggregate_trips.
  destruct (load_and_clean to_datetime set_to_list ctx) as [all_trips|e0] eqn:Hload.
  - destruct (_generate_daily_aggregates all_trips) as [daily|e1] eqn:Hdaily.
    + assert (Hne : all_trips <> []).
      { intros ->. vm_compute in Hdaily. discriminate. }
      destruct (_generate_hourly_station_aggregates all_trips
                  (stations_of_interest_path ctx) (hourly_start_date ctx))
        as [hourly|e2] eqn:Hhourly; intros H; inversion H; subst; clear H; cbn.
      * split; [split; eauto|]. split; [eauto|]. split.
        -- intros bytes Hb. inversion Hb. exists all_trips, daily. auto.
        -- intros Hdoc. rewrite Hdoc in Hhourly. discriminate.
      * split; [split; [discriminate | intros [b Hb]; discriminate]|].
        split; [intros b Hb; discriminate|]. split.
        -- intros bytes Hb. inversion Hb. exists all_trips, daily. auto.
        -- intros Hdoc. rewrite Hdoc in Hhourly. cbn in Hhourly.
           inversion Hhourly. split; [reflexivity|]. split; [reflexivity | eauto].
    + intros H; inversion H; subst; clear H; cbn.
      assert (He1 : e1 = ValueError "Neither `start` nor `end` can be NaT").
      { unfold _generate_daily_aggregates in Hdaily.
        destruct (series_min _); [destruct (series_max _)|];
          [discriminate | now inversion Hdaily | now inversion Hdaily]. }
      split; [split; [discriminate | intros [b Hb]; discriminate]|].
      split; [intros b Hb; discriminate|].
      split; [intros b Hb; discriminate|].
      intros _. split; [reflexivity|]. split.
      * intros [b Hb]. discriminate.
      * intros He. rewrite He1 in He. discriminate.
  - intros H; inversion H; subst; clear H; cbn.
    split; [split; [discriminate | intros [b Hb]; discriminate]|].
    split; [intros b Hb; discriminate|].
    split; [intros b Hb; discriminate|].
    intros _. split; [reflexivity|]. split.
    + intros [b Hb]. discriminate.
    + intros He.
      destruct (load_and_clean_errors _ _ _ _ Hload) as [-> | [-> | ->]]; discriminate.
Qed.

Lemma aggregate_trips_outcomes_witness :
  exists bytes : string,
    aggregate_trips sample_to_datetime first_seen_order
      sample_daily_to_csv sample_hourly_to_csv
      (mkContext (raw_trips_dir april_context) (Some sample_stations)
                 JsonNotAList (19448 * ns_per_day))
    = (mkOutputs (Some bytes) None,
       Raise (ValueError "stations_of_interest file must contain a JSON list"))
    /\ exists (cleaned : list DTrip) (daily : list DailyRow),
         load_and_clean sample_to_datetime first_seen_order
           (mkContext (raw_trips_dir april_context) (Some sample_stations)
                      JsonNotAList (19448 * ns_per_day))
         = Ok cleaned
         /\ cleaned <> []
         /\ _generate_daily_aggregates cleaned = Ok daily
         /\ bytes = sample_daily_to_csv daily.
Proof.
  eexists. split; [vm_compute; reflexivity|].
  eapply (proj1 (proj2 (proj2 (aggregate_trips_outcomes sample_to_datetime
                   first_seen_order sample_daily_to_csv sample_hourly_to_csv
                   (mkContext (raw_trips_dir april_context) (Some sample_stations)
                              JsonNotAList (19448 * ns_per_day))
                   _ _ eq_refl)))).
  vm_compute. reflexivity.
Defined.

(** ** Column standardisation *)

Lemma renamed_keep_columns (c : string) : In c keep_columns -> renamed c = c.
Proof.
  unfold keep_columns. simpl.
  intros H. repeat (destruct H as [<-|H]; [reflexivity|]). destruct H.
Qed.

Lemma keep_columns_NoDup : NoDup keep_columns.
Proof.
  unfold keep_columns. repeat constructor; simpl; intuition discriminate.
Qed.

Section Standardize.

Context {C : Type}.

Lemma select_columns_In (df : Frame C) (labels : list string) (col : string * C) :
  In col (select_columns df labels) <-> In (fst col) labels /\ In col df.
Proof.
  unfold select_columns. rewrite in_flat_map. split.
  - intros [c [Hc Hin]]. apply filter_In in Hin. destruct Hin as [Hin Heq].
    apply String.eqb_eq in Heq. subst c. auto.
  - intros [Hl Hin]. exists (fst col). split; [assumption|].
    apply filter_In. split; [assumption | apply String.eqb_refl].
Qed.

Lemma standardize_frame_In (df : Frame C) (col : string * C) :
  In col (standardize_frame df) <->
  In (fst col) keep_columns
  /\ exists old, In (old, snd col) df /\ renamed old = fst col.
Proof.
  unfold standardize_frame. rewrite select_columns_In, filter_In.
  unfold rename_columns. rewrite in_map_iff. split.
  - intros [[Hkeep _] [[old x] [Heq Hin]]]. split; [assumption|].
    exists old. subst col. simpl. auto.
  - intros [Hkeep [old [Hin Hren]]].
    assert (Hcol : exists x : string * C,
               (renamed (fst x), snd x) = col /\ In x df).
    { exists (old, snd col). split; [|assumption]. simpl. rewrite Hren.
      now destruct col. }
    split; [|exact Hcol]. split; [assumption|].
    apply existsb_eqb_In. rewrite map_map. apply in_map_iff.
    exists (old, snd col). simpl. auto.
Qed.

Lemma filter_label_flat_map (df : Frame C) (labels : list string) (c : string) :
  NoDup labels -> In c labels ->
  filter (fun col => String.eqb (fst col) c) (select_columns df labels)
  = filter (fun col => String.eqb (fst col) c) df.
Proof.
  unfold select_columns. induction labels as [|l labels IH]; intros Hnd Hin;
    [destruct Hin|].
  inversion Hnd as [|? ? Hnot Hnd']; subst. simpl. rewrite filter_app, filter_filter.
  destruct (string_dec l c) as [->|Hne].
  - rewrite (filter_ext _ (fun col => String.eqb (fst col) c))
      by (intros col; apply andb_diag).
    replace (filter (fun col => String.eqb (fst col) c)
               (flat_map (fun c0 => filter (fun col => String.eqb (fst col) c0) df) labels))
      with (@nil (string * C)); [now rewrite app_nil_r|].
    symmetry. clear IH Hin Hnd Hnd'.
    induction labels as [|l' labels IH']; [reflexivity|].
    simpl. rewrite filter_app, filter_filter.
    rewrite (filter_ext_in _ (fun _ => false)).
    + rewrite filter_false. apply IH'. intros H. apply Hnot. now right.
    + intros col _. destruct (String.eqb_spec (fst col) l') as [Hl'|]; [|reflexivity].
      destruct (String.eqb_spec (fst col) c) as [Hc|]; [|reflexivity].
      exfalso. apply Hnot. left. congruence.
  - rewrite (filter_ext_in _ (fun _ => false)).
    + rewrite filter_false. apply IH; [assumption|].
      destruct Hin as [Hl|Hin]; [contradiction | assumption].
    + intros col _. destruct (String.eqb_spec (fst col) l) as [Hl|]; [|reflexivity].
      destruct (String.eqb_spec (fst col) c) as [Hc|]; [|reflexivity].
      congruence.
Qed.

Lemma flat_map_ext_on {A B : Type} (f g : A -> list B) (l : list A) :
  (forall a, In a l -> f a = g a) -> flat_map f l = flat_map g l.
Proof.
  induction l as [|a l IH]; intros H; simpl; [reflexivity|].
  rewrite (H a) by now left. f_equal. apply IH. intros b Hb. apply H. now right.
Qed.

Lemma select_columns_idem (df : Frame C) (labels : list string) :
  NoDup labels ->
  select_columns (select_columns df labels) labels = select_columns df labels.
Proof.
  intros Hnd. unfold select_columns at 1.
  rewrite (flat_map_ext_on
             (fun c => filter (fun col => String.eqb (fst col) c) (select_columns df labels))
             (fun c => filter (fun col => String.eqb (fst col) c) df)).
  - reflexivity.
  - intros c Hc. now apply filter_label_flat_map.
Qed.

Lemma rename_columns_kept (df : Frame C) :
  (forall col, In col df -> In (fst col) keep_columns) ->
  rename_columns df = df.
Proof.
  intros Hkeep. unfold rename_columns. rewrite <- (map_id df) at 2.
  apply map_ext_in. intros [label x] Hin. simpl.
  now rewrite (renamed_keep_columns label (Hkeep _ Hin)).
Qed.

(** X15: column standardisation.  A column is in the standardised frame
    exactly when its label is one of the ten canonical names and it is an
    input column whose renamed label it carries (columns with other labels
    are dropped, no canonical column is lost); and standardising twice gives
    the same frame as standardising once. *)
Theorem standardize_frame_keeps_canonical_columns :
  forall df : Frame C,
    (forall label x,
       In (label, x) (standardize_frame df) <->
       In label keep_columns /\ exists old, In (old, x) df /\ renamed old = label)
    /\ standardize_frame (standardize_frame df) = standardize_frame df.
Proof.
  intros df. split.
  - intros label x. apply (standardize_frame_In df (label, x)).
  - assert (Hkeep : forall col, In col (standardize_frame df) -> In (fst col) keep_columns)
      by (intros col Hcol; now apply standardize_frame_In in Hcol).
    unfold standardize_frame at 1.
    rewrite (rename_columns_kept _ Hkeep).
    set (labels := filter (fun c => existsb (String.eqb c)
                                      (map fst (rename_columns df))) keep_columns).
    assert (Hlabels : filter (fun c => existsb (String.eqb c)
                                         (map fst (standardize_frame df))) keep_columns
                      = labels).
    { unfold labels. apply filter_ext_in. intros c Hc.
      apply Bool.eq_iff_eq_true. rewrite !existsb_eqb_In, !in_map_iff. split.
      - intros [col [Hl Hin]]. unfold standardize_frame in Hin.
        apply select_columns_In in Hin. destruct Hin as [_ Hin]. eauto.
      - intros [col [Hl Hin]]. exists col. split; [assumption|].
        unfold standardize_frame. apply select_columns_In. split; [|assumption].
        apply filter_In. split; [now rewrite Hl|].
        apply existsb_eqb_In, in_map_iff. eauto. }
    rewrite Hlabels. unfold standardize_frame. fold labels.
    apply select_columns_idem. unfold labels.
    apply NoDup_filter, keep_columns_NoDup.
Qed.

Lemma filter_label_at_most_one (df : Frame C) (c : string) :
  NoDup (map fst df) ->
  (List.length (filter (fun col => String.eqb (fst col) c) df) <= 1)%nat.
Proof.
  induction df as [|[l x] df IH]; intros Hnd; simpl; [lia|].
  inversion Hnd as [|? ? Hnot Hnd']; subst.
  destruct (String.eqb_spec l c) as [->|Hne]; [|now apply IH].
  simpl. rewrite (filter_ext_in _ (fun _ => false)).
  - rewrite filter_false. simpl. lia.
  - intros col Hcol. destruct (String.eqb_spec (fst col) c) as [Hc|]; [|reflexivity].
    exfalso. apply Hnot. rewrite <- Hc. now apply in_map.
Qed.

Lemma short_perm_eq {A : Type} (l1 l2 : list A) :
  (List.length l1 <= 1)%nat -> Permutation l1 l2 -> l1 = l2.
Proof.
  destruct l1 as [|a [|b l1]]; simpl; intros Hlen Hperm.
  - now apply Permutation_nil in Hperm.
  - now apply Permutation_length_1_inv in Hperm.
  - lia.
Qed.

(** X16: when the renamed labels of a frame are pairwise distinct, the
    header of the standardised frame is the list of canonical names, in
    their fixed order, restricted to those present; so two frames with the
    same columns in different column orders standardise to the same
    frame. *)
Theorem standardize_frame_column_order :
  forall df : Frame C,
    NoDup (map fst (rename_columns df)) ->
    map fst (standardize_frame df)
    = filter (fun c => existsb (String.eqb c) (map fst (rename_columns df))) keep_columns
    /\ forall df' : Frame C,
         Permutation df df' -> standardize_frame df' = standardize_frame df.
Proof.
  intros df Hnd. split.
  - unfold standardize_frame, select_columns.
    set (labels := filter _ keep_columns).
    assert (Hpresent : forall c, In c labels -> In c (map fst (rename_columns df))).
    { intros c Hc. apply filter_In in Hc. now apply existsb_eqb_In. }
    clearbody labels. induction labels as [|c labels IH]; [reflexivity|].
    simpl. rewrite map_app, IH by (intros c' Hc'; apply Hpresent; now right).
    assert (Hc : In c (map fst (rename_columns df))) by (apply Hpresent; now left).
    apply in_map_iff in Hc. destruct Hc as [col [Hl Hin]].
    pose proof (filter_label_at_most_one (rename_columns df) c Hnd) as Hlen.
    assert (Hf : In col (filter (fun col0 => String.eqb (fst col0) c) (rename_columns df)))
      by (apply filter_In; split; [assumption | now apply String.eqb_eq]).
    destruct (filter (fun col0 => String.eqb (fst col0) c) (rename_columns df))
      as [|col1 [|col2 rest]]; simpl in *; [destruct Hf | | lia].
    destruct Hf as [->|[]]. now rewrite Hl.
  - intros df' Hperm.
    assert (Hren : Permutation (rename_columns df) (rename_columns df'))
      by (unfold rename_columns; now apply Permutation_map).
    unfold standardize_frame.
    rewrite (filter_ext
               (fun c => existsb (String.eqb c) (map fst (rename_columns df')))
               (fun c => existsb (String.eqb c) (map fst (rename_columns df)))).
    + unfold select_columns. apply flat_map_ext. intros c.
      symmetry. apply short_perm_eq.
      * now apply filter_label_at_most_one.
      * now apply filter_perm.
    + intros c. apply Bool.eq_iff_eq_true. rewrite !existsb_eqb_In.
      split; apply Permutation_in; apply Permutation_map;
        [now apply Permutation_sym | assumption].
Qed.

End Standardize.

Lemma standardize_frame_column_order_witness :
  NoDup (map fst (rename_columns legacy_frame))
  /\ map fst (standardize_frame legacy_frame)
     = ["started_at"; "ended_at"; "start_station_id"; "end_station_id"; "member_casual"]
  /\ standardize_frame (rev legacy_frame) = standardize_frame legacy_frame.
Proof.
  assert (Hnd : NoDup (map fst (rename_columns legacy_frame)))
    by (repeat constructor; simpl; intuition discriminate).
  split; [exact Hnd|].
  destruct (standardize_frame_column_order legacy_frame Hnd) as [Hheader Horder].
  split; [exact Hheader|].
  apply Horder. apply Permutation_rev.
Defined.
